(** * Medical-Care-API

    A shallow embedding of the authentication middleware
    ([middleware/auth.js]), the token-signing sites of the auth router,
    the appointment routes ([routes/appointments.js]) and the role gate,
    followed by the properties established about them.

    JavaScript values, objects read by property name, early [return]s and
    [try]/[catch] are modelled as the handlers use them.  External
    libraries (jsonwebtoken, express-validator, the SQL client) enter
    through an environment record and a store model. *)

From Stdlib Require Import ZArith String Ascii List Bool Lia DecimalString.
From stdpp Require Import base option gmap strings list.

Local Open Scope string_scope.
Local Open Scope Z_scope.

(** ** JavaScript values *)

Inductive JSVal : Type :=
| VUndefined
| VNull
| VBool (b : bool)
| VNum (n : Z)
| VStr (s : string)
| VDate (t : option Z).   (* a Date object; [None] is Invalid Date *)

#[global] Instance JSVal_eq_dec : EqDecision JSVal.
Proof. solve_decision. Defined.

(** Objects are finite maps from property names to values; reading an
    absent property yields [undefined]. *)
Abbreviation Obj := (gmap string JSVal).

Definition get (o : Obj) (k : string) : JSVal := default VUndefined (o !! k).

(** [!v] is [negb (truthy v)]. *)
Definition truthy (v : JSVal) : bool :=
  match v with
  | VUndefined | VNull => false
  | VBool b => b
  | VNum n => negb (Z.eqb n 0)
  | VStr s => negb (String.eqb s "")
  | VDate _ => true
  end.

(** [a === b].  Two Date objects are distinct references. *)
Definition strict_eq (a b : JSVal) : bool :=
  match a, b with
  | VUndefined, VUndefined => true
  | VNull, VNull => true
  | VBool x, VBool y => Bool.eqb x y
  | VNum x, VNum y => Z.eqb x y
  | VStr x, VStr y => String.eqb x y
  | _, _ => false
  end.

Record JSError := { err_name : string; err_message : string }.

Definition TypeError (msg : string) : JSError :=
  {| err_name := "TypeError"; err_message := msg |}.

(** ** Strings *)

(** [s.split(sep)] for a one-character separator: always at least one
    field. *)
Fixpoint split_on (sep : ascii) (s : string) : list string :=
  match s with
  | EmptyString => [EmptyString]
  | String c r =>
      if Ascii.eqb c sep then EmptyString :: split_on sep r
      else match split_on sep r with
           | h :: t => String c h :: t
           | [] => [String c EmptyString]
           end
  end.

Definition digit_of (c : ascii) : option Z :=
  let n := Z.of_N (N_of_ascii c) in
  if (48 <=? n) && (n <=? 57) then Some (n - 48) else None.

Fixpoint read_digits (s : string) (acc : Z) (seen : bool) : option Z :=
  match s with
  | EmptyString => if seen then Some acc else None
  | String c r =>
      match digit_of c with
      | Some d => read_digits r (10 * acc + d) true
      | None => if seen then Some acc else None
      end
  end.

Fixpoint skip_spaces (s : string) : string :=
  match s with
  | String " "%char r => skip_spaces r
  | _ => s
  end.

(** [parseInt(s)] in radix 10: leading blanks, an optional sign, then the
    longest run of digits; [None] is NaN. *)
Definition parseInt (s : string) : option Z :=
  match skip_spaces s with
  | String "-"%char r => Z.opp <$> read_digits r 0 false
  | String "+"%char r => read_digits r 0 false
  | r => read_digits r 0 false
  end.

Fixpoint all_digits (s : string) : bool :=
  match s with
  | EmptyString => true
  | String c r => bool_decide (is_Some (digit_of c)) && all_digits r
  end.

(** validator.js [isInt] without options: the whole string is an optional
    sign followed by one or more digits; leading zeroes are allowed. *)
Definition isInt (s : string) : bool :=
  let digits := match s with
                | String "+"%char r => r
                | String "-"%char r => r
                | _ => s
                end in
  match digits with
  | EmptyString => false
  | String _ _ => all_digits digits
  end.

Definition decimal (n : Z) : string := NilEmpty.string_of_int (Z.to_int n).

(** [typeof v] *)
Definition js_typeof (v : JSVal) : string :=
  match v with
  | VUndefined => "undefined"
  | VNull | VDate _ => "object"
  | VBool _ => "boolean"
  | VNum _ => "number"
  | VStr _ => "string"
  end.

(** ** Responses *)

Inductive Payload : Type :=
| PNone
| PError (e : JSError)
| PErrors (fields : list string)
| PObject (o : option Obj)
| PList (l : list Obj).

Record Response := {
  status : Z;
  success : bool;
  message : option string;
  data : Payload
}.

Definition fail (code : Z) (msg : string) : Response :=
  {| status := code; success := false; message := Some msg; data := PNone |}.

Definition ok (code : Z) (msg : option string) (d : Payload) : Response :=
  {| status := code; success := true; message := msg; data := d |}.

(** ** Requests, the environment and the store *)

Record Request := {
  headers : gmap string string;
  params : Obj;
  query : Obj;
  body : Obj
}.

Inductive VerifyOutcome : Type :=
| Decoded (payload : Obj)
| VerifyThrows (e : JSError).

(** What the SQL client does with an [undefined] bind value: mysql2's
    [execute] rejects it with a TypeError, other clients send NULL. *)
Inductive BindPolicy : Type := RejectUndefined | UndefinedAsNull.

(** The external collaborators of a request: [jwt.verify] with the
    configured secret, validator.js' ISO-8601 test, [Date.parse], the clock
    read by [new Date()], and the client's bind policy. *)
Record Env := {
  jwt_verify : string -> VerifyOutcome;
  isISO8601 : string -> bool;
  Date_parse : string -> option Z;
  now : Z;
  undefined_bind : BindPolicy
}.

Record UserRow := {
  u_id : Z;
  u_name : string;
  u_email : string;
  u_type : string
}.

Record DoctorRow := {
  d_id : Z;
  d_name : string;
  d_specialization : string;
  d_open_hour : string;
  d_close_hour : string;
  d_is_active : bool;
  d_user_id : JSVal
}.

Record AppointmentRow := {
  a_id : Z;
  a_patient_id : JSVal;
  a_doctor_id : JSVal;
  a_appointment_date : JSVal;
  a_reason : JSVal;
  a_status : string;
  a_notes : JSVal
}.

(** Modelled from the spec: the [pool] export of [config/database.js] that
    the appointment routes import is missing (the file exports only
    [sequelize]); the spec describes it as a relational record store
    reached through parameterized queries.  Tables are lists of rows,
    [next_id] is the auto-increment counter of the appointments table. *)
Record Store := {
  Users : list UserRow;
  Doctors : list DoctorRow;
  Appointments : list AppointmentRow;
  next_id : Z
}.

Inductive Event : Type :=
| EvVerify (token : string)
| EvUserLookup (id : JSVal).

Record World := {
  db : Store;
  trace : list Event
}.

(** ** Handler monad: state, early [return res...json(...)] and exceptions *)

Inductive Completion (A : Type) : Type :=
| Normal (a : A)
| Return (r : Response)
| Throw (e : JSError).
Arguments Normal {A} a.
Arguments Return {A} r.
Arguments Throw {A} e.

Definition Js (A : Type) : Type := World -> Completion A * World.

(** The HTTP status sent, if a response was sent. *)
Definition status_of {A} (c : Completion A) : option Z :=
  match c with Return r => Some (status r) | _ => None end.

Definition ret {A} (a : A) : Js A := fun w => (Normal a, w).
Definition respond {A} (r : Response) : Js A := fun w => (Return r, w).
Definition throw {A} (e : JSError) : Js A := fun w => (Throw e, w).

Definition bind {A B} (m : Js A) (k : A -> Js B) : Js B :=
  fun w =>
    match m w with
    | (Normal a, w') => k a w'
    | (Return r, w') => (Return r, w')
    | (Throw e, w') => (Throw e, w')
    end.

Definition try_catch {A} (m : Js A) (handler : JSError -> Js A) : Js A :=
  fun w =>
    match m w with
    | (Throw e, w') => handler e w'
    | other => other
    end.

Declare Scope js_scope.
Delimit Scope js_scope with js.
Notation "x <- m ;; k" := (bind m (fun x => k))
  (at level 100, m at next level, right associativity) : js_scope.
Notation "m ;;; k" := (bind m (fun _ => k))
  (at level 100, right associativity) : js_scope.

Definition log (e : Event) : Js unit :=
  fun w => (Normal tt, {| db := db w; trace := (trace w ++ [e])%list |}).

Definition read_db : Js Store := fun w => (Normal (db w), w).

Definition write_db (s : Store) : Js unit :=
  fun w => (Normal tt, {| db := s; trace := trace w |}).

(** ** SQL comparison and binding *)

(** [column = ?]: NULL compares to nothing; an integer column matches a
    number, or text that is an integer literal of the same value; text
    matches text of the same spelling, a datetime the same instant. *)
Definition sql_eq (a b : JSVal) : bool :=
  match a, b with
  | VNum x, VNum y => Z.eqb x y
  | VNum x, VStr s | VStr s, VNum x =>
      isInt s && bool_decide (parseInt s = Some x)
  | VStr x, VStr y => String.eqb x y
  | VBool x, VBool y => Bool.eqb x y
  | VDate (Some x), VDate (Some y) => Z.eqb x y
  | _, _ => false
  end.

(** ** The Auth Gate: [authenticateToken] of [middleware/auth.js] *)

Definition opt_str (o : option string) : JSVal :=
  match o with Some s => VStr s | None => VUndefined end.

(** The rows of [Users] whose [id] equals the bound value. *)
Definition user_named (s : Store) (id : JSVal) : list UserRow :=
  filter (fun u => sql_eq (VNum (u_id u)) id = true) (Users s).

(** The error of [sequelize.query] for the [i]-th positional replacement. *)
Definition no_replacement (i : nat) : JSError :=
  {| err_name := "Error";
     err_message :=
       "Positional replacement (?) " +:+ decimal (Z.of_nat i)
       +:+ " has no entry in the replacement map (replacements["
       +:+ decimal (Z.of_nat i) +:+ "] is undefined)." |}.

(** The first [undefined] among the replacements of a statement, if any:
    sequelize throws on it while it writes the statement out, before
    anything is sent to the database. *)
Definition undefined_replacement (replacements : list JSVal) : option JSError :=
  (fun found => no_replacement (fst found))
    <$> list_find (fun v => v = VUndefined) replacements.

Definition replacing (replacements : list JSVal) : Js unit :=
  match undefined_replacement replacements with
  | Some e => throw e
  | None => ret tt
  end.

(** [SELECT id, email, name, type FROM Users WHERE id = ?] with the
    replacement [id]. *)
Definition users_by_id (id : JSVal) : Js (list UserRow) :=
  (replacing [id] ;;;
   log (EvUserLookup id) ;;;
   s <- read_db ;;
   ret (user_named s id))%js.

Definition verify_token (env : Env) (token : string) : Js Obj :=
  (log (EvVerify token) ;;;
   match jwt_verify env token with
   | Decoded payload => ret payload
   | VerifyThrows e => throw e
   end)%js.

Definition identity_context (user : UserRow) : Obj :=
  <["userId" := VNum (u_id user)]>
    (<["email" := VStr (u_email user)]>
       (<["name" := VStr (u_name user)]>
          (<["type" := VStr (u_type user)]> ∅))).

(** A normal completion is the call to [next()] with [req.user] set to the
    returned object. *)
Definition authenticateToken (env : Env) (req : Request) : Js Obj :=
  try_catch
    (fields <- match headers req !! "authorization" with
               | Some authHeader => ret (split_on " " authHeader)
               | None => throw (TypeError "Cannot read properties of undefined (reading 'split')")
               end ;;
     let token := fields !! 2%nat in
     if negb (truthy (opt_str token)) then
       respond (fail 401 "Access token required")
     else
       decoded <- verify_token env (default "" token) ;;
       rows <- users_by_id (get decoded "userId") ;;
       match rows with
       | [] => respond (fail 401 "User not found")
       | user :: _ => ret (identity_context user)
       end)%js
    (fun error =>
       if String.eqb (err_name error) "JsonWebTokenError" then
         respond {| status := 401; success := false;
                    message := Some "Invalid token"; data := PError error |}
       else if String.eqb (err_name error) "TokenExpiredError" then
         respond (fail 401 "Token expired")
       else
         respond (fail 500 "Authentication error")).

(** ** JavaScript conversions used by the appointment routes *)

(** [String(v)] / [`${v}`].  A number is an integer and printed with all
    its digits, as JavaScript prints the integers below 10^21.  A valid
    Date is only ever printed on its way into [new Date(...)], which
    [new_Date_of_template] covers; this function is not applied to one. *)
Definition js_to_string (v : JSVal) : string :=
  match v with
  | VUndefined => "undefined"
  | VNull => "null"
  | VBool true => "true"
  | VBool false => "false"
  | VNum n => decimal n
  | VStr s => s
  | VDate _ => "Invalid Date"
  end.

(** [new Date(`${v}`)]: a Date prints without its milliseconds and parses
    back to the whole second; anything else goes through its string. *)
Definition new_Date_of_template (env : Env) (v : JSVal) : option Z :=
  match v with
  | VDate (Some t) => Some (1000 * (t / 1000))
  | VDate None => None
  | _ => Date_parse env (js_to_string v)
  end.

(** Relational operators on numbers that may be NaN ([None]). *)
Definition js_lt (a b : option Z) : bool :=
  match a, b with Some x, Some y => x <? y | _, _ => false end.
Definition js_le (a b : option Z) : bool :=
  match a, b with Some x, Some y => x <=? y | _, _ => false end.
Definition js_ge (a b : option Z) : bool :=
  match a, b with Some x, Some y => x >=? y | _, _ => false end.

(** [v.split(sep)]: only strings have the method. *)
Definition js_split (v : JSVal) (sep : ascii) : Js (list string) :=
  match v with
  | VStr s => ret (split_on sep s)
  | VUndefined | VNull =>
      throw (TypeError "Cannot read properties of undefined (reading 'split')")
  | _ => throw (TypeError "split is not a function")
  end.

(** [list.includes(v)] for a list of string literals. *)
Definition includes (l : list string) (v : JSVal) : bool :=
  existsb (fun s => strict_eq (VStr s) v) l.

(** ** express-validator chains of [POST /] *)

(** The library's [toString] on the scalars a JSON body carries. *)
Definition to_text (v : JSVal) : string :=
  match v with
  | VUndefined | VNull | VDate _ => ""
  | _ => js_to_string v
  end.

(** validator.js [toDate]: a Date when [Date.parse] succeeds, else null. *)
Definition toDate (env : Env) (v : JSVal) : JSVal :=
  match Date_parse env (to_text v) with
  | Some t => VDate (Some t)
  | None => VNull
  end.

(** [body('doctor_id').isInt()], [body('appointment_date').isISO8601().toDate()],
    [body('reason').notEmpty()]: the failing fields, and the body with the
    sanitized date written back. *)
Definition booking_validators (env : Env) (b : Obj) : Obj * list string :=
  let errors :=
    ((if isInt (to_text (get b "doctor_id")) then [] else ["doctor_id"]) ++
     (if isISO8601 env (to_text (get b "appointment_date")) then []
      else ["appointment_date"]) ++
     (if negb (String.eqb (to_text (get b "reason")) "") then []
      else ["reason"]))%list in
  (<["appointment_date" := toDate env (get b "appointment_date")]> b, errors).

(** ** Statements of the appointment routes over the store *)

(** A bind value of a prepared statement, under the client's policy. *)
Definition bind_param (env : Env) (v : JSVal) : Js JSVal :=
  match v with
  | VUndefined =>
      match undefined_bind env with
      | RejectUndefined =>
          throw (TypeError "Bind parameters must not contain undefined")
      | UndefinedAsNull => ret VNull
      end
  | _ => ret v
  end.

(** [SELECT id, open_hour, close_hour FROM doctors WHERE id = ? AND is_active = 1] *)
Definition select_active_doctor (env : Env) (doctor_id : JSVal)
  : Js (list DoctorRow) :=
  (id <- bind_param env doctor_id ;;
   s <- read_db ;;
   ret (filter (fun d => sql_eq (VNum (d_id d)) id && d_is_active d = true)
          (Doctors s)))%js.

Definition live_at (who : AppointmentRow -> JSVal) (id date : JSVal)
    (a : AppointmentRow) : bool :=
  sql_eq (who a) id && sql_eq (a_appointment_date a) date
  && negb (String.eqb (a_status a) "cancelled").

(** [SELECT id FROM appointments WHERE doctor_id = ? AND appointment_date = ?
    AND status != "cancelled"] *)
Definition select_doctor_slot (env : Env) (doctor_id appointment_date : JSVal)
  : Js (list AppointmentRow) :=
  (id <- bind_param env doctor_id ;;
   date <- bind_param env appointment_date ;;
   s <- read_db ;;
   ret (filter (fun a => live_at a_doctor_id id date a = true) (Appointments s)))%js.

(** [SELECT id FROM appointments WHERE patient_id = ? AND appointment_date = ?
    AND status != "cancelled"] *)
Definition select_patient_slot (env : Env) (patient_id appointment_date : JSVal)
  : Js (list AppointmentRow) :=
  (id <- bind_param env patient_id ;;
   date <- bind_param env appointment_date ;;
   s <- read_db ;;
   ret (filter (fun a => live_at a_patient_id id date a = true) (Appointments s)))%js.

(** [INSERT INTO Appointments (patient_id, doctor_id, appointment_date,
    reason, status, ...) VALUES (?, ?, ?, ?, ?, NOW(), NOW())]; the result
    is [insertId]. *)
Definition insert_appointment (env : Env)
    (patient_id doctor_id appointment_date reason : JSVal) (st : string)
  : Js Z :=
  (p <- bind_param env patient_id ;;
   d <- bind_param env doctor_id ;;
   date <- bind_param env appointment_date ;;
   r <- bind_param env reason ;;
   s <- read_db ;;
   let row := {| a_id := next_id s; a_patient_id := p; a_doctor_id := d;
                 a_appointment_date := date; a_reason := r; a_status := st;
                 a_notes := VNull |} in
   write_db {| Users := Users s; Doctors := Doctors s;
               Appointments := (Appointments s ++ [row])%list;
               next_id := next_id s + 1 |} ;;;
   ret (next_id s))%js.

Definition appointment_obj (a : AppointmentRow) : Obj :=
  <["id" := VNum (a_id a)]>
    (<["patient_id" := a_patient_id a]>
       (<["doctor_id" := a_doctor_id a]>
          (<["appointment_date" := a_appointment_date a]>
             (<["reason" := a_reason a]>
                (<["status" := VStr (a_status a)]>
                   (<["notes" := a_notes a]> ∅)))))).

Definition doctor_named (s : Store) (id : JSVal) : list DoctorRow :=
  filter (fun d => sql_eq (VNum (d_id d)) id = true) (Doctors s).

(** One row of the [LEFT JOIN users p ... LEFT JOIN doctors d] read-back:
    the display fields are NULL when the join finds no row. *)
Definition enriched_obj (a : AppointmentRow) (p : option UserRow)
    (d : option DoctorRow) : Obj :=
  <["patient_name" := from_option (fun u => VStr (u_name u)) VNull p]>
    (<["patient_email" := from_option (fun u => VStr (u_email u)) VNull p]>
       (<["doctor_name" := from_option (fun x => VStr (d_name x)) VNull d]>
          (<["specialization" :=
               from_option (fun x => VStr (d_specialization x)) VNull d]>
             (appointment_obj a)))).

Definition option_or_none {A} (l : list A) : list (option A) :=
  match l with [] => [None] | _ => map Some l end.

(** [SELECT a.*, p.name ..., d.name ... FROM appointments a LEFT JOIN users p
    ON a.patient_id = p.id LEFT JOIN doctors d ON a.doctor_id = d.id
    WHERE a.id = ?] *)
Definition select_enriched (env : Env) (id : JSVal) : Js (list Obj) :=
  (i <- bind_param env id ;;
   s <- read_db ;;
   ret (a ← filter (fun a => sql_eq (VNum (a_id a)) i = true) (Appointments s);
        p ← option_or_none (user_named s (a_patient_id a));
        d ← option_or_none (doctor_named s (a_doctor_id a));
        [enriched_obj a p d]))%js.

(** [UPDATE appointments SET ... WHERE id = ?]: rewrites the matching rows,
    the result is [affectedRows]. *)
Definition update_where_id (id : JSVal) (f : AppointmentRow -> AppointmentRow)
  : Js Z :=
  (s <- read_db ;;
   let hit a := sql_eq (VNum (a_id a)) id in
   write_db {| Users := Users s; Doctors := Doctors s;
               Appointments := map (fun a => if hit a then f a else a)
                                 (Appointments s);
               next_id := next_id s |} ;;;
   ret (Z.of_nat (length (filter (fun a => hit a = true) (Appointments s)))))%js.

Definition set_status (st : string) (a : AppointmentRow) : AppointmentRow :=
  {| a_id := a_id a; a_patient_id := a_patient_id a;
     a_doctor_id := a_doctor_id a;
     a_appointment_date := a_appointment_date a; a_reason := a_reason a;
     a_status := st; a_notes := a_notes a |}.

Definition set_notes (n : JSVal) (a : AppointmentRow) : AppointmentRow :=
  {| a_id := a_id a; a_patient_id := a_patient_id a;
     a_doctor_id := a_doctor_id a;
     a_appointment_date := a_appointment_date a; a_reason := a_reason a;
     a_status := a_status a; a_notes := n |}.

(** [SELECT patient_id, doctor_id, status FROM appointments WHERE id = ?] *)
Definition select_appointment (env : Env) (id : JSVal)
  : Js (list AppointmentRow) :=
  (i <- bind_param env id ;;
   s <- read_db ;;
   ret (filter (fun a => sql_eq (VNum (a_id a)) i = true) (Appointments s)))%js.

(** [SELECT id FROM doctors WHERE id = ? AND user_id = ?] *)
Definition select_doctor_of_user (env : Env) (doctor_id user_id : JSVal)
  : Js (list DoctorRow) :=
  (d <- bind_param env doctor_id ;;
   u <- bind_param env user_id ;;
   s <- read_db ;;
   ret (filter (fun x => sql_eq (VNum (d_id x)) d && sql_eq (d_user_id x) u = true)
          (Doctors s)))%js.

(** ** [POST /]: create new appointment *)

Definition create_appointment (env : Env) (user : Obj) (b : Obj)
    (errors : list string) : Js unit :=
  try_catch
    (match errors with
     | _ :: _ =>
         respond {| status := 400; success := false;
                    message := Some "Validation errors";
                    data := PErrors errors |}
     | [] =>
       let doctor_id := get b "doctor_id" in
       let appointment_date := get b "appointment_date" in
       let reason := get b "reason" in
       let patient_id := get user "id" in
       doctors <- select_active_doctor env doctor_id ;;
       match doctors with
       | [] => respond (fail 404 "Doctor not found")
       | doctor :: _ =>
         let appointmentDateTime := new_Date_of_template env appointment_date in
         if js_le appointmentDateTime (Some (now env)) then
           respond (fail 400 "Appointment must be scheduled for a future date")
         else
           date_fields <- js_split appointment_date "T" ;;
           time_fields <- js_split (opt_str (date_fields !! 1%nat)) ":" ;;
           let appointmentHour := parseInt (default "" (time_fields !! 0%nat)) in
           let openHour :=
             parseInt (default "" (split_on ":" (d_open_hour doctor) !! 0%nat)) in
           let closeHour :=
             parseInt (default "" (split_on ":" (d_close_hour doctor) !! 0%nat)) in
           if js_lt appointmentHour openHour || js_ge appointmentHour closeHour then
             respond (fail 400 "Appointment time must be within doctor's working hours")
           else
             existingAppointments <- select_doctor_slot env doctor_id appointment_date ;;
             match existingAppointments with
             | _ :: _ => respond (fail 400 "This time slot is already booked")
             | [] =>
               patientAppointments <-
                 select_patient_slot env patient_id appointment_date ;;
               match patientAppointments with
               | _ :: _ =>
                   respond (fail 400 "You already have an appointment at this time")
               | [] =>
                 appointmentId <-
                   insert_appointment env patient_id doctor_id appointment_date
                     reason "scheduled" ;;
                 appointments <- select_enriched env (VNum appointmentId) ;;
                 respond (ok 201 (Some "Appointment booked successfully")
                            (PObject (appointments !! 0%nat)))
               end
             end
       end
     end)%js
    (fun _ => respond (fail 500 "Failed to book appointment")).

(** ** [PUT /:id]: update appointment status *)

Definition update_statuses : list string := ["scheduled"; "completed"; "canceled"].

Definition update_appointment (env : Env) (req : Request) : Js unit :=
  try_catch
    (let st := get (body req) "status" in
     if negb (truthy st) || negb (includes update_statuses st) then
       respond (fail 400 "Invalid status provided.")
     else
       s <- bind_param env st ;;
       id <- bind_param env (get (params req) "id") ;;
       affectedRows <- update_where_id id (set_status (js_to_string s)) ;;
       if affectedRows =? 0 then respond (fail 404 "Appointment not found")
       else respond (ok 200 (Some "Appointment status updated successfully") PNone))%js
    (fun _ => respond (fail 500 "Failed to update appointment")).

(** ** [PUT /:id/cancel]: cancel appointment *)

Definition cancel_appointment (env : Env) (user : Obj) (req : Request) : Js unit :=
  try_catch
    (let id := get (params req) "id" in
     let reason := get (body req) "reason" in
     appointments <- select_appointment env id ;;
     match appointments with
     | [] => respond (fail 404 "Appointment not found")
     | appointment :: _ =>
       if String.eqb (a_status appointment) "cancelled" then
         respond (fail 400 "Appointment is already cancelled")
       else if String.eqb (a_status appointment) "completed" then
         respond (fail 400 "Cannot cancel completed appointment")
       else if strict_eq (get user "role") (VStr "patient")
               && negb (strict_eq (a_patient_id appointment) (get user "id")) then
         respond (fail 403 "Access denied. You can only cancel your own appointments.")
       else
         (if strict_eq (get user "role") (VStr "doctor") then
            doctorCheck <- select_doctor_of_user env (a_doctor_id appointment)
                             (get user "id") ;;
            match doctorCheck with
            | [] => respond (fail 403 "Access denied. You can only cancel your own appointments.")
            | _ :: _ => ret tt
            end
          else ret tt) ;;;
         note <- (if truthy reason then bind_param env reason else ret VUndefined) ;;
         i <- bind_param env id ;;
         update_where_id i
           (fun a => let a' := set_status "cancelled" a in
                     if truthy reason then set_notes note a' else a') ;;;
         respond (ok 200 (Some "Appointment cancelled successfully") PNone)
     end)%js
    (fun _ => respond (fail 500 "Failed to cancel appointment")).

(** ** [DELETE /:id] *)

Definition delete_appointment (env : Env) (req : Request) : Js unit :=
  try_catch
    (id <- bind_param env (get (params req) "id") ;;
     s <- read_db ;;
     let hit a := sql_eq (VNum (a_id a)) id in
     write_db {| Users := Users s; Doctors := Doctors s;
                 Appointments := filter (fun a => hit a = false) (Appointments s);
                 next_id := next_id s |} ;;;
     if existsb hit (Appointments s) then
       respond (ok 200 (Some "Appointment deleted successfully") PNone)
     else respond (fail 404 "Appointment not found"))%js
    (fun _ => respond (fail 500 "Server error")).

(** ** [GET /]: appointments of the caller *)

Inductive Listing : Type := ByDoctor | ByPatient.

(** [if (req.user.role === 'doctor') ... else ...] *)
Definition listing_of (user : Obj) : Listing :=
  if strict_eq (get user "role") (VStr "doctor") then ByDoctor else ByPatient.

Definition list_statuses : list string := ["scheduled"; "completed"; "canceled"].

(** The joined rows of the chosen query, in table order (the [ORDER BY] of
    the source is not represented). *)
Definition select_listing (env : Env) (l : Listing) (id : JSVal)
    (st : option JSVal) : Js (list Obj) :=
  (i <- bind_param env id ;;
   f <- match st with
        | Some v => (x <- bind_param env v ;; ret (Some x))
        | None => ret None
        end ;;
   s <- read_db ;;
   let keep a :=
     match f with
     | Some v => sql_eq (VStr (a_status a)) v
     | None => true
     end in
   ret match l with
       | ByDoctor =>
           a ← filter (fun a => sql_eq (a_doctor_id a) i && keep a = true)
                 (Appointments s);
           p ← user_named s (a_patient_id a);
           [<["patient_name" := VStr (u_name p)]> (appointment_obj a)]
       | ByPatient =>
           a ← filter (fun a => sql_eq (a_patient_id a) i && keep a = true)
                 (Appointments s);
           d ← doctor_named s (a_doctor_id a);
           [<["doctor_name" := VStr (d_name d)]>
              (<["doctor_specialization" := VStr (d_specialization d)]>
                 (appointment_obj a))]
       end)%js.

Definition list_appointments (env : Env) (user : Obj) (req : Request) : Js unit :=
  try_catch
    (let st := get (query req) "status" in
     appointments <-
       select_listing env (listing_of user) (get user "id")
         (if truthy st && includes list_statuses st then Some st else None) ;;
     respond (ok 200 None (PList appointments)))%js
    (fun _ => respond (fail 500 "Failed to get appointments")).

(** ** [GET /:id] *)

(** [SELECT a.*, d.name as doctor_name, p.name as patient_name FROM
    Appointments a JOIN Doctors d ... JOIN Users p ... WHERE a.id = ?] *)
Definition select_detail (env : Env) (id : JSVal)
  : Js (list (AppointmentRow * Obj)) :=
  (i <- bind_param env id ;;
   s <- read_db ;;
   ret (a ← filter (fun a => sql_eq (VNum (a_id a)) i = true) (Appointments s);
        d ← doctor_named s (a_doctor_id a);
        p ← user_named s (a_patient_id a);
        [(a, <["doctor_name" := VStr (d_name d)]>
               (<["patient_name" := VStr (u_name p)]> (appointment_obj a)))]))%js.

Definition get_appointment (env : Env) (user : Obj) (req : Request) : Js unit :=
  try_catch
    (appointments <- select_detail env (get (params req) "id") ;;
     match appointments with
     | [] => respond (fail 404 "Appointment not found")
     | (appointment, shown) :: _ =>
       if strict_eq (get user "role") (VStr "patient")
          && negb (strict_eq (a_patient_id appointment) (get user "id")) then
         respond (fail 403 "Access denied")
       else
         (if strict_eq (get user "role") (VStr "doctor") then
            doctorCheck <- select_doctor_of_user env (a_doctor_id appointment)
                             (get user "id") ;;
            match doctorCheck with
            | [] => respond (fail 403 "Access denied")
            | _ :: _ => ret tt
            end
          else ret tt) ;;;
         respond (ok 200 None (PObject (Some shown)))
     end)%js
    (fun _ => respond (fail 500 "Failed to get appointment")).

(** ** The routes: [authenticateToken] first, then the handler *)

Definition route_list (env : Env) (req : Request) : Js unit :=
  (user <- authenticateToken env req ;; list_appointments env user req)%js.

Definition route_get (env : Env) (req : Request) : Js unit :=
  (user <- authenticateToken env req ;; get_appointment env user req)%js.

Definition route_create (env : Env) (req : Request) : Js unit :=
  (user <- authenticateToken env req ;;
   let '(b, errors) := booking_validators env (body req) in
   create_appointment env user b errors)%js.

Definition route_update (env : Env) (req : Request) : Js unit :=
  (user <- authenticateToken env req ;; update_appointment env req)%js.

(** The [body('reason')] chain of this route only validates, and the
    handler never asks for its result. *)
Definition route_cancel (env : Env) (req : Request) : Js unit :=
  (user <- authenticateToken env req ;; cancel_appointment env user req)%js.

Definition route_delete (env : Env) (req : Request) : Js unit :=
  (user <- authenticateToken env req ;; delete_appointment env req)%js.

(** ** Token issuing sites of the auth router *)

(** The [ms] package on the spans jsonwebtoken accepts for [expiresIn]:
    a decimal count followed by a unit, in milliseconds. *)
Definition ms_unit (u : string) : option Z :=
  if String.eqb u "ms" then Some 1
  else if String.eqb u "s" then Some 1000
  else if String.eqb u "m" then Some 60000
  else if String.eqb u "h" then Some 3600000
  else if String.eqb u "d" then Some 86400000
  else if String.eqb u "w" then Some 604800000
  else None.

Fixpoint span_unit (s : string) : string :=
  match s with
  | EmptyString => EmptyString
  | String c r => if bool_decide (is_Some (digit_of c)) then span_unit r else s
  end.

Definition ms (s : string) : option Z :=
  n ← read_digits s 0 false; u ← ms_unit (span_unit s); Some (n * u).

Inductive SignSite : Type := RegisterSite | LoginSite.

(** The [{ expiresIn: ... }] option passed to [jwt.sign] at each site. *)
Definition expiresIn (site : SignSite) : string :=
  match site with
  | RegisterSite => "7d"
  | LoginSite => "24h"
  end.

(** The claims [jwt.sign] embeds: the payload, [iat] in seconds, and
    [exp = iat + ms(expiresIn) / 1000]; signing fails on a span that does
    not parse. *)
Definition jwt_sign (payload : Obj) (site : SignSite) (clock : Z) : option Obj :=
  let iat := clock / 1000 in
  span ← ms (expiresIn site);
  Some (<["exp" := VNum (iat + span / 1000)]> (<["iat" := VNum iat]> payload)).

Definition register_payload (id : Z) (email : string) (type : JSVal) : Obj :=
  <["userId" := VNum id]>
    (<["email" := VStr email]>
       (<["type" := if truthy type then type else VStr "patient"]> ∅)).

Definition login_payload (user : UserRow) : Obj :=
  <["userId" := VNum (u_id user)]>
    (<["email" := VStr (u_email user)]>
       (<["type" := VStr (u_type user)]> ∅)).

(** Seconds between issuance and expiry of a token signed at [site]. *)
Definition lifetime (site : SignSite) : option Z :=
  span ← ms (expiresIn site); Some (span / 1000).

(** ** The Role Gate *)

Record IdentityContext := {
  ic_userId : Z;
  ic_email : string;
  ic_name : string;
  ic_role : string
}.

Inductive Authorization : Type := Permitted | Forbidden.

Definition authorization_status (a : Authorization) : option Z :=
  match a with Permitted => None | Forbidden => Some 403 end.

(** Modelled from the spec: the routes import [authorizeRoles] from
    [middleware/auth.js], which does not define it.  The spec gives
    [authorize(context, allowedRoles)] as a pure predicate that succeeds
    iff [context.role] is a member of [allowedRoles] and otherwise fails
    with Forbidden. *)
Definition authorize (context : IdentityContext) (allowedRoles : list string)
  : Authorization :=
  if existsb (String.eqb (ic_role context)) allowedRoles then Permitted
  else Forbidden.

(** The allow-list of [GET /stats/overview]. *)
Definition stats_overview_roles : list string := ["doctor"; "admin"].

(** * A sample deployment *)

Module Sample.

(** Days since 1970-01-01 of a civil date. *)
Definition days_from_civil (y m d : Z) : Z :=
  let y' := if m <=? 2 then y - 1 else y in
  let era := y' / 400 in
  let yoe := y' - era * 400 in
  let mp := (m + 9) mod 12 in
  let doy := (153 * mp + 2) / 5 + d - 1 in
  era * 146097 + (yoe * 365 + yoe / 4 - yoe / 100 + doy) - 719468.

Definition field (l : list string) (i : nat) : option Z :=
  s ← l !! i; if all_digits s then read_digits s 0 false else None.

(** [YYYY-MM-DDTHH:MM:SS] read as UTC, in milliseconds. *)
Definition parse_datetime (s : string) : option Z :=
  match split_on "T" s with
  | [date; time] =>
      let d := split_on "-" date in
      let t := split_on ":" time in
      y ← field d 0; m ← field d 1; dd ← field d 2;
      h ← field t 0; mi ← field t 1; ss ← field t 2;
      if (1 <=? m) && (m <=? 12) && (1 <=? dd) && (dd <=? 31)
         && (h <=? 23) && (mi <=? 59) && (ss <=? 59)
      then Some ((((days_from_civil y m dd * 24 + h) * 60 + mi) * 60 + ss) * 1000)
      else None
  | _ => None
  end.

Definition alice : UserRow :=
  {| u_id := 1; u_name := "Alice"; u_email := "alice@example.org";
     u_type := "patient" |}.

Definition bob : UserRow :=
  {| u_id := 2; u_name := "Bob"; u_email := "bob@example.org";
     u_type := "patient" |}.

Definition token_payload (u : UserRow) : Obj :=
  default ∅ (jwt_sign (login_payload u) LoginSite 1793534400000).

(** 2026-11-01T12:00:00Z; two tokens signed for Alice and Bob. *)
Definition env (policy : BindPolicy) : Env :=
  {| jwt_verify := fun token =>
       if String.eqb token "alice.jwt" then Decoded (token_payload alice)
       else if String.eqb token "bob.jwt" then Decoded (token_payload bob)
       else if String.eqb token "old.jwt" then
         VerifyThrows {| err_name := "TokenExpiredError";
                         err_message := "jwt expired" |}
       else VerifyThrows {| err_name := "JsonWebTokenError";
                            err_message := "invalid token" |};
     isISO8601 := fun s => bool_decide (is_Some (parse_datetime s));
     Date_parse := parse_datetime;
     now := 1793534400000;
     undefined_bind := policy |}.

Definition doctor7 : DoctorRow :=
  {| d_id := 7; d_name := "Dr. Grey"; d_specialization := "cardiology";
     d_open_hour := "09:00:00"; d_close_hour := "17:00:00";
     d_is_active := true; d_user_id := VNum 3 |}.

Definition booked (id : Z) (patient : Z) (date st : string) : AppointmentRow :=
  {| a_id := id; a_patient_id := VNum patient; a_doctor_id := VNum 7;
     a_appointment_date := VStr date; a_reason := VStr "checkup";
     a_status := st; a_notes := VNull |}.

Definition store_of (users : list UserRow) (apps : list AppointmentRow)
  : Store :=
  {| Users := users; Doctors := [doctor7]; Appointments := apps;
     next_id := 100 |}.

Definition store (apps : list AppointmentRow) : Store :=
  store_of [alice; bob] apps.

Definition world (apps : list AppointmentRow) : World :=
  {| db := store apps; trace := [] |}.

(** Alice's row after an administrator changed her address and type. *)
Definition alice_promoted : UserRow :=
  {| u_id := 1; u_name := "Alice"; u_email := "root@example.org";
     u_type := "admin" |}.

Definition world_promoted : World :=
  {| db := store_of [alice_promoted; bob] []; trace := [] |}.

(** A request whose Authorization header carries [token] as its third
    space-separated field. *)
Definition request (token : string) (id : option string) (b : Obj) : Request :=
  {| headers := {["authorization" := "Bearer  " +:+ token]};
     params := from_option (fun i => {["id" := VStr i]}) ∅ id;
     query := ∅;
     body := b |}.

Definition booking (date : string) : Obj :=
  <["doctor_id" := VNum 7]>
    (<["appointment_date" := VStr date]> (<["reason" := VStr "checkup"]> ∅)).

(** Appointment 41 of Alice with doctor 7, in a given status. *)
Definition appointment41 (st : string) : AppointmentRow :=
  booked 41 1 "2026-11-09T10:00:00" st.

(** Alice asks [PUT /41] for a status. *)
Definition status_request (st : string) : Request :=
  request "alice.jwt" (Some "41") {["status" := VStr st]}.

End Sample.

(** * Derived notions used in the statements *)

Definition logged (w : World) (es : list Event) : World :=
  {| db := db w; trace := (trace w ++ es)%list |}.

(** The [catch] branch of [authenticateToken]. *)
Definition auth_failure (error : JSError) : Response :=
  if String.eqb (err_name error) "JsonWebTokenError" then
    {| status := 401; success := false; message := Some "Invalid token";
       data := PError error |}
  else if String.eqb (err_name error) "TokenExpiredError" then
    fail 401 "Token expired"
  else fail 500 "Authentication error".

(** The gate, case by case. *)
Definition auth_outcome (env : Env) (req : Request) (w : World)
  : Completion Obj * World :=
  match headers req !! "authorization" with
  | None => (Return (fail 500 "Authentication error"), w)
  | Some h =>
      match split_on " " h !! 2%nat with
      | None => (Return (fail 401 "Access token required"), w)
      | Some token =>
          if String.eqb token "" then
            (Return (fail 401 "Access token required"), w)
          else
            match jwt_verify env token with
            | VerifyThrows e => (Return (auth_failure e), logged w [EvVerify token])
            | Decoded p =>
                if bool_decide (get p "userId" = VUndefined) then
                  (Return (fail 500 "Authentication error"),
                   logged w [EvVerify token])
                else
                  let w' :=
                    logged w [EvVerify token; EvUserLookup (get p "userId")] in
                  match user_named (db w) (get p "userId") with
                  | [] => (Return (fail 401 "User not found"), w')
                  | user :: _ => (Normal (identity_context user), w')
                  end
            end
      end
  end.

(** The answers [POST /] can give once the date is no longer a string. *)
Definition create_refusals (errors : list string) : list Response :=
  [ {| status := 400; success := false; message := Some "Validation errors";
       data := PErrors errors |};
    fail 404 "Doctor not found";
    fail 400 "Appointment must be scheduled for a future date";
    fail 500 "Failed to book appointment" ].

Definition keeps_db {A} (m : Js A) : Prop := forall w, db (snd (m w)) = db w.

(** The value a statement receives for a bind parameter, if the client
    accepts it. *)
Definition bound (env : Env) (v : JSVal) : option JSVal :=
  match v with
  | VUndefined =>
      match undefined_bind env with
      | RejectUndefined => None
      | UndefinedAsNull => Some VNull
      end
  | _ => Some v
  end.

Definition cancel_row (reason : JSVal) (a : AppointmentRow) : AppointmentRow :=
  let a' := set_status "cancelled" a in
  if truthy reason then set_notes reason a' else a'.

Definition with_appointments (s : Store) (l : list AppointmentRow) : Store :=
  {| Users := Users s; Doctors := Doctors s; Appointments := l;
     next_id := next_id s |}.

Definition rewrite_rows (i : JSVal) (f : AppointmentRow -> AppointmentRow)
    (w : World) : World :=
  {| db := with_appointments (db w)
             (map (fun a => if sql_eq (VNum (a_id a)) i then f a else a)
                (Appointments (db w)));
     trace := trace w |}.

(** [PUT /:id/cancel] for a caller that came through the gate. *)
Definition cancel_outcome (env : Env) (req : Request) (w : World)
  : Completion unit * World :=
  match bound env (get (params req) "id") with
  | None => (Return (fail 500 "Failed to cancel appointment"), w)
  | Some i =>
      match filter (fun a => sql_eq (VNum (a_id a)) i = true)
              (Appointments (db w)) with
      | [] => (Return (fail 404 "Appointment not found"), w)
      | a :: _ =>
          if String.eqb (a_status a) "cancelled" then
            (Return (fail 400 "Appointment is already cancelled"), w)
          else if String.eqb (a_status a) "completed" then
            (Return (fail 400 "Cannot cancel completed appointment"), w)
          else
            (Return (ok 200 (Some "Appointment cancelled successfully") PNone),
             rewrite_rows i (cancel_row (get (body req) "reason")) w)
      end
  end.

Inductive Operation : Type :=
| OpList | OpGet | OpCreate | OpUpdate | OpCancel | OpDelete.

Definition route (op : Operation) : Env -> Request -> Js unit :=
  match op with
  | OpList => route_list
  | OpGet => route_get
  | OpCreate => route_create
  | OpUpdate => route_update
  | OpCancel => route_cancel
  | OpDelete => route_delete
  end.

(** The two statuses the cancel handler refuses to leave. *)
Definition terminal (st : string) : bool :=
  String.eqb st "cancelled" || String.eqb st "completed".

(** Every row of [s] with the id of [a] has the status of [a]. *)
Definition status_kept (a : AppointmentRow) (s : Store) : Prop :=
  forall a', a' ∈ Appointments s -> a_id a' = a_id a -> a_status a' = a_status a.

(** * Notions used in the further properties *)

(** The number a [:id] path segment names when it is an integer literal. *)
Definition path_id (req : Request) : option Z :=
  match get (params req) "id" with
  | VStr s => if isInt s then parseInt s else None
  | _ => None
  end.

(** The statuses the appointment routes answer with. *)
Definition route_statuses : list Z := [200; 400; 401; 404; 500].

(** * The auth router ([routes/auth.js]) *)

Module AuthRouter.

(** What a request sees of bcrypt (with its salt), of validator.js' address
    test, of the clock, of [process.env.JWT_SECRET] (absent when the
    variable is not set) and of the database server's [NOW()], in
    milliseconds as the client reads a DATETIME back. *)
Record Services := {
  isEmail : string -> bool;
  bcrypt_hash : string -> string;
  bcrypt_compare : string -> string -> bool;
  clock : Z;
  JWT_SECRET : option string;
  sql_now : Z
}.

(** A row of [Users] with the columns the gate does not read. *)
Record Account := {
  acc_user : UserRow;
  acc_password : string;
  acc_phone : JSVal;
  acc_created_at : JSVal
}.

(** The [Users] table and its auto-increment counter. *)
Record Directory := {
  accounts : list Account;
  next_account : Z
}.

(** The JSON envelope: [errors] of a failed validation, [error] of a
    caught exception, [data.user] or [data], and [data.token] as the
    claims the token carries. *)
Record Reply := {
  r_status : Z;
  r_success : bool;
  r_message : string;
  r_errors : list string;
  r_error : option string;
  r_user : option Obj;
  r_token : option Obj
}.

Definition refuse (code : Z) (msg : string) : Reply :=
  {| r_status := code; r_success := false; r_message := msg; r_errors := [];
     r_error := None; r_user := None; r_token := None |}.

Definition invalid (fields : list string) : Reply :=
  {| r_status := 400; r_success := false; r_message := "Validation errors";
     r_errors := fields; r_error := None; r_user := None; r_token := None |}.

Definition crashed (msg : string) (e : JSError) : Reply :=
  {| r_status := 500; r_success := false; r_message := msg; r_errors := [];
     r_error := Some (err_message e); r_user := None; r_token := None |}.

Definition granted (code : Z) (msg : string) (user : option Obj)
    (token : option Obj) : Reply :=
  {| r_status := code; r_success := true; r_message := msg; r_errors := [];
     r_error := None; r_user := user; r_token := token |}.

(** The answer of the gate in this envelope. *)
Definition of_response (r : Response) : Reply :=
  {| r_status := status r; r_success := success r;
     r_message := default "" (message r); r_errors := [];
     r_error := match data r with PError e => Some (err_message e) | _ => None end;
     r_user := None; r_token := None |}.

Inductive Outcome (A : Type) : Type :=
| Done (a : A)
| Sent (r : Reply)
| Raised (e : JSError).
Arguments Done {A} a.
Arguments Sent {A} r.
Arguments Raised {A} e.

Definition Step (A : Type) : Type := Directory -> Outcome A * Directory.

Definition pass {A} (a : A) : Step A := fun d => (Done a, d).
Definition send {A} (r : Reply) : Step A := fun d => (Sent r, d).
Definition raise {A} (e : JSError) : Step A := fun d => (Raised e, d).

Definition and_then {A B} (m : Step A) (k : A -> Step B) : Step B :=
  fun d =>
    match m d with
    | (Done a, d') => k a d'
    | (Sent r, d') => (Sent r, d')
    | (Raised e, d') => (Raised e, d')
    end.

Definition catching {A} (m : Step A) (handler : JSError -> Step A) : Step A :=
  fun d =>
    match m d with
    | (Raised e, d') => handler e d'
    | other => other
    end.

Declare Scope step_scope.
Delimit Scope step_scope with step.
Notation "x <- m ;; k" := (and_then m (fun x => k))
  (at level 100, m at next level, right associativity) : step_scope.
Notation "m ;;; k" := (and_then m (fun _ => k))
  (at level 100, right associativity) : step_scope.

Definition read : Step Directory := fun d => (Done d, d).
Definition write (d : Directory) : Step unit := fun _ => (Done tt, d).

(** The text a value takes in a character column. *)
Definition sql_text (v : JSVal) : string :=
  match v with
  | VBool true => "1"
  | VBool false => "0"
  | _ => to_text v
  end.

(** The error of bcryptjs for arguments of the wrong types. *)
Definition illegal_arguments (s : JSVal) (other : string) : JSError :=
  {| err_name := "Error";
     err_message := "Illegal arguments: " +:+ js_typeof s +:+ ", " +:+ other |}.

(** [bcrypt.hash(s, 12)] and [bcrypt.compare(s, hash)] reject anything but
    strings. *)
Definition hashed_with (env : Services) (s : JSVal) : Step string :=
  match s with
  | VStr p => pass (bcrypt_hash env p)
  | _ => raise (illegal_arguments s "number")
  end.

Definition compared_with (env : Services) (s : JSVal) (hashed : string) : Step bool :=
  match s with
  | VStr p => pass (bcrypt_compare env p hashed)
  | _ => raise (illegal_arguments s "string")
  end.

(** The replacements of a [sequelize.query] call. *)
Definition with_replacements (replacements : list JSVal) : Step unit :=
  match undefined_replacement replacements with
  | Some e => raise e
  | None => pass tt
  end.

(** [... FROM Users WHERE email = ?] *)
Definition by_email (d : Directory) (email : JSVal) : list Account :=
  filter (fun a => sql_eq (VStr (u_email (acc_user a))) email = true) (accounts d).

(** [... FROM Users WHERE id = ?] *)
Definition by_id (d : Directory) (id : JSVal) : list Account :=
  filter (fun a => sql_eq (VNum (u_id (acc_user a))) id = true) (accounts d).

(** [notEmpty()] and [isLength({ min })] on the text of a value; texts are
    ASCII, where characters and UTF-16 units are the same. *)
Definition notEmpty (v : JSVal) : bool := negb (String.eqb (to_text v) "").

Definition minLength (n : nat) (v : JSVal) : bool :=
  (n <=? String.length (to_text v))%nat.

Definition check (field : string) (passes : bool) : list string :=
  if passes then [] else [field].

(** [isEmail()]: the text of a number, of a boolean or of null is never an
    address, so only strings are put to validator.js. *)
Definition is_email (env : Services) (v : JSVal) : bool :=
  match v with
  | VStr s => isEmail env s
  | _ => false
  end.

(** The chain of [POST /register]; [type] is optional and, when given, one
    of patient and admin. *)
Definition register_validators (env : Services) (b : Obj) : list string :=
  (check "name" (notEmpty (get b "name"))
   ++ check "email" (is_email env (get b "email"))
   ++ check "password" (minLength 6 (get b "password"))
   ++ check "phone" (notEmpty (get b "phone"))
   ++ check "type"
        (match get b "type" with
         | VUndefined => true
         | v => bool_decide (to_text v ∈ ["patient"; "admin"])
         end))%list.

Definition or_patient (type : JSVal) : JSVal :=
  if truthy type then type else VStr "patient".

Definition public_fields (id name email phone type : JSVal) : Obj :=
  <["id" := id]>
    (<["name" := name]>
       (<["email" := email]> (<["phone" := phone]> (<["type" := type]> ∅)))).

(** [!secretOrPrivateKey], the first test of [jwt.sign]: an unset variable
    and the empty string are both refused. *)
Definition secret_set (env : Services) : bool :=
  match JWT_SECRET env with
  | Some (String _ _) => true
  | _ => false
  end.

Definition no_secret : JSError :=
  {| err_name := "Error"; err_message := "secretOrPrivateKey must have a value" |}.

Definition quoted (s : string) : string :=
  String (ascii_of_nat 34) s +:+ String (ascii_of_nat 34) EmptyString.

Definition bad_expiresIn : JSError :=
  {| err_name := "Error";
     err_message :=
       quoted "expiresIn"
       +:+ " should be a number of seconds or string representing a timespan eg: "
       +:+ quoted "1d" +:+ ", " +:+ quoted "20h" +:+ ", 60" |}.

(** [jwt.sign(payload, process.env.JWT_SECRET, { expiresIn })]; the token
    is represented by the claims it carries. *)
Definition sign (payload : Obj) (site : SignSite) (env : Services) : Step Obj :=
  if secret_set env then
    match jwt_sign payload site (clock env) with
    | Some claims => pass claims
    | None => raise bad_expiresIn
    end
  else raise no_secret.

(** [POST /register] *)
Definition register (env : Services) (b : Obj) : Step unit :=
  catching
    (match register_validators env b with
     | (_ :: _) as errors => send (invalid errors)
     | [] =>
       let name := get b "name" in
       let email := get b "email" in
       let password := get b "password" in
       let phone := get b "phone" in
       let type := get b "type" in
       with_replacements [email] ;;;
       d <- read ;;
       match by_email d email with
       | _ :: _ => send (refuse 400 "User with this email already exists")
       | [] =>
         hashedPassword <- hashed_with env password ;;
         with_replacements
           [name; email; VStr hashedPassword; phone; or_patient type] ;;;
         write {| accounts :=
                    (accounts d
                     ++ [{| acc_user := {| u_id := next_account d;
                                           u_name := sql_text name;
                                           u_email := sql_text email;
                                           u_type := sql_text (or_patient type) |};
                            acc_password := hashedPassword;
                            acc_phone := VStr (sql_text phone);
                            acc_created_at := VDate (Some (sql_now env)) |}])%list;
                  next_account := next_account d + 1 |} ;;;
         with_replacements [email] ;;;
         d' <- read ;;
         match by_email d' email with
         | [] => raise (TypeError "Cannot read properties of undefined (reading 'id')")
         | userInserted :: _ =>
           let id := VNum (u_id (acc_user userInserted)) in
           token <- sign (<["userId" := id]>
                            (<["email" := email]>
                               (<["type" := or_patient type]> ∅)))
                      RegisterSite env ;;
           send (granted 201 "User registered successfully"
                   (Some (public_fields id name email phone (or_patient type)))
                   (Some token))
         end
       end
     end)%step
    (fun error => send (crashed "Registration failed" error)).

Definition login_validators (env : Services) (b : Obj) : list string :=
  (check "email" (is_email env (get b "email"))
   ++ check "password" (notEmpty (get b "password")))%list.

Definition account_fields (a : Account) : Obj :=
  public_fields (VNum (u_id (acc_user a))) (VStr (u_name (acc_user a)))
    (VStr (u_email (acc_user a))) (acc_phone a) (VStr (u_type (acc_user a))).

(** [POST /login] *)
Definition login (env : Services) (b : Obj) : Step unit :=
  catching
    (match login_validators env b with
     | (_ :: _) as errors => send (invalid errors)
     | [] =>
       let email := get b "email" in
       let password := get b "password" in
       with_replacements [email] ;;;
       d <- read ;;
       match by_email d email with
       | [] => send (refuse 401 "Invalid credentials")
       | user :: _ =>
         isPasswordValid <- compared_with env password (acc_password user) ;;
         if negb isPasswordValid then send (refuse 401 "Invalid credentials")
         else
           token <- sign (login_payload (acc_user user)) LoginSite env ;;
           send (granted 200 "Login successful" (Some (account_fields user))
                   (Some token))
       end
     end)%step
    (fun error => send (crashed "Login failed" error)).

(** The world the gate sees: the gate reads [id], [email], [name] and
    [type] of [Users] and nothing else. *)
Definition gate_world (d : Directory) : World :=
  {| db := {| Users := map acc_user (accounts d); Doctors := [];
              Appointments := []; next_id := 0 |};
     trace := [] |}.

(** [authenticateToken] in front of a handler of this router. *)
Definition behind_gate (genv : Env) (req : Request)
    (handler : Obj -> Step unit) : Step unit :=
  fun d =>
    match fst (authenticateToken genv req (gate_world d)) with
    | Normal user => handler user d
    | Return r => (Sent (of_response r), d)
    | Throw e => (Raised e, d)
    end.

(** The columns [id, name, email, phone, type, created_at] of a row. *)
Definition profile_fields (a : Account) : Obj :=
  <["created_at" := acc_created_at a]> (account_fields a).

(** [GET /profile]: the selected row is sent as it is. *)
Definition profile (user : Obj) : Step unit :=
  catching
    (with_replacements [get user "userId"] ;;;
     d <- read ;;
     match by_id d (get user "userId") with
     | [] => send (refuse 404 "User not found")
     | rows :: _ =>
         send {| r_status := 200; r_success := true; r_message := "";
                 r_errors := []; r_error := None;
                 r_user := Some (profile_fields rows); r_token := None |}
     end)%step
    (fun _ => send (refuse 500 "Failed to get profile")).

Definition password_validators (b : Obj) : list string :=
  (check "currentPassword" (notEmpty (get b "currentPassword"))
   ++ check "newPassword" (minLength 6 (get b "newPassword")))%list.

Definition with_password (p : string) (a : Account) : Account :=
  {| acc_user := acc_user a; acc_password := p; acc_phone := acc_phone a;
     acc_created_at := acc_created_at a |}.

(** [PUT /change-password] *)
Definition change_password (env : Services) (user : Obj) (b : Obj) : Step unit :=
  catching
    (match password_validators b with
     | (_ :: _) as errors => send (invalid errors)
     | [] =>
       let currentPassword := get b "currentPassword" in
       let newPassword := get b "newPassword" in
       with_replacements [get user "userId"] ;;;
       d <- read ;;
       match by_id d (get user "userId") with
       | [] => send (refuse 404 "User not found")
       | stored :: _ =>
         isMatch <- compared_with env currentPassword (acc_password stored) ;;
         if negb isMatch then send (refuse 400 "Current password is incorrect")
         else
           hashed <- hashed_with env newPassword ;;
           with_replacements [VStr hashed; get user "userId"] ;;;
           write {| accounts :=
                      map (fun a =>
                             if sql_eq (VNum (u_id (acc_user a))) (get user "userId")
                             then with_password hashed a else a)
                        (accounts d);
                    next_account := next_account d |} ;;;
           send (granted 200 "Password changed successfully" None None)
       end
     end)%step
    (fun _ => send (refuse 500 "Failed to change password")).

Definition route_profile (genv : Env) (req : Request) : Step unit :=
  behind_gate genv req profile.

Definition route_change_password (genv : Env) (env : Services) (req : Request)
  : Step unit :=
  behind_gate genv req (fun user => change_password env user (body req)).

End AuthRouter.

(** * A sample directory of accounts *)

Module SampleAccounts.

(** A stand-in for the address test: one [@] with text on both sides. *)
Definition has_at (s : string) : bool :=
  match split_on "@" s with
  | [l; r] => negb (String.eqb l "") && negb (String.eqb r "")
  | _ => false
  end.

(** A stand-in for bcrypt that marks the hashed text with a prefix. *)
Definition services : AuthRouter.Services :=
  {| AuthRouter.isEmail := has_at;
     AuthRouter.bcrypt_hash := fun p => "$2a$12$" +:+ p;
     AuthRouter.bcrypt_compare := fun p h => String.eqb h ("$2a$12$" +:+ p);
     AuthRouter.clock := 1793534400000;
     AuthRouter.JWT_SECRET := Some "correct horse battery staple";
     AuthRouter.sql_now := 1793534400000 |}.

(** The same deployment with the variable [JWT_SECRET] not set. *)
Definition services_without_secret : AuthRouter.Services :=
  {| AuthRouter.isEmail := has_at;
     AuthRouter.bcrypt_hash := fun p => "$2a$12$" +:+ p;
     AuthRouter.bcrypt_compare := fun p h => String.eqb h ("$2a$12$" +:+ p);
     AuthRouter.clock := 1793534400000;
     AuthRouter.JWT_SECRET := None;
     AuthRouter.sql_now := 1793534400000 |}.

Definition alice_account : AuthRouter.Account :=
  {| AuthRouter.acc_user := Sample.alice;
     AuthRouter.acc_password := "$2a$12$wonderland";
     AuthRouter.acc_phone := VStr "0100";
     AuthRouter.acc_created_at := VDate (Some 1790000000000) |}.

Definition directory : AuthRouter.Directory :=
  {| AuthRouter.accounts := [alice_account]; AuthRouter.next_account := 2 |}.

Definition form (email password : string) : Obj :=
  <["name" := VStr "Carol"]>
    (<["email" := VStr email]>
       (<["password" := VStr password]> (<["phone" := VStr "0111"]> ∅))).

Definition credentials (email password : string) : Obj :=
  <["email" := VStr email]> (<["password" := VStr password]> ∅).

Definition password_change (current new : string) : Request :=
  Sample.request "alice.jwt" None
    (<["currentPassword" := VStr current]> (<["newPassword" := VStr new]> ∅)).

End SampleAccounts.

(** * [DELETE /:id] of the users router ([routes/users.js]) *)

(** White space that [parseInt] skips (the ASCII part of it). *)
Definition is_blank (c : ascii) : bool :=
  let n := Z.of_N (N_of_ascii c) in
  (n =? 32) || ((9 <=? n) && (n <=? 13)).

Fixpoint skip_blanks (s : string) : string :=
  match s with
  | String c r => if is_blank c then skip_blanks r else s
  | EmptyString => s
  end.

Definition hex_of (c : ascii) : option Z :=
  let n := Z.of_N (N_of_ascii c) in
  if (48 <=? n) && (n <=? 57) then Some (n - 48)
  else if (97 <=? n) && (n <=? 102) then Some (n - 87)
  else if (65 <=? n) && (n <=? 70) then Some (n - 55)
  else None.

Fixpoint read_hex (s : string) (acc : Z) (seen : bool) : option Z :=
  match s with
  | EmptyString => if seen then Some acc else None
  | String c r =>
      match hex_of c with
      | Some d => read_hex r (16 * acc + d) true
      | None => if seen then Some acc else None
      end
  end.

(** The digits of [parseInt(s)] without a radix: hexadecimal after [0x] or
    [0X], decimal otherwise. *)
Definition read_number (s : string) : option Z :=
  match s with
  | String "0"%char (String c r) =>
      if Ascii.eqb c "x" || Ascii.eqb c "X" then read_hex r 0 false
      else read_digits s 0 false
  | _ => read_digits s 0 false
  end.

(** The integer that [parseInt(s)] reads without a radix: blanks, a sign,
    then the digits; [None] when there is no digit. *)
Definition read_integer (s : string) : option Z :=
  match skip_blanks s with
  | String "-"%char r => Z.opp <$> read_number r
  | String "+"%char r => read_number r
  | r => read_number r
  end.

(** Rounding to 53 significant bits, ties to the even neighbour: [q] is
    the kept part, [r] the dropped part and [half] half a unit of [q]. *)
Definition round_half_even (q r half : Z) : Z :=
  if r <? half then q
  else if half <? r then q + 1
  else if Z.even q then q else q + 1.

(** The double nearest to a natural number. *)
Definition nearest_double (a : Z) : Z :=
  if a <? 2 ^ 53 then a
  else
    let e := Z.log2 a - 52 in
    round_half_even (a / 2 ^ e) (a mod 2 ^ e) (2 ^ (e - 1)) * 2 ^ e.

(** The JavaScript number an integer becomes; [None] is an infinity, past
    the largest finite double. *)
Definition to_double (z : Z) : option Z :=
  let m := nearest_double (Z.abs z) in
  if m <? 2 ^ 1024 then Some (Z.sgn z * m) else None.

(** [parseInt(s)] as the users router calls it: the integer read, as a
    JavaScript number.  [None] is NaN or an infinity; neither is [===] to
    a number of the store. *)
Definition parseInt_auto (s : string) : option Z :=
  z ← read_integer s; to_double z.

(** [a === v] for a number [a] that may be NaN. *)
Definition same_number (a : option Z) (v : JSVal) : bool :=
  match a, v with
  | Some x, VNum y => x =? y
  | _, _ => false
  end.

(** The ids of the users are integers that a JavaScript number holds
    exactly ([Number.isSafeInteger]). *)
Definition safe_ids (s : Store) : Prop :=
  forall u, u ∈ Users s -> Z.abs (u_id u) < 2 ^ 53.

Definition with_users (s : Store) (l : list UserRow) : Store :=
  {| Users := l; Doctors := Doctors s; Appointments := Appointments s;
     next_id := next_id s |}.

(** The handler: no own account, then [SELECT id FROM Users WHERE id = ?]
    and [DELETE FROM Users WHERE id = ?]. *)
Definition delete_user (user : Obj) (req : Request) : Js unit :=
  try_catch
    (let id := get (params req) "id" in
     if same_number (parseInt_auto (js_to_string id)) (get user "userId") then
       respond (fail 400 "Cannot delete your own account")
     else
       replacing [id] ;;;
       s <- read_db ;;
       match user_named s id with
       | [] => respond (fail 404 "User not found")
       | _ :: _ =>
           replacing [id] ;;;
           write_db (with_users s
                       (filter (fun u => sql_eq (VNum (u_id u)) id = false)
                          (Users s))) ;;;
           respond (ok 200 (Some "User deleted successfully") PNone)
       end)%js
    (fun _ => respond (fail 500 "Failed to delete user")).

Definition route_delete_user (env : Env) (req : Request) : Js unit :=
  (user <- authenticateToken env req ;; delete_user user req)%js.

(** * Properties *)

(** ** Role Gate *)

Lemma existsb_eqb_elem (r : string) (l : list string) :
  existsb (String.eqb r) l = true <-> r ∈ l.
Proof.
  rewrite existsb_exists, list_elem_of_In. split.
  - intros (x & Hin & Heq). apply String.eqb_eq in Heq. now subst.
  - intros Hin. exists r. split; [exact Hin | apply String.eqb_refl].
Qed.

Lemma authorize_permitted_iff (context : IdentityContext) (allowedRoles : list string) :
  authorize context allowedRoles = Permitted <-> ic_role context ∈ allowedRoles.
Proof.
  unfold authorize. rewrite <- existsb_eqb_elem.
  destruct (existsb (String.eqb (ic_role context)) allowedRoles); split; done.
Qed.

Lemma authorize_forbidden_iff (context : IdentityContext) (allowedRoles : list string) :
  authorize context allowedRoles = Forbidden <-> ic_role context ∉ allowedRoles.
Proof.
  rewrite <- authorize_permitted_iff.
  destruct (authorize context allowedRoles); split; done.
Qed.

(** C1: [authorize context allowedRoles] succeeds exactly when the role of
    the context is in the allow-list; outside the allow-list it fails with
    Forbidden, whose HTTP status is 403. *)
Theorem authorize_iff_member (context : IdentityContext) (allowedRoles : list string) :
  (authorize context allowedRoles = Permitted <-> ic_role context ∈ allowedRoles)
  /\ (authorize context allowedRoles = Forbidden <-> ic_role context ∉ allowedRoles)
  /\ authorization_status Forbidden = Some 403.
Proof.
  split; [apply authorize_permitted_iff |].
  split; [apply authorize_forbidden_iff | reflexivity].
Qed.

(** The statistics route admits doctors and admins and turns patients away. *)
Example stats_overview_gate (c : IdentityContext) :
  authorize c stats_overview_roles = Permitted
  <-> ic_role c = "doctor" \/ ic_role c = "admin".
Proof.
  rewrite authorize_permitted_iff. unfold stats_overview_roles.
  rewrite !elem_of_cons, elem_of_nil. tauto.
Qed.

(** ** Auth Gate *)

(** Replacements that are all defined are accepted. *)
Lemma replacements_defined (vs : list JSVal) :
  Forall (fun v => v <> VUndefined) vs -> undefined_replacement vs = None.
Proof.
  intros Hall. unfold undefined_replacement.
  destruct (list_find (fun v => v = VUndefined) vs) as [[i v]|] eqn:E;
    [|reflexivity].
  apply list_find_Some in E as (Hi & Hv & _).
  rewrite Forall_lookup in Hall. now destruct (Hall i v Hi).
Qed.

Lemma authenticateToken_cases env req w :
  authenticateToken env req w = auth_outcome env req w.
Proof.
  unfold authenticateToken, auth_outcome, try_catch, bind.
  destruct (headers req !! "authorization") as [h|]; simpl; [|reflexivity].
  destruct (split_on " " h !! 2%nat) as [token|]; simpl; [|reflexivity].
  destruct (String.eqb token "") eqn:Etok; simpl; [reflexivity|].
  unfold verify_token, users_by_id, bind, log, read_db, ret, logged; simpl.
  destruct (jwt_verify env token) as [p|e]; simpl.
  - unfold replacing, undefined_replacement.
    destruct (get p "userId") eqn:Hid; simpl;
      try (rewrite <- app_assoc; simpl;
           match goal with
           | |- context [user_named ?s ?i] => destruct (user_named s i)
           end; reflexivity).
    reflexivity.
  - unfold auth_failure, respond.
    destruct (String.eqb (err_name e) "JsonWebTokenError"); [reflexivity|].
    destruct (String.eqb (err_name e) "TokenExpiredError"); reflexivity.
Qed.

Lemma authenticateToken_no_header env req w :
  headers req !! "authorization" = None ->
  authenticateToken env req w = (Return (fail 500 "Authentication error"), w).
Proof.
  intros H. rewrite authenticateToken_cases. unfold auth_outcome. now rewrite H.
Qed.

(** A successful pass attaches the context built from a row of [Users]. *)
Lemma authenticateToken_normal env req w user w' :
  authenticateToken env req w = (Normal user, w') ->
  exists row, row ∈ Users (db w) /\ user = identity_context row /\ db w' = db w.
Proof.
  rewrite authenticateToken_cases. unfold auth_outcome.
  destruct (headers req !! "authorization") as [h|]; [|discriminate].
  destruct (split_on " " h !! 2%nat) as [token|]; [|discriminate].
  destruct (String.eqb token ""); [discriminate|].
  destruct (jwt_verify env token) as [p|e]; [|discriminate].
  destruct (bool_decide (get p "userId" = VUndefined)); [discriminate|].
  destruct (user_named (db w) (get p "userId")) as [|row rows] eqn:E; [discriminate|].
  intros [= <- <-]. exists row. repeat split.
  assert (row ∈ user_named (db w) (get p "userId")) as Hin by (rewrite E; left).
  unfold user_named in Hin. apply list_elem_of_filter in Hin. tauto.
Qed.

(** The gate never writes to the store. *)
Lemma authenticateToken_db env req w :
  db (snd (authenticateToken env req w)) = db w.
Proof.
  rewrite authenticateToken_cases. unfold auth_outcome.
  destruct (headers req !! "authorization") as [h|]; [|reflexivity].
  destruct (split_on " " h !! 2%nat) as [token|]; [|reflexivity].
  destruct (String.eqb token ""); [reflexivity|].
  destruct (jwt_verify env token) as [p|e]; [|reflexivity].
  destruct (bool_decide (get p "userId" = VUndefined)); [reflexivity|].
  destruct (user_named (db w) (get p "userId")); reflexivity.
Qed.

(** The token handed to [jwt.verify] is field 2 of the header split on a
    blank. *)
Lemma authenticateToken_verifies_third_field env req w h token :
  headers req !! "authorization" = Some h ->
  split_on " " h !! 2%nat = Some token ->
  token <> "" ->
  exists rest,
    trace (snd (authenticateToken env req w))
    = (trace w ++ EvVerify token :: rest)%list.
Proof.
  intros Hh Ht Hne. rewrite authenticateToken_cases. unfold auth_outcome.
  rewrite Hh, Ht. apply String.eqb_neq in Hne. rewrite Hne.
  destruct (jwt_verify env token) as [p|e]; [|eexists; reflexivity].
  destruct (bool_decide (get p "userId" = VUndefined)); [eexists; reflexivity|].
  destruct (user_named (db w) (get p "userId")); eexists; reflexivity.
Qed.

(** C2: a request without an Authorization header is answered by the
    [catch] branch: status 500, "Authentication error", not the 401
    "Access token required" of the missing-token test. *)
Theorem missing_header_answered_500 (env : Env) (w : World) (p q b : Obj) :
  authenticateToken env {| headers := ∅; params := p; query := q; body := b |} w
  = (Return (fail 500 "Authentication error"), w)
  /\ status (fail 500 "Authentication error") = 500.
Proof.
  split; [|reflexivity]. now apply authenticateToken_no_header.
Qed.

(** C9: when the Authorization header splits on a blank into exactly two
    fields, field 2 is absent and the gate answers 401 "Access token
    required"; the world, and with it the record of [jwt.verify] calls, is
    left as it was. *)
Theorem two_field_header_rejected (env : Env) (req : Request) (w : World)
    (h : string) :
  headers req !! "authorization" = Some h ->
  length (split_on " " h) = 2%nat ->
  split_on " " h !! 2%nat = None
  /\ authenticateToken env req w
     = (Return (fail 401 "Access token required"), w)
  /\ trace (snd (authenticateToken env req w)) = trace w.
Proof.
  intros Hh Hlen.
  assert (split_on " " h !! 2%nat = None) as Hnone.
  { apply lookup_ge_None. rewrite Hlen. lia. }
  assert (authenticateToken env req w
          = (Return (fail 401 "Access token required"), w)) as Hres.
  { rewrite authenticateToken_cases. unfold auth_outcome. now rewrite Hh, Hnone. }
  rewrite Hres. auto.
Qed.

Lemma two_field_header_rejected_witness :
  authenticateToken (Sample.env RejectUndefined)
    {| headers := {["authorization" := "Bearer alice.jwt"]};
       params := ∅; query := ∅; body := ∅ |} (Sample.world [])
  = (Return (fail 401 "Access token required"), Sample.world []).
Proof.
  exact (proj1 (proj2 (two_field_header_rejected (Sample.env RejectUndefined)
    {| headers := {["authorization" := "Bearer alice.jwt"]};
       params := ∅; query := ∅; body := ∅ |} (Sample.world [])
    "Bearer alice.jwt" eq_refl eq_refl))).
Defined.

(** The same token in third position passes the gate. *)
Example third_field_token_accepted :
  fst (authenticateToken (Sample.env RejectUndefined)
         (Sample.request "alice.jwt" None ∅) (Sample.world []))
  = Normal (identity_context Sample.alice).
Proof. vm_compute. reflexivity. Qed.

Lemma user_named_number (s : Store) (n : Z) :
  user_named s (VNum n) = filter (fun u => u_id u = n) (Users s).
Proof.
  unfold user_named. apply list_filter_iff. intros u. simpl. apply Z.eqb_eq.
Qed.

(** C7 (as stated, refuted): the same token presented against two stores
    that both hold a row for user 1 yields two different contexts; the
    second carries the type and address of the stored row, not those of
    the token. *)
Lemma context_follows_store_not_token :
  fst (authenticateToken (Sample.env RejectUndefined)
         (Sample.request "alice.jwt" None ∅) (Sample.world []))
  = Normal (identity_context Sample.alice)
  /\ fst (authenticateToken (Sample.env RejectUndefined)
            (Sample.request "alice.jwt" None ∅) Sample.world_promoted)
     = Normal (identity_context Sample.alice_promoted)
  /\ get (identity_context Sample.alice) "type" = VStr "patient"
  /\ get (identity_context Sample.alice_promoted) "type" = VStr "admin"
  /\ get (Sample.token_payload Sample.alice) "type" = VStr "patient"
  /\ get (identity_context Sample.alice_promoted) "email" = VStr "root@example.org"
  /\ get (Sample.token_payload Sample.alice) "email" = VStr "alice@example.org".
Proof. repeat split; vm_compute; reflexivity. Qed.

(** C7 (amended): the token supplies only the key of the lookup.  A
    verified token without userId is answered 500 "Authentication error"
    and no lookup is made.  For a numeric userId, the gate answers 401
    "User not found" when no row of the store has that id; otherwise the
    attached context takes userId, email, name and type from the first
    row with that id. *)
Theorem context_from_refetched_row (env : Env) (req : Request) (w : World)
    (h token : string) (payload : Obj) :
  headers req !! "authorization" = Some h ->
  split_on " " h !! 2%nat = Some token ->
  token <> "" ->
  jwt_verify env token = Decoded payload ->
  (get payload "userId" = VUndefined ->
   authenticateToken env req w
   = (Return (fail 500 "Authentication error"), logged w [EvVerify token]))
  /\ (forall n,
        get payload "userId" = VNum n ->
        match filter (fun u => u_id u = n) (Users (db w)) with
        | [] =>
            fst (authenticateToken env req w)
            = Return (fail 401 "User not found")
        | row :: _ =>
            exists user,
              fst (authenticateToken env req w) = Normal user
              /\ get user "userId" = VNum (u_id row)
              /\ get user "email" = VStr (u_email row)
              /\ get user "name" = VStr (u_name row)
              /\ get user "type" = VStr (u_type row)
        end).
Proof.
  intros Hh Ht Hne Hv. rewrite authenticateToken_cases. unfold auth_outcome.
  rewrite Hh, Ht, Hv. apply String.eqb_neq in Hne. rewrite Hne. split.
  - intros ->. reflexivity.
  - intros n ->. rewrite bool_decide_eq_false_2 by discriminate.
    rewrite user_named_number.
    destruct (filter (fun u => u_id u = n) (Users (db w))) as [|row rows];
      [reflexivity|].
    exists (identity_context row). repeat split.
Qed.

Lemma context_from_refetched_row_witness :
  exists user,
    fst (authenticateToken (Sample.env RejectUndefined)
           (Sample.request "alice.jwt" None ∅) Sample.world_promoted)
    = Normal user
    /\ get user "userId" = VNum 1
    /\ get user "email" = VStr "root@example.org"
    /\ get user "name" = VStr "Alice"
    /\ get user "type" = VStr "admin".
Proof.
  exact (proj2 (context_from_refetched_row (Sample.env RejectUndefined)
                  (Sample.request "alice.jwt" None ∅) Sample.world_promoted
                  "Bearer  alice.jwt" "alice.jwt"
                  (Sample.token_payload Sample.alice)
                  eq_refl eq_refl ltac:(discriminate) eq_refl)
           1 eq_refl).
Defined.

(** A token that verifies but names no user: the statement is never
    written out, and the [catch] branch answers 500. *)
Example token_without_userId :
  authenticateToken
    {| jwt_verify := fun _ => Decoded {["email" := VStr "alice@example.org"]};
       isISO8601 := fun _ => false; Date_parse := fun _ => None; now := 0;
       undefined_bind := RejectUndefined |}
    (Sample.request "alice.jwt" None ∅) (Sample.world [])
  = (Return (fail 500 "Authentication error"),
     logged (Sample.world []) [EvVerify "alice.jwt"]).
Proof. vm_compute. reflexivity. Qed.

(** ** Booking *)

Ltac js_unfold :=
  unfold try_catch, bind, ret, respond, throw, read_db, write_db, bind_param,
    js_split in *.

Lemma validated_date env b :
  get (fst (booking_validators env b)) "appointment_date"
  = toDate env (get b "appointment_date").
Proof. unfold booking_validators, get. simpl. now rewrite lookup_insert_eq. Qed.

Lemma toDate_cases env v :
  toDate env v = VNull \/ exists t, toDate env v = VDate (Some t).
Proof. unfold toDate. destruct (Date_parse env (to_text v)); eauto. Qed.

(** With a Date object or null in [appointment_date] the handler stops at
    the latest where it calls [split] on it, and writes nothing. *)
Lemma create_without_text_date env user b errors w :
  get b "appointment_date" = VNull
  \/ (exists t, get b "appointment_date" = VDate (Some t)) ->
  exists r,
    create_appointment env user b errors w = (Return r, w)
    /\ r ∈ create_refusals errors.
Proof.
  intros Hdate. unfold create_appointment, create_refusals, select_active_doctor.
  js_unfold. destruct errors as [|e es].
  - destruct (get b "doctor_id"); destruct (undefined_bind env); simpl.
    all: try (eexists; split; [reflexivity | rewrite !elem_of_cons; tauto]).
    all: match goal with
         | |- context [filter ?P (Doctors ?s)] =>
             destruct (filter P (Doctors s)) as [|doctor rest]
         end.
    all: try (eexists; split; [reflexivity | rewrite !elem_of_cons; tauto]).
    all: destruct Hdate as [Hd | [instant Hd]]; rewrite Hd.
    all: match goal with
         | |- context [js_le ?x ?y] => destruct (js_le x y)
         end; simpl.
    all: eexists; split; [reflexivity | rewrite !elem_of_cons; tauto].
  - eexists; split; [reflexivity | rewrite !elem_of_cons; tauto].
Qed.

(** No request through [POST /] is answered 201, and none reaches the
    INSERT: the store is what it was. *)
Lemma route_create_outcome env req w :
  exists r w',
    route_create env req w = (Return r, w')
    /\ db w' = db w
    /\ status r <> 201.
Proof.
  unfold route_create. unfold bind at 1.
  pose proof (authenticateToken_db env req w) as Hdb.
  destruct (authenticateToken env req w) as [[user | r | e] w1] eqn:Hauth;
    simpl in Hdb.
  - destruct (booking_validators env (body req)) as [b errors] eqn:Hval.
    destruct (create_without_text_date env user b errors w1) as (r & Hr & Hin).
    { pose proof (validated_date env (body req)) as Hv. rewrite Hval in Hv.
      simpl in Hv. rewrite Hv.
      destruct (toDate_cases env (get (body req) "appointment_date")); auto. }
    exists r, w1. repeat split; [exact Hr | exact Hdb |].
    unfold create_refusals in Hin. rewrite !elem_of_cons, elem_of_nil in Hin.
    destruct Hin as [-> | [-> | [-> | [-> | []]]]]; discriminate.
  - exists r, w1. repeat split; [exact Hdb |].
    rewrite authenticateToken_cases in Hauth. unfold auth_outcome in Hauth.
    repeat match type of Hauth with
           | context [match ?x with _ => _ end] => destruct x
           end; inversion Hauth; subst; try discriminate.
    unfold auth_failure.
    repeat match goal with
           | |- context [if ?x then _ else _] => destruct x
           end; discriminate.
  - rewrite authenticateToken_cases in Hauth. unfold auth_outcome in Hauth.
    repeat match type of Hauth with
           | context [match ?x with _ => _ end] => destruct x
           end; discriminate.
Qed.

(** C3: Alice, authenticated, asks for doctor 7 (active, 09:00 to 17:00)
    on Monday 2026-11-09 at 10:00, eight days ahead, with no appointment in
    the store.  The validator chain has replaced the date by a Date
    object, the handler's [split] on it throws, and the answer is 500
    "Failed to book appointment"; nothing is inserted. *)
Theorem valid_booking_answered_500 (policy : BindPolicy) :
  let req := Sample.request "alice.jwt" None (Sample.booking "2026-11-09T10:00:00") in
  fst (authenticateToken (Sample.env policy) req (Sample.world []))
  = Normal (identity_context Sample.alice)
  /\ snd (booking_validators (Sample.env policy) (body req)) = []
  /\ get (fst (booking_validators (Sample.env policy) (body req))) "appointment_date"
     = VDate (Some 1794218400000)
  /\ now (Sample.env policy) < 1794218400000
  /\ fst (route_create (Sample.env policy) req (Sample.world []))
     = Return (fail 500 "Failed to book appointment")
  /\ db (snd (route_create (Sample.env policy) req (Sample.world [])))
     = Sample.store [].
Proof. destruct policy; repeat split; vm_compute; reflexivity. Qed.

(** C4: the first two checks answer as described (an unknown doctor gets
    404 "Doctor not found", a past date 400), but a request for 08:00 with
    a doctor working 09:00 to 17:00, and a request for a slot that is
    already taken, both get 500 "Failed to book appointment": the hour
    test and the two slot tests are never reached. *)
Theorem booking_checks_stop_at_hour (policy : BindPolicy) :
  let E := Sample.env policy in
  let taken := [Sample.booked 41 2 "2026-11-09T10:00:00" "scheduled"] in
  fst (route_create E
         (Sample.request "alice.jwt" None
            (<["doctor_id" := VNum 8]> (Sample.booking "2026-11-09T10:00:00")))
         (Sample.world []))
  = Return (fail 404 "Doctor not found")
  /\ fst (route_create E
            (Sample.request "alice.jwt" None (Sample.booking "2026-10-26T10:00:00"))
            (Sample.world []))
     = Return (fail 400 "Appointment must be scheduled for a future date")
  /\ fst (route_create E
            (Sample.request "alice.jwt" None (Sample.booking "2026-11-02T08:00:00"))
            (Sample.world []))
     = Return (fail 500 "Failed to book appointment")
  /\ fst (route_create E
            (Sample.request "alice.jwt" None (Sample.booking "2026-11-09T10:00:00"))
            (Sample.world taken))
     = Return (fail 500 "Failed to book appointment")
  /\ fst (route_create E
            (Sample.request "bob.jwt" None (Sample.booking "2026-11-09T10:00:00"))
            (Sample.world taken))
     = Return (fail 500 "Failed to book appointment").
Proof. destruct policy; repeat split; vm_compute; reflexivity. Qed.

(** The handler body run on the body as it was sent, the date still a
    string (the sanitizer left out): the hour test uses the half-open
    interval from opening to closing hour, and a taken slot is refused
    unless its appointment is cancelled. *)
Example text_date_checks (policy : BindPolicy) :
  fst (create_appointment (Sample.env policy) (identity_context Sample.alice)
         (Sample.booking "2026-11-02T08:00:00") [] (Sample.world []))
  = Return (fail 400 "Appointment time must be within doctor's working hours")
  /\ fst (create_appointment (Sample.env policy) (identity_context Sample.alice)
            (Sample.booking "2026-11-09T17:00:00") [] (Sample.world []))
     = Return (fail 400 "Appointment time must be within doctor's working hours")
  /\ fst (create_appointment (Sample.env policy) (identity_context Sample.alice)
            (Sample.booking "2026-11-09T10:00:00") []
            (Sample.world [Sample.booked 41 2 "2026-11-09T10:00:00" "scheduled"]))
     = Return (fail 400 "This time slot is already booked").
Proof. destruct policy; repeat split; vm_compute; reflexivity. Qed.

(** Past the slot test the absent [req.user.id] decides: a client that
    rejects [undefined] makes the patient test throw ... *)
Example text_date_patient_test_throws :
  create_appointment (Sample.env RejectUndefined) (identity_context Sample.alice)
    (Sample.booking "2026-11-09T10:00:00") [] (Sample.world [])
  = (Return (fail 500 "Failed to book appointment"), Sample.world []).
Proof. vm_compute. reflexivity. Qed.

(** ... and one that sends NULL lets the row in without a patient, even
    when Alice already has an appointment at that time. *)
Example text_date_row_without_patient :
  let row := {| a_id := 100; a_patient_id := VNull; a_doctor_id := VNum 7;
                a_appointment_date := VStr "2026-11-09T10:00:00";
                a_reason := VStr "checkup"; a_status := "scheduled";
                a_notes := VNull |} in
  let held := Sample.booked 41 1 "2026-11-09T10:00:00" "cancelled" in
  create_appointment (Sample.env UndefinedAsNull) (identity_context Sample.alice)
    (Sample.booking "2026-11-09T10:00:00") [] (Sample.world [held])
  = (Return (ok 201 (Some "Appointment booked successfully")
               (PObject (Some (enriched_obj row None (Some Sample.doctor7))))),
     {| db := {| Users := [Sample.alice; Sample.bob];
                 Doctors := [Sample.doctor7];
                 Appointments := [held; row]; next_id := 101 |};
        trace := [] |})
  /\ get (enriched_obj row None (Some Sample.doctor7)) "patient_name" = VNull.
Proof. split; vm_compute; reflexivity. Qed.

(** ** The context the handlers receive *)

Lemma context_has_no_id row : get (identity_context row) "id" = VUndefined.
Proof. reflexivity. Qed.

Lemma context_has_no_role row : get (identity_context row) "role" = VUndefined.
Proof. reflexivity. Qed.

Lemma context_fields row :
  dom (identity_context row) = ({["userId"; "email"; "name"; "type"]} : gset string).
Proof.
  unfold identity_context. rewrite !dom_insert_L, dom_empty_L.
  apply set_eq. intros k. rewrite !elem_of_union, !elem_of_singleton, elem_of_empty.
  tauto.
Qed.

(** The handlers read only [id] and [role] from the context: on a context
    made by the gate they run as on an object without properties. *)
Lemma handlers_on_context env row :
  (forall b errors,
      create_appointment env (identity_context row) b errors
      = create_appointment env ∅ b errors)
  /\ (forall req,
         cancel_appointment env (identity_context row) req
         = cancel_appointment env ∅ req)
  /\ (forall req,
         get_appointment env (identity_context row) req
         = get_appointment env ∅ req)
  /\ (forall req,
         list_appointments env (identity_context row) req
         = list_appointments env ∅ req).
Proof. repeat split; intros; reflexivity. Qed.

(** C10: the context attached by the gate has the properties userId,
    email, name and type and no others, so [req.user.id] and
    [req.user.role] read [undefined]: the patient_id of a new appointment
    is absent, no comparison of the role with a string ever holds, the
    listing takes its non-doctor branch, and every appointment handler
    runs as it would for a caller without role and id. *)
Theorem context_without_id_and_role (env : Env) (req : Request) (w w' : World)
    (user : Obj) :
  authenticateToken env req w = (Normal user, w') ->
  dom user = ({["userId"; "email"; "name"; "type"]} : gset string)
  /\ user !! "id" = None
  /\ user !! "role" = None
  /\ get user "id" = VUndefined
  /\ (forall r, strict_eq (get user "role") (VStr r) = false)
  /\ listing_of user = ByPatient
  /\ (forall b errors,
         create_appointment env user b errors = create_appointment env ∅ b errors)
  /\ (forall r, cancel_appointment env user r = cancel_appointment env ∅ r)
  /\ (forall r, get_appointment env user r = get_appointment env ∅ r)
  /\ (forall r, list_appointments env user r = list_appointments env ∅ r).
Proof.
  intros Hauth. apply authenticateToken_normal in Hauth as (row & _ & -> & _).
  destruct (handlers_on_context env row) as (Hc & Hx & Hg & Hl).
  split; [apply context_fields |].
  repeat split; auto.
Qed.

Lemma context_without_id_and_role_witness :
  get (identity_context Sample.alice) "id" = VUndefined
  /\ strict_eq (get (identity_context Sample.alice) "role") (VStr "patient") = false
  /\ listing_of (identity_context Sample.alice) = ByPatient.
Proof.
  destruct (context_without_id_and_role (Sample.env RejectUndefined)
              (Sample.request "alice.jwt" None ∅) (Sample.world [])
              (logged (Sample.world []) [EvVerify "alice.jwt"; EvUserLookup (VNum 1)])
              (identity_context Sample.alice) eq_refl)
    as (_ & _ & _ & Hid & Hrole & Hlist & _).
  exact (conj Hid (conj (Hrole "patient") Hlist)).
Defined.

(** ** Computations that leave the store alone *)

Lemma keeps_db_ret {A} (a : A) : keeps_db (ret a).
Proof. now intros w. Qed.

Lemma keeps_db_respond {A} r : keeps_db (@respond A r).
Proof. now intros w. Qed.

Lemma keeps_db_throw {A} e : keeps_db (@throw A e).
Proof. now intros w. Qed.

Lemma keeps_db_read : keeps_db read_db.
Proof. now intros w. Qed.

Lemma keeps_db_bind {A B} (m : Js A) (k : A -> Js B) :
  keeps_db m -> (forall a, keeps_db (k a)) -> keeps_db (bind m k).
Proof.
  intros Hm Hk w. unfold bind. specialize (Hm w).
  destruct (m w) as [[a | r | e] w1]; simpl in *; try exact Hm.
  now rewrite Hk.
Qed.

Lemma keeps_db_try_catch {A} (m : Js A) (h : JSError -> Js A) :
  keeps_db m -> (forall e, keeps_db (h e)) -> keeps_db (try_catch m h).
Proof.
  intros Hm Hh w. unfold try_catch. specialize (Hm w).
  destruct (m w) as [[a | r | e] w1]; simpl in *; try exact Hm.
  now rewrite Hh.
Qed.

Lemma keeps_db_bind_param env v : keeps_db (bind_param env v).
Proof.
  unfold bind_param. destruct v; try apply keeps_db_ret.
  destruct (undefined_bind env); [apply keeps_db_throw | apply keeps_db_ret].
Qed.

Lemma keeps_db_authenticateToken env req : keeps_db (authenticateToken env req).
Proof. intros w. apply authenticateToken_db. Qed.

Ltac keeps_db_step :=
  match goal with
  | |- keeps_db (bind _ _) => apply keeps_db_bind; [| intros ?]
  | |- keeps_db (try_catch _ _) => apply keeps_db_try_catch; [| intros ?]
  | |- keeps_db (ret _) => apply keeps_db_ret
  | |- keeps_db (respond _) => apply keeps_db_respond
  | |- keeps_db (throw _) => apply keeps_db_throw
  | |- keeps_db read_db => apply keeps_db_read
  | |- keeps_db (bind_param _ _) => apply keeps_db_bind_param
  | |- keeps_db (authenticateToken _ _) => apply keeps_db_authenticateToken
  | |- keeps_db (match ?x with _ => _ end) => destruct x
  | |- keeps_db (let '(_, _) := ?x in _) => destruct x
  end.

Lemma keeps_db_select_doctor_of_user env d u :
  keeps_db (select_doctor_of_user env d u).
Proof. unfold select_doctor_of_user. repeat keeps_db_step. Qed.

Lemma keeps_db_list env user req : keeps_db (list_appointments env user req).
Proof. unfold list_appointments, select_listing. repeat keeps_db_step. Qed.

Lemma keeps_db_get env user req : keeps_db (get_appointment env user req).
Proof.
  unfold get_appointment, select_detail.
  repeat first [apply keeps_db_select_doctor_of_user | keeps_db_step].
Qed.

Lemma keeps_db_route_list env req : keeps_db (route_list env req).
Proof. unfold route_list. repeat first [apply keeps_db_list | keeps_db_step]. Qed.

Lemma keeps_db_route_get env req : keeps_db (route_get env req).
Proof. unfold route_get. repeat first [apply keeps_db_get | keeps_db_step]. Qed.

Lemma keeps_db_route_create env req : keeps_db (route_create env req).
Proof.
  intros w. destruct (route_create_outcome env req w) as (r & w' & -> & Hdb & _).
  exact Hdb.
Qed.

(** ** Cancellation *)

Lemma cancel_by_gate_context env row req w :
  cancel_appointment env (identity_context row) req w = cancel_outcome env req w.
Proof.
  unfold cancel_appointment, cancel_outcome, select_appointment, update_where_id,
    bound, rewrite_rows, with_appointments, cancel_row.
  rewrite context_has_no_role, context_has_no_id. js_unfold.
  destruct (get (params req) "id") eqn:Hid; destruct (undefined_bind env) eqn:Hpol;
    simpl; try reflexivity.
  all: match goal with
       | |- context [filter ?P (Appointments ?s)] =>
           destruct (filter P (Appointments s)) as [|a rest]
       end; [reflexivity |].
  all: destruct (String.eqb (a_status a) "cancelled"); [reflexivity |].
  all: destruct (String.eqb (a_status a) "completed"); [reflexivity |].
  all: destruct (get (body req) "reason") as [| |[]|amount|text|instant];
    simpl; try reflexivity.
  all: try (destruct (Z.eqb amount 0); simpl; reflexivity).
  all: try (destruct (String.eqb text ""); simpl; reflexivity).
Qed.


(** No caller that came through the gate is refused for lack of
    permission. *)
Lemma cancel_never_denies env row req w :
  status_of (fst (cancel_appointment env (identity_context row) req w)) <> Some 403.
Proof.
  rewrite cancel_by_gate_context. unfold cancel_outcome.
  repeat match goal with
         | |- context [match ?x with _ => _ end] => destruct x
         end; discriminate.
Qed.

(** C6: Bob, an authenticated patient, cancels appointment 41, which
    belongs to Alice: the answer is 200 and the row becomes cancelled,
    where a 403 is due.  The status test itself works: a cancelled or
    completed appointment is refused with 400 and left as it is. *)
Theorem foreign_patient_cancels (policy : BindPolicy) :
  let E := Sample.env policy in
  let req := Sample.request "bob.jwt" (Some "41") ∅ in
  let at_status st := Sample.booked 41 1 "2026-11-09T10:00:00" st in
  fst (authenticateToken E req (Sample.world [at_status "scheduled"]))
  = Normal (identity_context Sample.bob)
  /\ get (identity_context Sample.bob) "type" = VStr "patient"
  /\ a_patient_id (at_status "scheduled") = VNum 1
  /\ get (identity_context Sample.bob) "userId" = VNum 2
  /\ fst (route_cancel E req (Sample.world [at_status "scheduled"]))
     = Return (ok 200 (Some "Appointment cancelled successfully") PNone)
  /\ db (snd (route_cancel E req (Sample.world [at_status "scheduled"])))
     = Sample.store [at_status "cancelled"]
  /\ fst (route_cancel E req (Sample.world [at_status "cancelled"]))
     = Return (fail 400 "Appointment is already cancelled")
  /\ db (snd (route_cancel E req (Sample.world [at_status "cancelled"])))
     = Sample.store [at_status "cancelled"]
  /\ fst (route_cancel E req (Sample.world [at_status "completed"]))
     = Return (fail 400 "Cannot cancel completed appointment")
  /\ db (snd (route_cancel E req (Sample.world [at_status "completed"])))
     = Sample.store [at_status "completed"].
Proof. destruct policy; repeat split; vm_compute; reflexivity. Qed.

(** ** Status transitions *)

Lemma sql_eq_num_inj x y i :
  sql_eq (VNum x) i = true -> sql_eq (VNum y) i = true -> x = y.
Proof.
  destruct i; simpl; try discriminate.
  - intros Hx Hy. apply Z.eqb_eq in Hx, Hy. congruence.
  - intros Hx Hy. apply andb_true_iff in Hx as [_ Hx], Hy as [_ Hy].
    apply bool_decide_eq_true in Hx, Hy. congruence.
Qed.

Lemma unique_id (l : list AppointmentRow) a a' :
  NoDup (map a_id l) -> a ∈ l -> a' ∈ l -> a_id a' = a_id a -> a' = a.
Proof.
  induction l as [|x l IH]; intros Hnd Ha Ha' Hid.
  - now apply elem_of_nil in Ha.
  - simpl in Hnd. apply NoDup_cons in Hnd as [Hx Hnd].
    apply elem_of_cons in Ha as [-> | Ha], Ha' as [-> | Ha']; auto.
    + exfalso. apply Hx. rewrite <- Hid. now apply list_elem_of_fmap_2.
    + exfalso. apply Hx. rewrite Hid. now apply list_elem_of_fmap_2.
Qed.

Lemma cancel_row_id reason a : a_id (cancel_row reason a) = a_id a.
Proof. unfold cancel_row. now destruct (truthy reason). Qed.

Lemma status_kept_same a s :
  NoDup (map a_id (Appointments s)) -> a ∈ Appointments s -> status_kept a s.
Proof.
  intros Hnd Hin a' Hin' Hid. now rewrite (unique_id _ a a' Hnd Hin Hin' Hid).
Qed.

Lemma status_kept_after_gate {A} env req (k : Obj -> Js A) w a :
  status_kept a (db w) ->
  (forall row w1, db w1 = db w ->
                  status_kept a (db (snd (k (identity_context row) w1)))) ->
  status_kept a (db (snd (bind (authenticateToken env req) k w))).
Proof.
  intros H0 Hk. unfold bind.
  pose proof (authenticateToken_db env req w) as Hdb.
  destruct (authenticateToken env req w) as [[user | r | e] w1] eqn:Hauth;
    simpl in *; try (now rewrite Hdb).
  apply authenticateToken_normal in Hauth as (row & _ & -> & _).
  now apply Hk.
Qed.

Lemma status_kept_cancel env row req w a :
  NoDup (map a_id (Appointments (db w))) ->
  a ∈ Appointments (db w) ->
  terminal (a_status a) = true ->
  status_kept a (db (snd (cancel_appointment env (identity_context row) req w))).
Proof.
  intros Hnd Hin Hterm. rewrite cancel_by_gate_context. unfold cancel_outcome.
  pose proof (status_kept_same a (db w) Hnd Hin) as Hsame.
  destruct (bound env (get (params req) "id")) as [i|]; [|exact Hsame].
  destruct (filter _ (Appointments (db w))) as [|a0 rest] eqn:Hf; [exact Hsame|].
  destruct (String.eqb (a_status a0) "cancelled") eqn:Hc; [exact Hsame|].
  destruct (String.eqb (a_status a0) "completed") eqn:Hd; [exact Hsame|].
  assert (a0 ∈ Appointments (db w) /\ sql_eq (VNum (a_id a0)) i = true) as [Hin0 Hhit0].
  { assert (a0 ∈ filter (fun a => sql_eq (VNum (a_id a)) i = true)
                    (Appointments (db w))) as H by (rewrite Hf; left).
    apply list_elem_of_filter in H. tauto. }
  intros a' Hin' Hid. unfold rewrite_rows, with_appointments in Hin'.
  cbn [db snd Appointments] in Hin'.
  apply list_elem_of_fmap in Hin' as (b & Heq & Hb).
  destruct (sql_eq (VNum (a_id b)) i) eqn:Hhit; subst a'.
  - exfalso. rewrite cancel_row_id in Hid.
    assert (b = a) as -> by (eapply unique_id; eauto).
    assert (a0 = a) as ->.
    { eapply unique_id; eauto. eapply sql_eq_num_inj; eauto. }
    unfold terminal in Hterm. rewrite Hc, Hd in Hterm. discriminate.
  - now apply Hsame.
Qed.

Lemma status_kept_delete env req w a :
  NoDup (map a_id (Appointments (db w))) ->
  a ∈ Appointments (db w) ->
  status_kept a (db (snd (delete_appointment env req w))).
Proof.
  intros Hnd Hin. pose proof (status_kept_same a (db w) Hnd Hin) as Hsame.
  unfold delete_appointment. js_unfold.
  destruct (get (params req) "id"); try destruct (undefined_bind env); simpl;
    try exact Hsame.
  all: match goal with
       | |- context [existsb ?f ?l] => destruct (existsb f l)
       end; simpl.
  all: intros a' Hin' Hid; apply list_elem_of_filter in Hin' as [_ Hin'];
    now apply Hsame.
Qed.

(** [PUT /:id] with an admissible status rewrites every row of that id,
    whatever its status was. *)
Lemma update_sets_status env req w st i :
  get (body req) "status" = VStr st ->
  st ∈ update_statuses ->
  bound env (get (params req) "id") = Some i ->
  snd (update_appointment env req w) = rewrite_rows i (set_status st) w.
Proof.
  intros Hst Hin Hid. unfold update_appointment, update_where_id. rewrite Hst.
  unfold bound in Hid. js_unfold.
  assert (negb (truthy (VStr st)) || negb (includes update_statuses (VStr st))
          = false) as ->.
  { unfold update_statuses in *. rewrite !elem_of_cons, elem_of_nil in Hin.
    destruct Hin as [-> | [-> | [-> | []]]]; reflexivity. }
  cbn [js_to_string].
  destruct (get (params req) "id"); try destruct (undefined_bind env);
    try discriminate; injection Hid as <-; simpl;
    match goal with
    | |- context [Z.eqb ?n 0] => destruct (Z.eqb n 0)
    end; reflexivity.
Qed.

Lemma route_update_sets_status env req w st i user :
  fst (authenticateToken env req w) = Normal user ->
  get (body req) "status" = VStr st ->
  st ∈ update_statuses ->
  bound env (get (params req) "id") = Some i ->
  Appointments (db (snd (route_update env req w)))
  = map (fun a => if sql_eq (VNum (a_id a)) i then set_status st a else a)
      (Appointments (db w)).
Proof.
  intros Hauth Hst Hin Hid. unfold route_update, bind.
  pose proof (authenticateToken_db env req w) as Hdb.
  destruct (authenticateToken env req w) as [c w1]. simpl in Hauth, Hdb. subst c.
  rewrite (update_sets_status env req w1 st i Hst Hin Hid).
  unfold rewrite_rows. simpl. now rewrite Hdb.
Qed.

(** C5 (as stated, refuted): through [PUT /:id] a completed appointment
    goes back to scheduled, and a cancelled one becomes completed. *)
Lemma terminal_status_left_by_update :
  fst (route_update (Sample.env RejectUndefined)
         (Sample.status_request "scheduled")
         (Sample.world [Sample.appointment41 "completed"]))
  = Return (ok 200 (Some "Appointment status updated successfully") PNone)
  /\ Appointments (db (snd (route_update (Sample.env RejectUndefined)
                              (Sample.status_request "scheduled")
                              (Sample.world [Sample.appointment41 "completed"]))))
     = [Sample.appointment41 "scheduled"]
  /\ Appointments (db (snd (route_update (Sample.env RejectUndefined)
                              (Sample.status_request "completed")
                              (Sample.world [Sample.appointment41 "cancelled"]))))
     = [Sample.appointment41 "completed"].
Proof. repeat split; vm_compute; reflexivity. Qed.

(** C5 (amended): with unique appointment ids, every operation other than
    the status update leaves the status of a cancelled or completed
    appointment as it is; the status update of an authenticated caller
    sets the addressed appointment to whichever of scheduled, completed
    and canceled the request names, whatever its status was. *)
Theorem terminal_status_left_only_by_update (env : Env) (req : Request)
    (w : World) (a : AppointmentRow) :
  NoDup (map a_id (Appointments (db w))) ->
  a ∈ Appointments (db w) ->
  terminal (a_status a) = true ->
  (forall op, op <> OpUpdate -> status_kept a (db (snd (route op env req w))))
  /\ (forall st i user,
         fst (authenticateToken env req w) = Normal user ->
         get (body req) "status" = VStr st ->
         st ∈ update_statuses ->
         bound env (get (params req) "id") = Some i ->
         sql_eq (VNum (a_id a)) i = true ->
         set_status st a ∈ Appointments (db (snd (route OpUpdate env req w)))).
Proof.
  intros Hnd Hin Hterm.
  pose proof (status_kept_same a (db w) Hnd Hin) as Hsame. split.
  - intros op Hop. destruct op; simpl; try congruence.
    + now rewrite keeps_db_route_list.
    + now rewrite keeps_db_route_get.
    + now rewrite keeps_db_route_create.
    + unfold route_cancel. apply status_kept_after_gate; [exact Hsame|].
      intros row w1 Hdb. apply status_kept_cancel; rewrite ?Hdb; auto.
    + unfold route_delete. apply status_kept_after_gate; [exact Hsame|].
      intros row w1 Hdb. apply status_kept_delete; rewrite ?Hdb; auto.
  - intros st i user Hauth Hst Hst_in Hid Hhit. simpl.
    rewrite (route_update_sets_status env req w st i user Hauth Hst Hst_in Hid).
    apply list_elem_of_fmap. exists a. now rewrite Hhit.
Qed.

Lemma terminal_status_left_only_by_update_witness :
  status_kept (Sample.appointment41 "completed")
    (db (snd (route OpCancel (Sample.env RejectUndefined)
                (Sample.status_request "scheduled")
                (Sample.world [Sample.appointment41 "completed"]))))
  /\ set_status "scheduled" (Sample.appointment41 "completed")
     ∈ Appointments
         (db (snd (route OpUpdate (Sample.env RejectUndefined)
                     (Sample.status_request "scheduled")
                     (Sample.world [Sample.appointment41 "completed"])))).
Proof.
  destruct (terminal_status_left_only_by_update (Sample.env RejectUndefined)
              (Sample.status_request "scheduled")
              (Sample.world [Sample.appointment41 "completed"])
              (Sample.appointment41 "completed"))
    as [Hkept Hset].
  - apply NoDup_singleton.
  - apply list_elem_of_singleton. reflexivity.
  - reflexivity.
  - split.
    + apply Hkept. discriminate.
    + apply (Hset "scheduled" (VStr "41") (identity_context Sample.alice)).
      * reflexivity.
      * reflexivity.
      * apply list_elem_of_here.
      * reflexivity.
      * reflexivity.
Defined.

(** ** Token lifetimes *)

Lemma ms_24h : ms "24h" = Some 86400000.
Proof. reflexivity. Qed.

Lemma ms_7d : ms "7d" = Some 604800000.
Proof. reflexivity. Qed.

(** What [jwt.sign] embeds at a site: [iat] is the clock in seconds and
    [exp] lies the site's span later. *)
Lemma jwt_sign_claims (payload : Obj) (site : SignSite) (clock : Z) :
  jwt_sign payload site clock
  = Some (<["exp" := VNum (clock / 1000
                           + match site with
                             | RegisterSite => 604800
                             | LoginSite => 86400
                             end)]>
            (<["iat" := VNum (clock / 1000)]> payload)).
Proof.
  unfold jwt_sign, expiresIn. destruct site; [rewrite ms_7d | rewrite ms_24h];
    reflexivity.
Qed.

Lemma jwt_sign_times (payload : Obj) (site : SignSite) (clock : Z) (token : Obj) :
  jwt_sign payload site clock = Some token ->
  get token "iat" = VNum (clock / 1000)
  /\ get token "exp" = VNum (clock / 1000
                             + match site with
                               | RegisterSite => 604800
                               | LoginSite => 86400
                               end).
Proof.
  rewrite jwt_sign_claims. intros [= <-]. unfold get.
  rewrite lookup_insert_eq, lookup_insert_ne by discriminate.
  rewrite lookup_insert_eq. split; reflexivity.
Qed.

(** Alice's login token of the sample deployment. *)
Example login_token_expiry :
  get (Sample.token_payload Sample.alice) "exp" = VNum (1793534400 + 86400)
  /\ get (Sample.token_payload Sample.alice) "userId" = VNum 1
  /\ get (Sample.token_payload Sample.alice) "type" = VStr "patient".
Proof. repeat split; vm_compute; reflexivity. Qed.

(** * Further properties *)

(** ** The gate, continued *)

Lemma auth_failure_status e :
  status (auth_failure e) = 401 \/ status (auth_failure e) = 500.
Proof.
  unfold auth_failure.
  destruct (String.eqb (err_name e) "JsonWebTokenError"); [now left |].
  destruct (String.eqb (err_name e) "TokenExpiredError"); [now left | now right].
Qed.

Lemma auth_failure_not_missing e :
  auth_failure e <> fail 401 "Access token required".
Proof.
  unfold auth_failure.
  destruct (String.eqb (err_name e) "JsonWebTokenError"); [discriminate |].
  destruct (String.eqb (err_name e) "TokenExpiredError"); discriminate.
Qed.

(** X1: the gate answers 401 "Access token required" exactly when the
    Authorization header is present and its third blank-separated field is
    absent or empty. *)
Theorem access_token_required_iff (env : Env) (req : Request) (w : World) :
  fst (authenticateToken env req w) = Return (fail 401 "Access token required")
  <-> exists h,
        headers req !! "authorization" = Some h
        /\ (split_on " " h !! 2%nat = None \/ split_on " " h !! 2%nat = Some "").
Proof.
  rewrite authenticateToken_cases. unfold auth_outcome. split.
  - destruct (headers req !! "authorization") as [h|]; [|discriminate].
    intros H. exists h. split; [reflexivity |].
    destruct (split_on " " h !! 2%nat) as [token|]; [|now left].
    destruct (String.eqb token "") eqn:E.
    + apply String.eqb_eq in E. subst. now right.
    + exfalso. destruct (jwt_verify env token) as [p|e].
      * destruct (bool_decide (get p "userId" = VUndefined)); [discriminate |].
        destruct (user_named (db w) (get p "userId")); discriminate.
      * simpl in H. injection H as H. now apply auth_failure_not_missing in H.
  - intros (h & -> & [-> | ->]); reflexivity.
Qed.

(** X2: when [jwt.verify] throws, the gate answers by the name of the
    error (TokenExpiredError: 401 "Token expired"; JsonWebTokenError: 401
    "Invalid token" with the error attached; any other name, such as
    NotBeforeError: 500 "Authentication error") and the user table is
    not consulted: the only call recorded is the verification. *)
Theorem verification_failure_skips_lookup (env : Env) (req : Request)
    (w : World) (h token : string) (e : JSError) :
  headers req !! "authorization" = Some h ->
  split_on " " h !! 2%nat = Some token ->
  token <> "" ->
  jwt_verify env token = VerifyThrows e ->
  snd (authenticateToken env req w) = logged w [EvVerify token]
  /\ (err_name e = "JsonWebTokenError" ->
      fst (authenticateToken env req w)
      = Return {| status := 401; success := false;
                  message := Some "Invalid token"; data := PError e |})
  /\ (err_name e = "TokenExpiredError" ->
      fst (authenticateToken env req w) = Return (fail 401 "Token expired"))
  /\ (err_name e <> "JsonWebTokenError" -> err_name e <> "TokenExpiredError" ->
      fst (authenticateToken env req w)
      = Return (fail 500 "Authentication error")).
Proof.
  intros Hh Ht Hne Hv. rewrite authenticateToken_cases. unfold auth_outcome.
  rewrite Hh, Ht, Hv. apply String.eqb_neq in Hne. rewrite Hne. simpl.
  unfold auth_failure. repeat split.
  - intros ->. reflexivity.
  - intros ->. reflexivity.
  - intros H1 H2. apply String.eqb_neq in H1, H2. now rewrite H1, H2.
Qed.

Lemma verification_failure_skips_lookup_witness :
  snd (authenticateToken (Sample.env RejectUndefined)
         (Sample.request "old.jwt" None ∅) (Sample.world []))
  = logged (Sample.world []) [EvVerify "old.jwt"]
  /\ fst (authenticateToken (Sample.env RejectUndefined)
            (Sample.request "old.jwt" None ∅) (Sample.world []))
     = Return (fail 401 "Token expired").
Proof.
  destruct (verification_failure_skips_lookup (Sample.env RejectUndefined)
              (Sample.request "old.jwt" None ∅) (Sample.world [])
              "Bearer  old.jwt" "old.jwt"
              {| err_name := "TokenExpiredError"; err_message := "jwt expired" |}
              eq_refl eq_refl ltac:(discriminate) eq_refl)
    as (Hw & _ & Hexp & _).
  exact (conj Hw (Hexp eq_refl)).
Defined.

(** X3: whatever the request, the gate either hands over to the next
    handler or answers with a failure of status 401 or 500; no exception
    leaves it and it writes nothing to the store. *)
Theorem gate_answers_401_or_500 (env : Env) (req : Request) (w : World) :
  db (snd (authenticateToken env req w)) = db w
  /\ match fst (authenticateToken env req w) with
     | Normal user => exists row, row ∈ Users (db w) /\ user = identity_context row
     | Return r => success r = false /\ (status r = 401 \/ status r = 500)
     | Throw _ => False
     end.
Proof.
  split; [apply authenticateToken_db |].
  rewrite authenticateToken_cases. unfold auth_outcome.
  destruct (headers req !! "authorization") as [h|]; [|simpl; auto].
  destruct (split_on " " h !! 2%nat) as [token|]; [|simpl; auto].
  destruct (String.eqb token ""); [simpl; auto |].
  destruct (jwt_verify env token) as [p|e]; simpl.
  - destruct (bool_decide (get p "userId" = VUndefined)); [simpl; auto |].
    destruct (user_named (db w) (get p "userId")) as [|row rows] eqn:E;
      simpl; [auto |].
    exists row. split; [|reflexivity].
    assert (row ∈ user_named (db w) (get p "userId")) as Hin by (rewrite E; left).
    unfold user_named in Hin. apply list_elem_of_filter in Hin. tauto.
  - split; [|apply auth_failure_status].
    unfold auth_failure.
    destruct (String.eqb (err_name e) "JsonWebTokenError"); [reflexivity |].
    destruct (String.eqb (err_name e) "TokenExpiredError"); reflexivity.
Qed.

(** X4: a pass of the gate means that the third header field verified as
    a token and that the store holds a user whose id equals the token's
    userId; the context carries that user's id, and exactly one
    verification and one lookup were made. *)
Theorem gate_pass_matches_token (env : Env) (req : Request) (w w' : World)
    (user : Obj) :
  authenticateToken env req w = (Normal user, w') ->
  exists h token payload row,
    headers req !! "authorization" = Some h
    /\ split_on " " h !! 2%nat = Some token
    /\ jwt_verify env token = Decoded payload
    /\ row ∈ Users (db w)
    /\ sql_eq (VNum (u_id row)) (get payload "userId") = true
    /\ get user "userId" = VNum (u_id row)
    /\ w' = logged w [EvVerify token; EvUserLookup (get payload "userId")].
Proof.
  rewrite authenticateToken_cases. unfold auth_outcome.
  destruct (headers req !! "authorization") as [h|] eqn:Hh; [|discriminate].
  destruct (split_on " " h !! 2%nat) as [token|] eqn:Ht; [|discriminate].
  destruct (String.eqb token ""); [discriminate |].
  destruct (jwt_verify env token) as [p|e] eqn:Hv; [|discriminate].
  destruct (bool_decide (get p "userId" = VUndefined)); [discriminate |].
  destruct (user_named (db w) (get p "userId")) as [|row rows] eqn:E;
    [discriminate |].
  intros [= <- <-]. exists h, token, p, row.
  assert (row ∈ user_named (db w) (get p "userId")) as Hin by (rewrite E; left).
  unfold user_named in Hin. apply list_elem_of_filter in Hin as [Hhit Hin].
  repeat split; try assumption; reflexivity.
Qed.

Lemma gate_pass_matches_token_witness :
  exists h token payload row,
    headers (Sample.request "bob.jwt" None ∅) !! "authorization" = Some h
    /\ split_on " " h !! 2%nat = Some token
    /\ jwt_verify (Sample.env RejectUndefined) token = Decoded payload
    /\ row ∈ Users (db (Sample.world []))
    /\ sql_eq (VNum (u_id row)) (get payload "userId") = true
    /\ get (identity_context Sample.bob) "userId" = VNum (u_id row)
    /\ logged (Sample.world []) [EvVerify "bob.jwt"; EvUserLookup (VNum 2)]
       = logged (Sample.world []) [EvVerify token; EvUserLookup (get payload "userId")].
Proof.
  exact (gate_pass_matches_token (Sample.env RejectUndefined)
           (Sample.request "bob.jwt" None ∅) (Sample.world [])
           (logged (Sample.world []) [EvVerify "bob.jwt"; EvUserLookup (VNum 2)])
           (identity_context Sample.bob) eq_refl).
Defined.

(** ** Appointment routes, continued *)

Lemma gate_response_status env req w r w' :
  authenticateToken env req w = (Return r, w') ->
  status r = 401 \/ status r = 500.
Proof.
  rewrite authenticateToken_cases. unfold auth_outcome.
  destruct (headers req !! "authorization") as [h|]; [|intros [= <- _]; now right].
  destruct (split_on " " h !! 2%nat) as [token|]; [|intros [= <- _]; now left].
  destruct (String.eqb token ""); [intros [= <- _]; now left |].
  destruct (jwt_verify env token) as [p|e].
  - destruct (bool_decide (get p "userId" = VUndefined));
      [intros [= <- _]; now right |].
    destruct (user_named (db w) (get p "userId")); [|discriminate].
    intros [= <- _]. now left.
  - intros [= <- _]. apply auth_failure_status.
Qed.

Lemma gate_never_throws env req w e w' :
  authenticateToken env req w <> (Throw e, w').
Proof.
  rewrite authenticateToken_cases. unfold auth_outcome.
  repeat match goal with
         | |- context [match ?x with _ => _ end] => destruct x
         end; discriminate.
Qed.

Lemma path_id_param env req n :
  path_id req = Some n ->
  exists s,
    get (params req) "id" = VStr s
    /\ bound env (get (params req) "id") = Some (VStr s)
    /\ forall x, sql_eq (VNum x) (VStr s) = (x =? n).
Proof.
  unfold path_id. destruct (get (params req) "id") as [| | | |s|]; try discriminate.
  destruct (isInt s) eqn:Hint; [|discriminate].
  intros Hp. exists s. repeat split. intros x. simpl. rewrite Hint, Hp. simpl.
  destruct (Z.eqb_spec x n) as [-> | Hne].
  - now apply bool_decide_eq_true.
  - apply bool_decide_eq_false. congruence.
Qed.

Lemma filter_by_id (s : string) (n : Z) (l : list AppointmentRow) :
  (forall x, sql_eq (VNum x) (VStr s) = (x =? n)) ->
  filter (fun a => sql_eq (VNum (a_id a)) (VStr s) = true) l
  = filter (fun a => a_id a = n) l.
Proof.
  intros H. apply list_filter_iff. intros a. rewrite H. apply Z.eqb_eq.
Qed.

Lemma map_by_id (s : string) (n : Z) (f : AppointmentRow -> AppointmentRow)
    (l : list AppointmentRow) :
  (forall x, sql_eq (VNum x) (VStr s) = (x =? n)) ->
  map (fun a => if sql_eq (VNum (a_id a)) (VStr s) then f a else a) l
  = map (fun a => if a_id a =? n then f a else a) l.
Proof. intros H. apply map_ext. intros a. now rewrite H. Qed.

Lemma filter_none (n : Z) (l : list AppointmentRow) :
  (forall a, a ∈ l -> a_id a <> n) -> filter (fun a => a_id a = n) l = [].
Proof.
  intros H. induction l as [|x l IH]; [reflexivity |].
  rewrite filter_cons. destruct (decide (a_id x = n)) as [E|E].
  - exfalso. apply (H x); [left | exact E].
  - apply IH. intros a Ha. apply H. now right.
Qed.

Lemma map_none (n : Z) (f : AppointmentRow -> AppointmentRow)
    (l : list AppointmentRow) :
  (forall a, a ∈ l -> a_id a <> n) ->
  map (fun a => if a_id a =? n then f a else a) l = l.
Proof.
  intros H. induction l as [|x l IH]; [reflexivity |]. simpl.
  destruct (Z.eqb_spec (a_id x) n) as [E|E].
  - exfalso. apply (H x); [left | exact E].
  - f_equal. apply IH. intros a Ha. apply H. now right.
Qed.

Lemma filter_head (n : Z) (l : list AppointmentRow) a :
  a ∈ l -> a_id a = n ->
  exists a0 rest, filter (fun a => a_id a = n) l = a0 :: rest
                  /\ a0 ∈ l /\ a_id a0 = n.
Proof.
  intros Hin Hid.
  destruct (filter (fun a => a_id a = n) l) as [|a0 rest] eqn:E.
  - assert (a ∈ filter (fun a => a_id a = n) l) as H
        by (apply list_elem_of_filter; auto).
    rewrite E in H. now apply elem_of_nil in H.
  - exists a0, rest. split; [reflexivity |].
    assert (a0 ∈ filter (fun a => a_id a = n) l) as H by (rewrite E; left).
    apply list_elem_of_filter in H. tauto.
Qed.

(** X5: no request to [POST /] is answered 201 or gets a row inserted:
    the answer always has status 400, 401, 404 or 500 and the store is
    what it was. *)
Theorem booking_never_inserts (env : Env) (req : Request) (w : World) :
  exists r w',
    route_create env req w = (Return r, w')
    /\ db w' = db w
    /\ status r ∈ [400; 401; 404; 500].
Proof.
  unfold route_create. unfold bind at 1.
  pose proof (authenticateToken_db env req w) as Hdb.
  destruct (authenticateToken env req w) as [[user | r | e] w1] eqn:Hauth;
    simpl in Hdb.
  - destruct (booking_validators env (body req)) as [b errors] eqn:Hval.
    destruct (create_without_text_date env user b errors w1) as (r & Hr & Hin).
    { pose proof (validated_date env (body req)) as Hv. rewrite Hval in Hv.
      simpl in Hv. rewrite Hv.
      destruct (toDate_cases env (get (body req) "appointment_date")); auto. }
    exists r, w1. repeat split; [exact Hr | exact Hdb |].
    unfold create_refusals in Hin. rewrite !elem_of_cons, elem_of_nil in Hin.
    rewrite !elem_of_cons.
    destruct Hin as [-> | [-> | [-> | [-> | []]]]]; simpl; tauto.
  - exists r, w1. repeat split; [exact Hdb |].
    rewrite !elem_of_cons.
    destruct (gate_response_status _ _ _ _ _ Hauth) as [-> | ->]; tauto.
  - now apply gate_never_throws in Hauth.
Qed.

(** X6: a booking request of an authenticated caller that lacks
    [doctor_id] or [reason] is answered 400 "Validation errors" with the
    missing field listed, before any doctor is looked up. *)
Theorem booking_without_required_field (env : Env) (req : Request)
    (w w1 : World) (user : Obj) :
  authenticateToken env req w = (Normal user, w1) ->
  get (body req) "doctor_id" = VUndefined \/ get (body req) "reason" = VUndefined ->
  exists errors,
    route_create env req w
    = (Return {| status := 400; success := false;
                 message := Some "Validation errors"; data := PErrors errors |},
       w1)
    /\ (get (body req) "doctor_id" = VUndefined -> "doctor_id" ∈ errors)
    /\ (get (body req) "reason" = VUndefined -> "reason" ∈ errors).
Proof.
  intros Hauth Hmiss. unfold route_create. unfold bind at 1. rewrite Hauth.
  unfold booking_validators.
  set (errors := ((if isInt (to_text (get (body req) "doctor_id")) then []
                   else ["doctor_id"]) ++ _)%list).
  assert ((get (body req) "doctor_id" = VUndefined -> "doctor_id" ∈ errors)
          /\ (get (body req) "reason" = VUndefined -> "reason" ∈ errors))
    as [Hd Hr].
  { subst errors. split; intros ->; simpl.
    - left.
    - rewrite !elem_of_app. right. right. left. }
  exists errors. split; [|split; assumption].
  destruct errors as [|e es] eqn:E.
  - exfalso. destruct Hmiss as [H | H]; [apply Hd in H | apply Hr in H];
      now apply elem_of_nil in H.
  - reflexivity.
Qed.

Lemma booking_without_required_field_witness :
  exists errors,
    route_create (Sample.env RejectUndefined)
      (Sample.request "alice.jwt" None {["doctor_id" := VNum 7]})
      (Sample.world [])
    = (Return {| status := 400; success := false;
                 message := Some "Validation errors"; data := PErrors errors |},
       logged (Sample.world []) [EvVerify "alice.jwt"; EvUserLookup (VNum 1)])
    /\ "reason" ∈ errors.
Proof.
  destruct (booking_without_required_field (Sample.env RejectUndefined)
              (Sample.request "alice.jwt" None {["doctor_id" := VNum 7]})
              (Sample.world [])
              (logged (Sample.world []) [EvVerify "alice.jwt"; EvUserLookup (VNum 1)])
              (identity_context Sample.alice) eq_refl ltac:(right; reflexivity))
    as (errors & Hrun & _ & Hreason).
  exists errors. split; [exact Hrun | exact (Hreason eq_refl)].
Defined.

Lemma after_gate {A} env req (k : Obj -> Js A) w user w1 :
  authenticateToken env req w = (Normal user, w1) ->
  bind (authenticateToken env req) k w = k user w1
  /\ db w1 = db w
  /\ exists row, user = identity_context row.
Proof.
  intros H. unfold bind. rewrite H. split; [reflexivity |].
  apply authenticateToken_normal in H as (row & _ & -> & Hdb). eauto.
Qed.

Lemma includes_update_statuses v :
  negb (truthy v) || negb (includes update_statuses v) = false ->
  exists st, v = VStr st /\ st ∈ update_statuses.
Proof.
  unfold includes, update_statuses. intros H.
  apply orb_false_iff in H as [_ H]. apply negb_false_iff in H.
  apply existsb_exists in H as (st & Hin & Heq).
  destruct v; simpl in Heq; try discriminate.
  apply String.eqb_eq in Heq. subst. exists s. split; [reflexivity |].
  now apply list_elem_of_In.
Qed.

(** [PUT /:id], case by case. *)
Lemma update_cases env req w :
  update_appointment env req w
  = let st := get (body req) "status" in
    if negb (truthy st) || negb (includes update_statuses st) then
      (Return (fail 400 "Invalid status provided."), w)
    else
      match bound env (get (params req) "id") with
      | None => (Return (fail 500 "Failed to update appointment"), w)
      | Some i =>
          (Return
             (if existsb (fun a => sql_eq (VNum (a_id a)) i) (Appointments (db w))
              then ok 200 (Some "Appointment status updated successfully") PNone
              else fail 404 "Appointment not found"),
           rewrite_rows i (set_status (js_to_string st)) w)
      end.
Proof.
  unfold update_appointment, update_where_id, bound, rewrite_rows,
    with_appointments. js_unfold. cbv zeta.
  destruct (negb (truthy (get (body req) "status"))
            || negb (includes update_statuses (get (body req) "status"))) eqn:E;
    [reflexivity |].
  apply includes_update_statuses in E as (st & -> & _).
  assert (forall (l : list AppointmentRow) (P : AppointmentRow -> bool),
             (Z.of_nat (length (filter (fun a => P a = true) l)) =? 0)
             = negb (existsb P l)) as Hcount.
  { intros l P. induction l as [|x l IH]; [reflexivity |].
    rewrite filter_cons. simpl. destruct (P x) eqn:Px.
    - rewrite decide_True by reflexivity. simpl. lia.
    - rewrite decide_False by discriminate. exact IH. }
  destruct (get (params req) "id"); try destruct (undefined_bind env); simpl;
    try reflexivity; rewrite Hcount;
    match goal with
    | |- context [existsb ?P ?l] => destruct (existsb P l)
    end; reflexivity.
Qed.

(** [DELETE /:id], case by case. *)
Lemma delete_cases env req w :
  delete_appointment env req w
  = match bound env (get (params req) "id") with
    | None => (Return (fail 500 "Server error"), w)
    | Some i =>
        (Return
           (if existsb (fun a => sql_eq (VNum (a_id a)) i) (Appointments (db w))
            then ok 200 (Some "Appointment deleted successfully") PNone
            else fail 404 "Appointment not found"),
         {| db := with_appointments (db w)
                    (filter (fun a => sql_eq (VNum (a_id a)) i = false)
                       (Appointments (db w)));
            trace := trace w |})
    end.
Proof.
  unfold delete_appointment, bound, with_appointments. js_unfold.
  destruct (get (params req) "id"); try destruct (undefined_bind env); simpl;
    try reflexivity;
    match goal with
    | |- context [existsb ?P ?l] => destruct (existsb P l)
    end; reflexivity.
Qed.

Lemma sql_eq_null_r v : sql_eq v VNull = false.
Proof. destruct v as [| | | | |[]]; reflexivity. Qed.

Lemma filter_nothing {A} (P : A -> Prop) `{forall x, Decision (P x)} (l : list A) :
  (forall x, ~ P x) -> filter P l = [].
Proof.
  intros HP. induction l as [|x l IH]; [reflexivity |].
  rewrite filter_cons. now rewrite decide_False by apply HP.
Qed.

(** [GET /] for a caller that came through the gate. *)
Lemma list_cases env row req w :
  list_appointments env (identity_context row) req w
  = match undefined_bind env with
    | RejectUndefined => (Return (fail 500 "Failed to get appointments"), w)
    | UndefinedAsNull => (Return (ok 200 None (PList [])), w)
    end.
Proof.
  unfold list_appointments, select_listing, listing_of.
  rewrite context_has_no_role, context_has_no_id.
  destruct (truthy (get (query req) "status")
            && includes list_statuses (get (query req) "status")) eqn:E.
  - assert (exists st, get (query req) "status" = VStr st) as [st ->].
    { apply andb_true_iff in E as [_ E]. unfold includes in E.
      apply existsb_exists in E as (st & _ & Heq).
      destruct (get (query req) "status"); simpl in Heq; try discriminate. eauto. }
    js_unfold. destruct (undefined_bind env); [reflexivity |]. cbn.
    rewrite filter_nothing; [reflexivity |].
    intros a. rewrite sql_eq_null_r. simpl. discriminate.
  - js_unfold. destruct (undefined_bind env); [reflexivity |]. cbn.
    rewrite filter_nothing; [reflexivity |].
    intros a. rewrite sql_eq_null_r. simpl. discriminate.
Qed.

(** [GET /:id] for a caller that came through the gate. *)
Lemma get_cases env row req w :
  get_appointment env (identity_context row) req w
  = match bound env (get (params req) "id") with
    | None => (Return (fail 500 "Failed to get appointment"), w)
    | Some i =>
        match a ← filter (fun a => sql_eq (VNum (a_id a)) i = true)
                    (Appointments (db w));
              d ← doctor_named (db w) (a_doctor_id a);
              p ← user_named (db w) (a_patient_id a);
              [(a, <["doctor_name" := VStr (d_name d)]>
                     (<["patient_name" := VStr (u_name p)]> (appointment_obj a)))]
        with
        | [] => (Return (fail 404 "Appointment not found"), w)
        | (_, shown) :: _ => (Return (ok 200 None (PObject (Some shown))), w)
        end
    end.
Proof.
  unfold get_appointment, select_detail, bound.
  rewrite context_has_no_role. js_unfold.
  destruct (get (params req) "id"); try destruct (undefined_bind env); simpl;
    try reflexivity;
    match goal with
    | |- context [mbind ?f ?l] => destruct (mbind f l) as [|[a shown] rest]
    end; reflexivity.
Qed.

Lemma existsb_by_id (s : string) (n : Z) (l : list AppointmentRow) :
  (forall x, sql_eq (VNum x) (VStr s) = (x =? n)) ->
  existsb (fun a => sql_eq (VNum (a_id a)) (VStr s)) l
  = existsb (fun a => a_id a =? n) l.
Proof.
  intros H. induction l as [|x l IH]; [reflexivity |].
  cbn [existsb]. now rewrite H, IH.
Qed.

Lemma cancel_row_status reason a : a_status (cancel_row reason a) = "cancelled".
Proof. unfold cancel_row. now destruct (truthy reason). Qed.

Lemma filter_map_by_id (n : Z) (f : AppointmentRow -> AppointmentRow)
    (l : list AppointmentRow) :
  (forall a, a_id (f a) = a_id a) ->
  filter (fun a => a_id a = n) (map (fun a => if a_id a =? n then f a else a) l)
  = map f (filter (fun a => a_id a = n) l).
Proof.
  intros Hf. induction l as [|x l IH]; [reflexivity |]. simpl.
  rewrite !filter_cons. destruct (Z.eqb_spec (a_id x) n) as [E|E].
  - rewrite Hf. rewrite !decide_True by exact E. simpl. now rewrite IH.
  - rewrite !decide_False by exact E. exact IH.
Qed.

(** The cancel handler on a store where the first row of the id is not yet
    cancelled or completed. *)
Lemma cancel_effect env row req w n a :
  path_id req = Some n ->
  a ∈ Appointments (db w) ->
  a_id a = n ->
  (forall x, x ∈ Appointments (db w) -> a_id x = n -> terminal (a_status x) = false) ->
  cancel_appointment env (identity_context row) req w
  = (Return (ok 200 (Some "Appointment cancelled successfully") PNone),
     {| db := with_appointments (db w)
                (map (fun x => if a_id x =? n
                               then cancel_row (get (body req) "reason") x
                               else x)
                   (Appointments (db w)));
        trace := trace w |}).
Proof.
  intros Hp Hin Hid Hlive. rewrite cancel_by_gate_context. unfold cancel_outcome.
  destruct (path_id_param env req n Hp) as (s & Hs & Hb & Heq).
  rewrite Hb, (filter_by_id s n _ Heq).
  destruct (filter_head n _ a Hin Hid) as (a0 & rest & -> & Hin0 & Hid0).
  pose proof (Hlive a0 Hin0 Hid0) as Ht. unfold terminal in Ht.
  apply orb_false_iff in Ht as [-> ->].
  unfold rewrite_rows. now rewrite (map_by_id s n _ _ Heq).
Qed.

Lemma cancel_missing env row req w n :
  path_id req = Some n ->
  (forall x, x ∈ Appointments (db w) -> a_id x <> n) ->
  cancel_appointment env (identity_context row) req w
  = (Return (fail 404 "Appointment not found"), w).
Proof.
  intros Hp Hnone. rewrite cancel_by_gate_context. unfold cancel_outcome.
  destruct (path_id_param env req n Hp) as (s & Hs & Hb & Heq).
  now rewrite Hb, (filter_by_id s n _ Heq), (filter_none n _ Hnone).
Qed.

(** X7: when an authenticated caller, whoever it is, cancels appointment
    [n] and no row of that id is cancelled or completed, the answer is 200
    and exactly the rows of id [n] change: their status becomes cancelled
    and, if the body carries a truthy [reason], their notes become that
    reason.  Users and doctors are untouched. *)
Theorem cancel_marks_rows (env : Env) (req : Request) (w w1 : World)
    (user : Obj) (n : Z) (a : AppointmentRow) :
  authenticateToken env req w = (Normal user, w1) ->
  path_id req = Some n ->
  a ∈ Appointments (db w) ->
  a_id a = n ->
  (forall x, x ∈ Appointments (db w) -> a_id x = n -> terminal (a_status x) = false) ->
  fst (route_cancel env req w)
  = Return (ok 200 (Some "Appointment cancelled successfully") PNone)
  /\ Appointments (db (snd (route_cancel env req w)))
     = map (fun x =>
              if a_id x =? n then
                if truthy (get (body req) "reason")
                then set_notes (get (body req) "reason") (set_status "cancelled" x)
                else set_status "cancelled" x
              else x)
         (Appointments (db w))
  /\ Users (db (snd (route_cancel env req w))) = Users (db w)
  /\ Doctors (db (snd (route_cancel env req w))) = Doctors (db w).
Proof.
  intros Hauth Hp Hin Hid Hlive. unfold route_cancel.
  destruct (after_gate env req (fun user => cancel_appointment env user req)
              w user w1 Hauth) as (-> & Hdb & row & ->).
  rewrite (cancel_effect env row req w1 n a Hp); rewrite ?Hdb; auto.
Qed.

Lemma cancel_marks_rows_witness :
  fst (route_cancel (Sample.env RejectUndefined)
         (Sample.request "bob.jwt" (Some "41") {["reason" := VStr "flu"]})
         (Sample.world [Sample.appointment41 "scheduled";
                        Sample.booked 42 2 "2026-11-10T11:00:00" "scheduled"]))
  = Return (ok 200 (Some "Appointment cancelled successfully") PNone)
  /\ Appointments (db (snd (route_cancel (Sample.env RejectUndefined)
         (Sample.request "bob.jwt" (Some "41") {["reason" := VStr "flu"]})
         (Sample.world [Sample.appointment41 "scheduled";
                        Sample.booked 42 2 "2026-11-10T11:00:00" "scheduled"]))))
     = [set_notes (VStr "flu") (Sample.appointment41 "cancelled");
        Sample.booked 42 2 "2026-11-10T11:00:00" "scheduled"].
Proof.
  destruct (cancel_marks_rows (Sample.env RejectUndefined)
              (Sample.request "bob.jwt" (Some "41") {["reason" := VStr "flu"]})
              (Sample.world [Sample.appointment41 "scheduled";
                             Sample.booked 42 2 "2026-11-10T11:00:00" "scheduled"])
              (logged (Sample.world [Sample.appointment41 "scheduled";
                                     Sample.booked 42 2 "2026-11-10T11:00:00" "scheduled"])
                 [EvVerify "bob.jwt"; EvUserLookup (VNum 2)])
              (identity_context Sample.bob) 41 (Sample.appointment41 "scheduled")
              eq_refl eq_refl)
    as (Hr & Ha & _).
  - apply list_elem_of_here.
  - reflexivity.
  - intros x Hx Hid. apply elem_of_cons in Hx as [-> | Hx]; [reflexivity |].
    apply list_elem_of_singleton in Hx. subst x. discriminate.
  - split; [exact Hr | exact Ha].
Defined.

(** X8: once that cancellation has gone through, a further cancellation
    of the same id by any authenticated caller is answered 400
    "Appointment is already cancelled" and changes nothing. *)
Theorem second_cancel_refused (env env2 : Env) (req req2 : Request)
    (w w1 w2 : World) (user user2 : Obj) (n : Z) (a : AppointmentRow) :
  authenticateToken env req w = (Normal user, w1) ->
  path_id req = Some n ->
  a ∈ Appointments (db w) ->
  a_id a = n ->
  (forall x, x ∈ Appointments (db w) -> a_id x = n -> terminal (a_status x) = false) ->
  authenticateToken env2 req2 (snd (route_cancel env req w)) = (Normal user2, w2) ->
  path_id req2 = Some n ->
  route_cancel env2 req2 (snd (route_cancel env req w))
  = (Return (fail 400 "Appointment is already cancelled"), w2).
Proof.
  intros Hauth Hp Hin Hid Hlive Hauth2 Hp2.
  unfold route_cancel at 1.
  destruct (after_gate env2 req2 (fun user => cancel_appointment env2 user req2)
              _ user2 w2 Hauth2) as (-> & Hdb2 & row2 & ->).
  rewrite cancel_by_gate_context. unfold cancel_outcome.
  destruct (path_id_param env2 req2 n Hp2) as (s & Hs & Hb & Heq).
  rewrite Hb, (filter_by_id s n _ Heq), Hdb2.
  unfold route_cancel.
  destruct (after_gate env req (fun user => cancel_appointment env user req)
              w user w1 Hauth) as (-> & Hdb & row & ->).
  rewrite (cancel_effect env row req w1 n a Hp); rewrite ?Hdb; auto.
  cbn [snd db with_appointments Appointments].
  rewrite filter_map_by_id by apply cancel_row_id.
  destruct (filter_head n _ a Hin Hid) as (a0 & rest & -> & _).
  simpl. now rewrite cancel_row_status.
Qed.

Lemma second_cancel_refused_witness :
  route_cancel (Sample.env UndefinedAsNull)
    (Sample.request "alice.jwt" (Some "41") ∅)
    (snd (route_cancel (Sample.env RejectUndefined)
            (Sample.request "bob.jwt" (Some "41") ∅)
            (Sample.world [Sample.appointment41 "scheduled"])))
  = (Return (fail 400 "Appointment is already cancelled"),
     {| db := Sample.store [Sample.appointment41 "cancelled"];
        trace := [EvVerify "bob.jwt"; EvUserLookup (VNum 2);
                  EvVerify "alice.jwt"; EvUserLookup (VNum 1)] |}).
Proof.
  apply (second_cancel_refused (Sample.env RejectUndefined)
           (Sample.env UndefinedAsNull)
           (Sample.request "bob.jwt" (Some "41") ∅)
           (Sample.request "alice.jwt" (Some "41") ∅)
           (Sample.world [Sample.appointment41 "scheduled"])
           (logged (Sample.world [Sample.appointment41 "scheduled"])
              [EvVerify "bob.jwt"; EvUserLookup (VNum 2)])
           _ (identity_context Sample.bob) (identity_context Sample.alice) 41
           (Sample.appointment41 "scheduled")).
  - reflexivity.
  - reflexivity.
  - apply list_elem_of_here.
  - reflexivity.
  - intros x Hx _. apply list_elem_of_singleton in Hx. now subst x.
  - reflexivity.
  - reflexivity.
Defined.

(** X9: cancelling an id that no stored appointment has is answered 404
    "Appointment not found" and changes nothing. *)
Theorem cancel_unknown_id (env : Env) (req : Request) (w w1 : World)
    (user : Obj) (n : Z) :
  authenticateToken env req w = (Normal user, w1) ->
  path_id req = Some n ->
  (forall x, x ∈ Appointments (db w) -> a_id x <> n) ->
  route_cancel env req w = (Return (fail 404 "Appointment not found"), w1).
Proof.
  intros Hauth Hp Hnone. unfold route_cancel.
  destruct (after_gate env req (fun user => cancel_appointment env user req)
              w user w1 Hauth) as (-> & Hdb & row & ->).
  apply cancel_missing with (n := n); [exact Hp |]. now rewrite Hdb.
Qed.

Lemma cancel_unknown_id_witness :
  route_cancel (Sample.env RejectUndefined)
    (Sample.request "alice.jwt" (Some "7") ∅)
    (Sample.world [Sample.appointment41 "scheduled"])
  = (Return (fail 404 "Appointment not found"),
     logged (Sample.world [Sample.appointment41 "scheduled"])
       [EvVerify "alice.jwt"; EvUserLookup (VNum 1)]).
Proof.
  apply (cancel_unknown_id (Sample.env RejectUndefined)
           (Sample.request "alice.jwt" (Some "7") ∅)
           (Sample.world [Sample.appointment41 "scheduled"]) _
           (identity_context Sample.alice) 7).
  - reflexivity.
  - reflexivity.
  - intros x Hx. apply list_elem_of_singleton in Hx. now subst x.
Defined.

(** X10: whatever the request, [PUT /:id] leaves every row as it was or
    rewrites only its status, and then to scheduled, completed or
    canceled: it never writes the spelling cancelled that the cancel
    handler writes and tests for, and never adds or removes a row. *)
Theorem update_writes_only_admissible (env : Env) (req : Request) (w : World) :
  Forall2 (fun before after =>
             after = before
             \/ exists st, st ∈ update_statuses /\ st <> "cancelled"
                           /\ after = set_status st before)
    (Appointments (db w))
    (Appointments (db (snd (route_update env req w)))).
Proof.
  assert (forall l : list AppointmentRow,
             Forall2 (fun before after =>
               after = before
               \/ exists st, st ∈ update_statuses /\ st <> "cancelled"
                             /\ after = set_status st before) l l) as Hsame.
  { intros l. induction l; constructor; auto. }
  unfold route_update, bind.
  pose proof (authenticateToken_db env req w) as Hdb.
  destruct (authenticateToken env req w) as [[user | r | e] w1]; simpl in Hdb;
    simpl; rewrite <- ?Hdb; try apply Hsame.
  rewrite update_cases. cbv zeta.
  destruct (negb (truthy (get (body req) "status"))
            || negb (includes update_statuses (get (body req) "status"))) eqn:E;
    [apply Hsame |].
  apply includes_update_statuses in E as (st & -> & Hst).
  destruct (bound env (get (params req) "id")) as [i|]; [|apply Hsame].
  cbn [snd db rewrite_rows with_appointments Appointments js_to_string].
  induction (Appointments (db w1)) as [|x l IH]; constructor; [|exact IH].
  destruct (sql_eq (VNum (a_id x)) i); [right | now left].
  exists st. repeat split; [exact Hst |].
  unfold update_statuses in Hst. rewrite !elem_of_cons, elem_of_nil in Hst.
  destruct Hst as [-> | [-> | [-> | []]]]; discriminate.
Qed.

(** X11: for an authenticated caller, an admissible status [st] and an
    integer id [n], [PUT /:id] sets the status of exactly the rows of id
    [n] to [st], whoever owns them and whatever their status was; the
    answer is 200 if there is such a row and 404 "Appointment not found"
    otherwise. *)
Theorem update_effect (env : Env) (req : Request) (w w1 : World) (user : Obj)
    (st : string) (n : Z) :
  authenticateToken env req w = (Normal user, w1) ->
  get (body req) "status" = VStr st ->
  st ∈ update_statuses ->
  path_id req = Some n ->
  fst (route_update env req w)
  = Return (if existsb (fun a => a_id a =? n) (Appointments (db w))
            then ok 200 (Some "Appointment status updated successfully") PNone
            else fail 404 "Appointment not found")
  /\ Appointments (db (snd (route_update env req w)))
     = map (fun a => if a_id a =? n then set_status st a else a)
         (Appointments (db w)).
Proof.
  intros Hauth Hst Hin Hp. unfold route_update.
  destruct (after_gate env req (fun _ => update_appointment env req)
              w user w1 Hauth) as (-> & Hdb & _).
  rewrite update_cases. cbv zeta. rewrite Hst.
  assert (negb (truthy (VStr st)) || negb (includes update_statuses (VStr st))
          = false) as ->.
  { unfold update_statuses in *. rewrite !elem_of_cons, elem_of_nil in Hin.
    destruct Hin as [-> | [-> | [-> | []]]]; reflexivity. }
  destruct (path_id_param env req n Hp) as (s & Hs & Hb & Heq).
  rewrite Hb. cbn [fst snd js_to_string rewrite_rows db with_appointments
                     Appointments].
  rewrite Hdb, (map_by_id s n _ _ Heq). split; [|reflexivity].
  now rewrite (existsb_by_id s n _ Heq).
Qed.

Lemma update_effect_witness :
  fst (route_update (Sample.env RejectUndefined) (Sample.status_request "canceled")
         (Sample.world [Sample.appointment41 "completed"]))
  = Return (ok 200 (Some "Appointment status updated successfully") PNone)
  /\ Appointments (db (snd (route_update (Sample.env RejectUndefined)
                             (Sample.status_request "canceled")
                             (Sample.world [Sample.appointment41 "completed"]))))
     = [Sample.appointment41 "canceled"].
Proof.
  exact (update_effect (Sample.env RejectUndefined)
           (Sample.status_request "canceled")
           (Sample.world [Sample.appointment41 "completed"])
           (logged (Sample.world [Sample.appointment41 "completed"])
              [EvVerify "alice.jwt"; EvUserLookup (VNum 1)])
           (identity_context Sample.alice) "canceled" 41
           eq_refl eq_refl ltac:(do 2 right; left) eq_refl).
Defined.

Lemma delete_effect_handler env req w n :
  path_id req = Some n ->
  delete_appointment env req w
  = (Return (if existsb (fun a => a_id a =? n) (Appointments (db w))
             then ok 200 (Some "Appointment deleted successfully") PNone
             else fail 404 "Appointment not found"),
     {| db := with_appointments (db w)
                (filter (fun a => a_id a <> n) (Appointments (db w)));
        trace := trace w |}).
Proof.
  intros Hp. rewrite delete_cases.
  destruct (path_id_param env req n Hp) as (s & Hs & Hb & Heq).
  rewrite Hb. f_equal.
  - now rewrite (existsb_by_id s n _ Heq).
  - do 2 f_equal. apply list_filter_iff. intros a. rewrite Heq.
    rewrite Z.eqb_neq. reflexivity.
Qed.

(** X12: for an authenticated caller and an integer id [n], [DELETE /:id]
    removes exactly the rows of id [n], whoever owns them and whatever
    their status; the answer is 200 if there was such a row and 404
    "Appointment not found" otherwise. *)
Theorem delete_effect (env : Env) (req : Request) (w w1 : World) (user : Obj)
    (n : Z) :
  authenticateToken env req w = (Normal user, w1) ->
  path_id req = Some n ->
  fst (route_delete env req w)
  = Return (if existsb (fun a => a_id a =? n) (Appointments (db w))
            then ok 200 (Some "Appointment deleted successfully") PNone
            else fail 404 "Appointment not found")
  /\ Appointments (db (snd (route_delete env req w)))
     = filter (fun a => a_id a <> n) (Appointments (db w)).
Proof.
  intros Hauth Hp. unfold route_delete.
  destruct (after_gate env req (fun _ => delete_appointment env req)
              w user w1 Hauth) as (-> & Hdb & _).
  rewrite (delete_effect_handler env req w1 n Hp). simpl. now rewrite Hdb.
Qed.

Lemma delete_effect_witness :
  fst (route_delete (Sample.env RejectUndefined)
         (Sample.request "bob.jwt" (Some "41") ∅)
         (Sample.world [Sample.appointment41 "completed";
                        Sample.booked 42 2 "2026-11-10T11:00:00" "scheduled"]))
  = Return (ok 200 (Some "Appointment deleted successfully") PNone)
  /\ Appointments (db (snd (route_delete (Sample.env RejectUndefined)
         (Sample.request "bob.jwt" (Some "41") ∅)
         (Sample.world [Sample.appointment41 "completed";
                        Sample.booked 42 2 "2026-11-10T11:00:00" "scheduled"]))))
     = [Sample.booked 42 2 "2026-11-10T11:00:00" "scheduled"].
Proof.
  exact (delete_effect (Sample.env RejectUndefined)
           (Sample.request "bob.jwt" (Some "41") ∅)
           (Sample.world [Sample.appointment41 "completed";
                          Sample.booked 42 2 "2026-11-10T11:00:00" "scheduled"])
           (logged (Sample.world [Sample.appointment41 "completed";
                                  Sample.booked 42 2 "2026-11-10T11:00:00" "scheduled"])
              [EvVerify "bob.jwt"; EvUserLookup (VNum 2)])
           (identity_context Sample.bob) 41 eq_refl eq_refl).
Defined.

Lemma filter_out_no_id (n : Z) (l : list AppointmentRow) x :
  x ∈ filter (fun a => a_id a <> n) l -> a_id x <> n.
Proof. intros H. apply list_elem_of_filter in H. tauto. Qed.

(** X13: after [DELETE /:id] for id [n], a later cancellation, deletion or
    lookup of [n] by any authenticated caller is answered 404
    "Appointment not found". *)
Theorem deleted_appointment_is_gone (env env2 : Env) (req req2 : Request)
    (w w1 w2 : World) (user user2 : Obj) (n : Z) :
  authenticateToken env req w = (Normal user, w1) ->
  path_id req = Some n ->
  authenticateToken env2 req2 (snd (route_delete env req w)) = (Normal user2, w2) ->
  path_id req2 = Some n ->
  route_cancel env2 req2 (snd (route_delete env req w))
  = (Return (fail 404 "Appointment not found"), w2)
  /\ fst (route_delete env2 req2 (snd (route_delete env req w)))
     = Return (fail 404 "Appointment not found")
  /\ route_get env2 req2 (snd (route_delete env req w))
     = (Return (fail 404 "Appointment not found"), w2).
Proof.
  intros Hauth Hp Hauth2 Hp2.
  assert (forall x, x ∈ Appointments (db w2) -> a_id x <> n) as Hgone.
  { destruct (after_gate env2 req2 (fun _ => ret tt) _ user2 w2 Hauth2)
      as (_ & -> & _).
    unfold route_delete.
    destruct (after_gate env req (fun _ => delete_appointment env req)
                w user w1 Hauth) as (-> & _ & _).
    rewrite (delete_effect_handler env req w1 n Hp). simpl.
    intros x. apply filter_out_no_id. }
  destruct (path_id_param env2 req2 n Hp2) as (s & Hs & Hb & Heq).
  repeat split.
  - unfold route_cancel at 1.
    destruct (after_gate env2 req2 (fun user => cancel_appointment env2 user req2)
                _ user2 w2 Hauth2) as (-> & _ & row2 & ->).
    now apply cancel_missing with (n := n).
  - unfold route_delete at 1.
    destruct (after_gate env2 req2 (fun _ => delete_appointment env2 req2)
                _ user2 w2 Hauth2) as (-> & _ & _).
    rewrite (delete_effect_handler env2 req2 w2 n Hp2). simpl.
    assert (existsb (fun a => a_id a =? n) (Appointments (db w2)) = false) as ->;
      [|reflexivity].
    apply not_true_is_false. intros H. apply existsb_exists in H as (x & Hx & E).
    apply Z.eqb_eq in E. apply (Hgone x); [now apply list_elem_of_In | exact E].
  - unfold route_get at 1.
    destruct (after_gate env2 req2 (fun user => get_appointment env2 user req2)
                _ user2 w2 Hauth2) as (-> & _ & row2 & ->).
    rewrite get_cases, Hb, (filter_by_id s n _ Heq), (filter_none n _ Hgone).
    reflexivity.
Qed.

Lemma deleted_appointment_is_gone_witness :
  route_cancel (Sample.env RejectUndefined)
    (Sample.request "alice.jwt" (Some "41") ∅)
    (snd (route_delete (Sample.env RejectUndefined)
            (Sample.request "bob.jwt" (Some "41") ∅)
            (Sample.world [Sample.appointment41 "scheduled"])))
  = (Return (fail 404 "Appointment not found"),
     {| db := Sample.store [];
        trace := [EvVerify "bob.jwt"; EvUserLookup (VNum 2);
                  EvVerify "alice.jwt"; EvUserLookup (VNum 1)] |}).
Proof.
  exact (proj1 (deleted_appointment_is_gone (Sample.env RejectUndefined)
           (Sample.env RejectUndefined)
           (Sample.request "bob.jwt" (Some "41") ∅)
           (Sample.request "alice.jwt" (Some "41") ∅)
           (Sample.world [Sample.appointment41 "scheduled"])
           (logged (Sample.world [Sample.appointment41 "scheduled"])
              [EvVerify "bob.jwt"; EvUserLookup (VNum 2)])
           {| db := Sample.store [];
              trace := [EvVerify "bob.jwt"; EvUserLookup (VNum 2);
                        EvVerify "alice.jwt"; EvUserLookup (VNum 1)] |}
           (identity_context Sample.bob) (identity_context Sample.alice) 41
           eq_refl eq_refl eq_refl eq_refl)).
Defined.

(** X14: [GET /] never lists an appointment to an authenticated caller:
    the query is bound to the absent [req.user.id], so a client that
    rejects [undefined] makes the answer 500 "Failed to get appointments"
    and one that sends NULL makes it 200 with an empty list; the store is
    not changed. *)
Theorem listing_returns_nothing (env : Env) (req : Request) (w w1 : World)
    (user : Obj) :
  authenticateToken env req w = (Normal user, w1) ->
  route_list env req w
  = (Return match undefined_bind env with
            | RejectUndefined => fail 500 "Failed to get appointments"
            | UndefinedAsNull => ok 200 None (PList [])
            end, w1).
Proof.
  intros Hauth. unfold route_list.
  destruct (after_gate env req (fun user => list_appointments env user req)
              w user w1 Hauth) as (-> & _ & row & ->).
  rewrite list_cases. now destruct (undefined_bind env).
Qed.

Lemma listing_returns_nothing_witness :
  route_list (Sample.env UndefinedAsNull) (Sample.request "alice.jwt" None ∅)
    (Sample.world [Sample.appointment41 "scheduled"])
  = (Return (ok 200 None (PList [])),
     logged (Sample.world [Sample.appointment41 "scheduled"])
       [EvVerify "alice.jwt"; EvUserLookup (VNum 1)]).
Proof.
  exact (listing_returns_nothing (Sample.env UndefinedAsNull)
           (Sample.request "alice.jwt" None ∅)
           (Sample.world [Sample.appointment41 "scheduled"])
           (logged (Sample.world [Sample.appointment41 "scheduled"])
              [EvVerify "alice.jwt"; EvUserLookup (VNum 1)])
           (identity_context Sample.alice) eq_refl).
Defined.

Lemma bind_nothing {A B} (f : A -> list B) (l : list A) :
  (forall x, x ∈ l -> f x = []) -> l ≫= f = [].
Proof.
  intros H. induction l as [|x l IH]; [reflexivity |]. simpl.
  rewrite (H x) by left. simpl. apply IH. intros y Hy. apply H. now right.
Qed.

(** X15: [GET /:id] shows an appointment to any authenticated caller,
    owner or not: when [a] is the first row of id [n] and its doctor and
    patient rows exist, the answer is 200 with [a] and the two names. *)
Theorem any_caller_reads_appointment (env : Env) (req : Request) (w w1 : World)
    (user : Obj) (n : Z) (a : AppointmentRow) (rest : list AppointmentRow)
    (dr : DoctorRow) (drs : list DoctorRow) (u : UserRow) (us : list UserRow) :
  authenticateToken env req w = (Normal user, w1) ->
  path_id req = Some n ->
  filter (fun x => a_id x = n) (Appointments (db w)) = a :: rest ->
  doctor_named (db w) (a_doctor_id a) = dr :: drs ->
  user_named (db w) (a_patient_id a) = u :: us ->
  route_get env req w
  = (Return (ok 200 None
               (PObject (Some (<["doctor_name" := VStr (d_name dr)]>
                                 (<["patient_name" := VStr (u_name u)]>
                                    (appointment_obj a)))))),
     w1).
Proof.
  intros Hauth Hp Hrows Hdoc Hpat. unfold route_get.
  destruct (after_gate env req (fun user => get_appointment env user req)
              w user w1 Hauth) as (-> & Hdb & row & ->).
  rewrite get_cases.
  destruct (path_id_param env req n Hp) as (s & Hs & Hb & Heq).
  rewrite Hb, (filter_by_id s n _ Heq), Hdb, Hrows. simpl.
  rewrite Hdoc. simpl. rewrite Hpat. reflexivity.
Qed.

Lemma any_caller_reads_appointment_witness :
  route_get (Sample.env RejectUndefined) (Sample.request "bob.jwt" (Some "41") ∅)
    (Sample.world [Sample.appointment41 "scheduled"])
  = (Return (ok 200 None
               (PObject (Some (<["doctor_name" := VStr "Dr. Grey"]>
                                 (<["patient_name" := VStr "Alice"]>
                                    (appointment_obj (Sample.appointment41 "scheduled"))))))),
     logged (Sample.world [Sample.appointment41 "scheduled"])
       [EvVerify "bob.jwt"; EvUserLookup (VNum 2)]).
Proof.
  exact (any_caller_reads_appointment (Sample.env RejectUndefined)
           (Sample.request "bob.jwt" (Some "41") ∅)
           (Sample.world [Sample.appointment41 "scheduled"])
           (logged (Sample.world [Sample.appointment41 "scheduled"])
              [EvVerify "bob.jwt"; EvUserLookup (VNum 2)])
           (identity_context Sample.bob) 41 (Sample.appointment41 "scheduled") []
           Sample.doctor7 [] Sample.alice []
           eq_refl eq_refl eq_refl eq_refl eq_refl).
Defined.

(** X16: [GET /:id] joins the appointment with its doctor and its patient:
    an appointment whose doctor row or patient row is missing is answered
    404 "Appointment not found" although it is stored. *)
Theorem orphan_appointment_not_found (env : Env) (req : Request) (w w1 : World)
    (user : Obj) (n : Z) :
  authenticateToken env req w = (Normal user, w1) ->
  path_id req = Some n ->
  (forall x, x ∈ Appointments (db w) -> a_id x = n ->
             doctor_named (db w) (a_doctor_id x) = []
             \/ user_named (db w) (a_patient_id x) = []) ->
  route_get env req w = (Return (fail 404 "Appointment not found"), w1).
Proof.
  intros Hauth Hp Horphan. unfold route_get.
  destruct (after_gate env req (fun user => get_appointment env user req)
              w user w1 Hauth) as (-> & Hdb & row & ->).
  rewrite get_cases.
  destruct (path_id_param env req n Hp) as (s & Hs & Hb & Heq).
  rewrite Hb, (filter_by_id s n _ Heq), Hdb.
  rewrite bind_nothing; [reflexivity |].
  intros x Hx. apply list_elem_of_filter in Hx as [Hid Hx].
  destruct (Horphan x Hx Hid) as [-> | Hu]; [reflexivity |].
  apply bind_nothing. intros d _. now rewrite Hu.
Qed.

Lemma orphan_appointment_not_found_witness :
  route_get (Sample.env RejectUndefined) (Sample.request "alice.jwt" (Some "43") ∅)
    (Sample.world [Sample.booked 43 9 "2026-11-10T11:00:00" "scheduled"])
  = (Return (fail 404 "Appointment not found"),
     logged (Sample.world [Sample.booked 43 9 "2026-11-10T11:00:00" "scheduled"])
       [EvVerify "alice.jwt"; EvUserLookup (VNum 1)]).
Proof.
  apply (orphan_appointment_not_found (Sample.env RejectUndefined)
           (Sample.request "alice.jwt" (Some "43") ∅)
           (Sample.world [Sample.booked 43 9 "2026-11-10T11:00:00" "scheduled"]) _
           (identity_context Sample.alice) 43).
  - reflexivity.
  - reflexivity.
  - intros x Hx _. apply list_elem_of_singleton in Hx. subst x. right. reflexivity.
Defined.

Ltac status_in_list :=
  unfold route_statuses; rewrite !elem_of_cons; simpl; tauto.

Lemma handler_answers env op row req w1 :
  exists r w',
    match op with
    | OpList => list_appointments env (identity_context row) req w1
    | OpGet => get_appointment env (identity_context row) req w1
    | OpCreate =>
        let '(b, errors) := booking_validators env (body req) in
        create_appointment env (identity_context row) b errors w1
    | OpUpdate => update_appointment env req w1
    | OpCancel => cancel_appointment env (identity_context row) req w1
    | OpDelete => delete_appointment env req w1
    end = (Return r, w')
    /\ status r ∈ route_statuses
    /\ success r = bool_decide (status r = 200).
Proof.
  destruct op.
  - rewrite list_cases. destruct (undefined_bind env); do 2 eexists;
      (split; [reflexivity | split; [status_in_list | reflexivity]]).
  - rewrite get_cases.
    destruct (bound env (get (params req) "id")) as [i|];
      [destruct (_ ≫= _) as [|[a shown] rest] |]; do 2 eexists;
      (split; [reflexivity | split; [status_in_list | reflexivity]]).
  - destruct (booking_validators env (body req)) as [b errors] eqn:Hval.
    destruct (create_without_text_date env (identity_context row) b errors w1)
      as (r & Hr & Hin).
    { pose proof (validated_date env (body req)) as Hv. rewrite Hval in Hv.
      simpl in Hv. rewrite Hv.
      destruct (toDate_cases env (get (body req) "appointment_date")); auto. }
    exists r, w1. split; [exact Hr |].
    unfold create_refusals in Hin. rewrite !elem_of_cons, elem_of_nil in Hin.
    destruct Hin as [-> | [-> | [-> | [-> | []]]]];
      (split; [status_in_list | reflexivity]).
  - rewrite update_cases. cbv zeta.
    destruct (negb _ || negb _);
      [| destruct (bound env (get (params req) "id")) as [i|];
         [destruct (existsb _ _) |]];
      do 2 eexists; (split; [reflexivity | split; [status_in_list | reflexivity]]).
  - rewrite cancel_by_gate_context. unfold cancel_outcome.
    destruct (bound env (get (params req) "id")) as [i|];
      [destruct (filter _ _) as [|a rest];
       [| destruct (String.eqb (a_status a) "cancelled");
          [| destruct (String.eqb (a_status a) "completed")]] |];
      do 2 eexists; (split; [reflexivity | split; [status_in_list | reflexivity]]).
  - rewrite delete_cases.
    destruct (bound env (get (params req) "id")) as [i|];
      [destruct (existsb _ _) |];
      do 2 eexists; (split; [reflexivity | split; [status_in_list | reflexivity]]).
Qed.

(** X17: every appointment route answers every request: no exception
    leaves a handler, the status is one of 200, 400, 401, 404 and 500
    (never 201 or 403), and the [success] flag is set exactly on a 200. *)
Theorem appointment_routes_always_answer (op : Operation) (env : Env)
    (req : Request) (w : World) :
  exists r w',
    route op env req w = (Return r, w')
    /\ status r ∈ route_statuses
    /\ success r = bool_decide (status r = 200).
Proof.
  assert (route op env req w
          = bind (authenticateToken env req)
              (fun user =>
                 match op with
                 | OpList => list_appointments env user req
                 | OpGet => get_appointment env user req
                 | OpCreate =>
                     let '(b, errors) := booking_validators env (body req) in
                     create_appointment env user b errors
                 | OpUpdate => update_appointment env req
                 | OpCancel => cancel_appointment env user req
                 | OpDelete => delete_appointment env req
                 end) w) as ->.
  { destruct op; reflexivity. }
  unfold bind.
  destruct (authenticateToken env req w) as [[user | r | e] w1] eqn:Hauth.
  - apply authenticateToken_normal in Hauth as (row & _ & -> & _).
    destruct (handler_answers env op row req w1) as (r & w' & Hr & Hst).
    exists r, w'. split; [|exact Hst]. destruct op; exact Hr.
  - exists r, w1. split; [reflexivity |].
    pose proof (gate_response_status _ _ _ _ _ Hauth) as Hs.
    rewrite authenticateToken_cases in Hauth. unfold auth_outcome in Hauth.
    assert (success r = false) as Hfalse.
    { repeat match type of Hauth with
             | context [match ?x with _ => _ end] => destruct x
             end; inversion Hauth; subst; try reflexivity.
      unfold auth_failure.
      repeat match goal with
             | |- context [if ?x then _ else _] => destruct x
             end; reflexivity. }
    rewrite Hfalse. destruct Hs as [Hs | Hs]; rewrite Hs;
      (split; [status_in_list | reflexivity]).
  - now apply gate_never_throws in Hauth.
Qed.

(** ** The auth router *)

Section AuthRouterFacts.
Import AuthRouter.

Ltac step_unfold :=
  unfold catching, and_then, read, write, hashed_with, compared_with, sign,
    with_replacements in *;
  unfold pass, send, raise in *.

Lemma filter_nothing_in {A} (P : A -> Prop) `{forall x, Decision (P x)}
    (l : list A) :
  (forall x, x ∈ l -> ~ P x) -> filter P l = [].
Proof.
  intros HP. induction l as [|x l IH]; [reflexivity |].
  rewrite filter_cons. rewrite decide_False by (apply HP; left).
  apply IH. intros y Hy. apply HP. now right.
Qed.

Lemma or_patient_defined (type : JSVal) : or_patient type <> VUndefined.
Proof. unfold or_patient. destruct type; simpl; try discriminate.
  - destruct b; discriminate.
  - destruct (negb (n =? 0)); discriminate.
  - destruct (negb (s =? "")%string); discriminate.
Qed.

Ltac all_defined :=
  repeat first
    [ apply Forall_nil_2
    | apply Forall_cons_2;
      [first [discriminate | assumption | apply or_patient_defined] |] ].

Ltac replaced :=
  repeat (rewrite replacements_defined by all_defined; cbv beta iota).

Lemma by_email_none (l : list Account) (n : Z) (s : string) :
  (forall a, a ∈ l -> u_email (acc_user a) <> s) ->
  by_email {| accounts := l; next_account := n |} (VStr s) = [].
Proof.
  intros H. unfold by_email. apply filter_nothing_in. intros a Ha.
  simpl. intros E. apply String.eqb_eq in E. now apply (H a).
Qed.

Lemma by_email_appended (l : list Account) (n : Z) (s : string) (a : Account) :
  (forall x, x ∈ l -> u_email (acc_user x) <> s) ->
  u_email (acc_user a) = s ->
  by_email {| accounts := (l ++ [a])%list; next_account := n |} (VStr s) = [a].
Proof.
  intros Hfresh Ha. unfold by_email. cbn [accounts]. rewrite filter_app.
  pose proof (by_email_none l n s Hfresh) as Hnone.
  unfold by_email in Hnone. cbn [accounts] in Hnone. rewrite Hnone.
  rewrite filter_cons, filter_nil.
  rewrite decide_True by (simpl; rewrite Ha; apply String.eqb_refl).
  reflexivity.
Qed.

Lemma by_email_some (d : Directory) (s : string) a :
  a ∈ accounts d -> u_email (acc_user a) = s ->
  exists a0 rest, by_email d (VStr s) = a0 :: rest.
Proof.
  intros Hin He. destruct (by_email d (VStr s)) as [|a0 rest] eqn:E; [|eauto].
  assert (a ∈ by_email d (VStr s)) as H.
  { unfold by_email. apply list_elem_of_filter. split; [|exact Hin].
    simpl. rewrite He. apply String.eqb_refl. }
  rewrite E in H. now apply elem_of_nil in H.
Qed.

Lemma by_email_empty (d : Directory) (s : string) :
  by_email d (VStr s) = [] ->
  forall a, a ∈ accounts d -> u_email (acc_user a) <> s.
Proof.
  intros E a Ha Hs. destruct (by_email_some d s a Ha Hs) as (a0 & rest & H).
  congruence.
Qed.

Lemma register_email_is_text env b :
  register_validators env b = [] -> exists s, get b "email" = VStr s.
Proof.
  unfold register_validators, check. intros H.
  apply app_eq_nil in H as [_ H]. apply app_eq_nil in H as [H _].
  destruct (get b "email"); simpl in H; try discriminate. eauto.
Qed.

(** A body that passes the chain of [POST /register] has a name and a
    phone. *)
Lemma register_fields_defined env b :
  register_validators env b = [] ->
  get b "name" <> VUndefined /\ get b "phone" <> VUndefined.
Proof.
  unfold register_validators, check, notEmpty. intros H.
  apply app_eq_nil in H as [Hname H]. apply app_eq_nil in H as [_ H].
  apply app_eq_nil in H as [_ H]. apply app_eq_nil in H as [Hphone _].
  split; intros E; rewrite E in *; discriminate.
Qed.

(** X18: a registration whose address is already that of an account is
    answered 400 "User with this email already exists"; the password is
    not hashed and nothing is stored. *)
Theorem register_duplicate_email (env : Services) (b : Obj) (d : Directory)
    (s : string) (a : Account) :
  register_validators env b = [] ->
  get b "email" = VStr s ->
  a ∈ accounts d ->
  u_email (acc_user a) = s ->
  register env b d = (Sent (refuse 400 "User with this email already exists"), d).
Proof.
  intros Hval He Hin Hs. unfold register. rewrite Hval, He. step_unfold.
  replaced.
  destruct (by_email_some d s a Hin Hs) as (a0 & rest & ->). reflexivity.
Qed.

(** [POST /register], once the chain has passed. *)
Lemma register_cases (env : Services) (b : Obj) (d : Directory) (s : string) :
  register_validators env b = [] ->
  get b "email" = VStr s ->
  register env b d
  = match by_email d (VStr s) with
    | _ :: _ => (Sent (refuse 400 "User with this email already exists"), d)
    | [] =>
        match get b "password" with
        | VStr p =>
            (Sent (if secret_set env then
                     granted 201 "User registered successfully"
                       (Some (public_fields (VNum (next_account d)) (get b "name")
                                (VStr s) (get b "phone")
                                (or_patient (get b "type"))))
                       (jwt_sign (register_payload (next_account d) s (get b "type"))
                          RegisterSite (clock env))
                   else crashed "Registration failed" no_secret),
             {| accounts :=
                  (accounts d
                   ++ [{| acc_user :=
                            {| u_id := next_account d;
                               u_name := sql_text (get b "name");
                               u_email := s;
                               u_type := sql_text (or_patient (get b "type")) |};
                          acc_password := bcrypt_hash env p;
                          acc_phone := VStr (sql_text (get b "phone"));
                          acc_created_at := VDate (Some (sql_now env)) |}])%list;
                next_account := next_account d + 1 |})
        | v => (Sent (crashed "Registration failed" (illegal_arguments v "number")),
                d)
        end
    end.
Proof.
  intros Hval He.
  destruct (register_fields_defined env b Hval) as [Hname Hphone].
  unfold register. rewrite Hval, He. step_unfold. replaced.
  destruct (by_email d (VStr s)) as [|a0 rest] eqn:Hnone; [|reflexivity].
  pose proof (by_email_empty d s Hnone) as Hfresh.
  destruct (get b "password") as [| | | |p|]; try reflexivity.
  replaced.
  destruct d as [l n]. cbn [accounts next_account sql_text to_text js_to_string].
  rewrite (by_email_appended l (n + 1) s _ Hfresh) by reflexivity.
  cbn [acc_user u_id].
  unfold register_payload, or_patient. rewrite !jwt_sign_claims.
  destruct (secret_set env); reflexivity.
Qed.

Lemma register_fresh (env : Services) (b : Obj) (d : Directory)
    (s p : string) :
  register_validators env b = [] ->
  get b "email" = VStr s ->
  get b "password" = VStr p ->
  by_email d (VStr s) = [] ->
  register env b d
  = (Sent (if secret_set env then
             granted 201 "User registered successfully"
               (Some (public_fields (VNum (next_account d)) (get b "name") (VStr s)
                        (get b "phone") (or_patient (get b "type"))))
               (jwt_sign (register_payload (next_account d) s (get b "type"))
                  RegisterSite (clock env))
           else crashed "Registration failed" no_secret),
     {| accounts :=
          (accounts d
           ++ [{| acc_user := {| u_id := next_account d;
                                 u_name := sql_text (get b "name");
                                 u_email := s;
                                 u_type := sql_text (or_patient (get b "type")) |};
                  acc_password := bcrypt_hash env p;
                  acc_phone := VStr (sql_text (get b "phone"));
                  acc_created_at := VDate (Some (sql_now env)) |}])%list;
        next_account := next_account d + 1 |}).
Proof.
  intros Hval He Hp Hnone.
  now rewrite (register_cases env b d s Hval He), Hnone, Hp.
Qed.


Lemma register_duplicate_email_witness :
  register SampleAccounts.services
    (SampleAccounts.form "alice@example.org" "s3cret!") SampleAccounts.directory
  = (Sent (refuse 400 "User with this email already exists"),
     SampleAccounts.directory).
Proof.
  apply (register_duplicate_email SampleAccounts.services _ _
           "alice@example.org" SampleAccounts.alice_account).
  - reflexivity.
  - reflexivity.
  - apply list_elem_of_here.
  - reflexivity.
Defined.


(** Without [JWT_SECRET] the registration is answered 500, the account is
    stored, and the same request sent again is answered 400. *)
Example register_without_secret :
  let form := SampleAccounts.form "carol@example.org" "s3cret!" in
  let first := register SampleAccounts.services_without_secret form
                 SampleAccounts.directory in
  fst first = Sent (crashed "Registration failed" no_secret)
  /\ length (accounts (snd first)) = 2%nat
  /\ fst (register SampleAccounts.services_without_secret form (snd first))
     = Sent (refuse 400 "User with this email already exists").
Proof. repeat split; vm_compute; reflexivity. Qed.

Lemma login_email_is_text env b :
  login_validators env b = [] -> exists s, get b "email" = VStr s.
Proof.
  unfold login_validators, check. intros H. apply app_eq_nil in H as [H _].
  destruct (get b "email"); simpl in H; try discriminate. eauto.
Qed.

(** [POST /login], once the chain has passed. *)
Lemma login_cases env b d s :
  login_validators env b = [] ->
  get b "email" = VStr s ->
  login env b d
  = match by_email d (VStr s) with
    | [] => (Sent (refuse 401 "Invalid credentials"), d)
    | user :: _ =>
        match get b "password" with
        | VStr p =>
            if bcrypt_compare env p (acc_password user) then
              (Sent (if secret_set env then
                       granted 200 "Login successful" (Some (account_fields user))
                         (jwt_sign (login_payload (acc_user user)) LoginSite
                            (clock env))
                     else crashed "Login failed" no_secret), d)
            else (Sent (refuse 401 "Invalid credentials"), d)
        | v => (Sent (crashed "Login failed" (illegal_arguments v "string")), d)
        end
    end.
Proof.
  intros Hval He. unfold login. rewrite Hval, He. step_unfold. replaced.
  destruct (by_email d (VStr s)) as [|user rest]; [reflexivity |].
  destruct (get b "password") as [| | | |p|]; try reflexivity.
  destruct (bcrypt_compare env p (acc_password user)); [|reflexivity].
  simpl. rewrite !jwt_sign_claims. destruct (secret_set env); reflexivity.
Qed.

(** C8: with a signing secret, an accepted login is answered with a token
    that expires 24 hours (86400 s) after its issuance, and a registration
    that creates an account with one that expires 7 days (604800 s) after
    it; every token in an answer of [POST /login] has the first lifetime
    and every token in an answer of [POST /register] the second, and the
    routes behind the gate answer without a token. *)
Theorem token_lifetimes (env : Services) (b : Obj) (d : Directory) :
  (forall s p user rest,
      secret_set env = true ->
      login_validators env b = [] ->
      get b "email" = VStr s ->
      get b "password" = VStr p ->
      by_email d (VStr s) = user :: rest ->
      bcrypt_compare env p (acc_password user) = true ->
      exists token,
        fst (login env b d)
        = Sent (granted 200 "Login successful" (Some (account_fields user))
                  (Some token))
        /\ get token "userId" = VNum (u_id (acc_user user))
        /\ get token "iat" = VNum (clock env / 1000)
        /\ get token "exp" = VNum (clock env / 1000 + 24 * 3600))
  /\ (forall s p,
        secret_set env = true ->
        register_validators env b = [] ->
        get b "email" = VStr s ->
        get b "password" = VStr p ->
        by_email d (VStr s) = [] ->
        exists user token,
          fst (register env b d)
          = Sent (granted 201 "User registered successfully" (Some user)
                    (Some token))
          /\ get token "userId" = VNum (next_account d)
          /\ get token "iat" = VNum (clock env / 1000)
          /\ get token "exp" = VNum (clock env / 1000 + 7 * 24 * 3600))
  /\ (forall r token,
        r_token r = Some token ->
        (fst (login env b d) = Sent r ->
         r_status r = 200
         /\ get token "iat" = VNum (clock env / 1000)
         /\ get token "exp" = VNum (clock env / 1000 + 24 * 3600))
        /\ (fst (register env b d) = Sent r ->
            r_status r = 201
            /\ get token "iat" = VNum (clock env / 1000)
            /\ get token "exp" = VNum (clock env / 1000 + 7 * 24 * 3600)))
  /\ (forall genv req r,
        fst (route_profile genv req d) = Sent r
        \/ fst (route_change_password genv env req d) = Sent r ->
        r_token r = None).
Proof.
  split; [| split; [| split]].
  - intros s p user rest Hsec Hval He Hp Hrows Hcmp.
    rewrite (login_cases env b d s Hval He), Hrows, Hp, Hcmp, Hsec.
    destruct (jwt_sign_times (login_payload (acc_user user)) LoginSite (clock env)
                _ (jwt_sign_claims _ _ _)) as [Hiat Hexp].
    rewrite jwt_sign_claims. eexists. split; [reflexivity |].
    split; [| split; [exact Hiat | exact Hexp]].
    unfold get, login_payload.
    rewrite !lookup_insert_ne by discriminate. now rewrite lookup_insert_eq.
  - intros s p Hsec Hval He Hp Hnone.
    rewrite (register_fresh env b d s p Hval He Hp Hnone), Hsec.
    destruct (jwt_sign_times (register_payload (next_account d) s (get b "type"))
                RegisterSite (clock env) _ (jwt_sign_claims _ _ _))
      as [Hiat Hexp].
    rewrite jwt_sign_claims. do 2 eexists. split; [reflexivity |].
    split; [| split; [exact Hiat | exact Hexp]].
    unfold get, register_payload.
    rewrite !lookup_insert_ne by discriminate. now rewrite lookup_insert_eq.
  - intros r token Htok. split.
    + destruct (login_validators env b) as [|e es] eqn:Hval.
      * destruct (login_email_is_text env b Hval) as [s He].
        rewrite (login_cases env b d s Hval He).
        destruct (by_email d (VStr s)) as [|user rest];
          [intros [= <-]; discriminate Htok |].
        destruct (get b "password") as [| | | |p|];
          try (intros [= <-]; discriminate Htok).
        destruct (bcrypt_compare env p (acc_password user));
          [| intros [= <-]; discriminate Htok].
        destruct (secret_set env); [| intros [= <-]; discriminate Htok].
        intros [= <-]. split; [reflexivity |].
        now apply (jwt_sign_times _ LoginSite _ _ Htok).
      * unfold login. rewrite Hval. intros [= <-]. discriminate Htok.
    + destruct (register_validators env b) as [|e es] eqn:Hval.
      * destruct (register_email_is_text env b Hval) as [s He].
        rewrite (register_cases env b d s Hval He).
        destruct (by_email d (VStr s)) as [|a0 rest];
          [| intros [= <-]; discriminate Htok].
        destruct (get b "password") as [| | | |p|];
          try (intros [= <-]; discriminate Htok).
        destruct (secret_set env); [| intros [= <-]; discriminate Htok].
        intros [= <-]. split; [reflexivity |].
        now apply (jwt_sign_times _ RegisterSite _ _ Htok).
      * unfold register. rewrite Hval. intros [= <-]. discriminate Htok.
  - intros genv req r.
    unfold route_profile, route_change_password, behind_gate.
    destruct (fst (authenticateToken genv req (gate_world d))) as [user|r0|e].
    + unfold profile, change_password. step_unfold.
      intros [H | H]; revert H;
        repeat match goal with
               | |- context [match ?x with _ => _ end] =>
                   lazymatch x with
                   | context [match _ with _ => _ end] => fail
                   | _ => destruct x
                   end
               end; intros [= <-]; reflexivity.
    + intros [[= <-] | [= <-]]; reflexivity.
    + intros [H | H]; discriminate H.
Qed.

Lemma token_lifetimes_witness :
  (exists token,
      fst (login SampleAccounts.services
             (SampleAccounts.credentials "alice@example.org" "wonderland")
             SampleAccounts.directory)
      = Sent (granted 200 "Login successful"
                (Some (account_fields SampleAccounts.alice_account)) (Some token))
      /\ get token "userId" = VNum 1
      /\ get token "iat" = VNum 1793534400
      /\ get token "exp" = VNum (1793534400 + 86400))
  /\ (exists user token,
        fst (register SampleAccounts.services
               (SampleAccounts.form "carol@example.org" "s3cret!")
               SampleAccounts.directory)
        = Sent (granted 201 "User registered successfully" (Some user)
                  (Some token))
        /\ get token "userId" = VNum 2
        /\ get token "iat" = VNum 1793534400
        /\ get token "exp" = VNum (1793534400 + 604800)).
Proof.
  split.
  - exact (proj1 (token_lifetimes SampleAccounts.services
                    (SampleAccounts.credentials "alice@example.org" "wonderland")
                    SampleAccounts.directory)
             "alice@example.org" "wonderland" SampleAccounts.alice_account []
             eq_refl eq_refl eq_refl eq_refl eq_refl eq_refl).
  - exact (proj1 (proj2 (token_lifetimes SampleAccounts.services
                           (SampleAccounts.form "carol@example.org" "s3cret!")
                           SampleAccounts.directory))
             "carol@example.org" "s3cret!"
             eq_refl eq_refl eq_refl eq_refl eq_refl).
Defined.

(** X20: a login for an address without account and a login with a
    password that the first account of that address does not accept get
    the same answer, 401 "Invalid credentials", and store nothing. *)
Theorem login_failures_alike (env : Services) (b : Obj) (d : Directory)
    (s p : string) :
  login_validators env b = [] ->
  get b "email" = VStr s ->
  get b "password" = VStr p ->
  (forall a rest, by_email d (VStr s) = a :: rest ->
                  bcrypt_compare env p (acc_password a) = false) ->
  login env b d = (Sent (refuse 401 "Invalid credentials"), d).
Proof.
  intros Hval He Hp Hbad. rewrite (login_cases env b d s Hval He), Hp.
  destruct (by_email d (VStr s)) as [|a rest]; [reflexivity |].
  now rewrite (Hbad a rest eq_refl).
Qed.

Lemma login_failures_alike_witness :
  login SampleAccounts.services
    (SampleAccounts.credentials "alice@example.org" "looking-glass")
    SampleAccounts.directory
  = (Sent (refuse 401 "Invalid credentials"), SampleAccounts.directory)
  /\ login SampleAccounts.services
       (SampleAccounts.credentials "nobody@example.org" "looking-glass")
       SampleAccounts.directory
     = (Sent (refuse 401 "Invalid credentials"), SampleAccounts.directory).
Proof.
  split.
  - apply (login_failures_alike SampleAccounts.services _ _
             "alice@example.org" "looking-glass"); try reflexivity.
    intros a rest [= <- _]. reflexivity.
  - apply (login_failures_alike SampleAccounts.services _ _
             "nobody@example.org" "looking-glass"); try reflexivity.
    intros a rest H. discriminate H.
Defined.

(** X21: who has just registered can log in: with the address and the
    password of a registration that created an account, and bcrypt
    accepting the password against the hash it made of it, a login service
    with a signing secret answers 200 for the new account, with a token
    signed at the login site for its id; one without a secret answers 500
    "Login failed".  Whether the registration itself was answered 201 or,
    for want of a secret, 500 makes no difference. *)
Theorem register_then_login (env env2 : Services) (b b2 : Obj) (d : Directory)
    (s p : string) :
  register_validators env b = [] ->
  get b "email" = VStr s ->
  get b "password" = VStr p ->
  by_email d (VStr s) = [] ->
  login_validators env2 b2 = [] ->
  get b2 "email" = VStr s ->
  get b2 "password" = VStr p ->
  bcrypt_compare env2 p (bcrypt_hash env p) = true ->
  exists user token,
    login env2 b2 (snd (register env b d))
    = (Sent (if secret_set env2 then
               granted 200 "Login successful" (Some user) (Some token)
             else crashed "Login failed" no_secret),
       snd (register env b d))
    /\ get user "id" = VNum (next_account d)
    /\ get user "email" = VStr s
    /\ get token "userId" = VNum (next_account d)
    /\ get token "exp" = VNum (clock env2 / 1000 + 86400).
Proof.
  intros Hval He Hp Hnone Hval2 He2 Hp2 Hcmp.
  pose proof (by_email_empty d s Hnone) as Hfresh.
  rewrite (register_fresh env b d s p Hval He Hp Hnone). cbn [snd].
  rewrite (login_cases env2 b2 _ s Hval2 He2), Hp2.
  destruct d as [l n]. cbn [accounts next_account].
  rewrite (by_email_appended l (n + 1) s _ Hfresh) by reflexivity.
  cbn [acc_password]. rewrite Hcmp, jwt_sign_claims.
  do 2 eexists. split; [reflexivity |]. repeat split.
Qed.

Lemma register_then_login_witness :
  exists user token,
    login SampleAccounts.services
      (SampleAccounts.credentials "carol@example.org" "s3cret!")
      (snd (register SampleAccounts.services
              (SampleAccounts.form "carol@example.org" "s3cret!")
              SampleAccounts.directory))
    = (Sent (granted 200 "Login successful" (Some user) (Some token)),
       snd (register SampleAccounts.services
              (SampleAccounts.form "carol@example.org" "s3cret!")
              SampleAccounts.directory))
    /\ get user "id" = VNum 2
    /\ get user "email" = VStr "carol@example.org"
    /\ get token "userId" = VNum 2
    /\ get token "exp" = VNum (1793534400 + 86400).
Proof.
  exact (register_then_login SampleAccounts.services SampleAccounts.services
           (SampleAccounts.form "carol@example.org" "s3cret!")
           (SampleAccounts.credentials "carol@example.org" "s3cret!")
           SampleAccounts.directory "carol@example.org" "s3cret!"
           eq_refl eq_refl eq_refl eq_refl eq_refl eq_refl eq_refl eq_refl).
Defined.

Lemma by_id_number (d : Directory) (n : Z) :
  by_id d (VNum n) = filter (fun a => u_id (acc_user a) = n) (accounts d).
Proof.
  unfold by_id. apply list_filter_iff. intros a. simpl. apply Z.eqb_eq.
Qed.

Lemma gate_context_account genv req d user :
  fst (authenticateToken genv req (gate_world d)) = Normal user ->
  exists a,
    a ∈ accounts d
    /\ user = identity_context (acc_user a)
    /\ get user "userId" = VNum (u_id (acc_user a)).
Proof.
  intros H. destruct (authenticateToken genv req (gate_world d)) as [c w1] eqn:E.
  simpl in H. subst c. apply authenticateToken_normal in E as (row & Hin & -> & _).
  simpl in Hin. apply list_elem_of_fmap in Hin as (a & -> & Ha).
  exists a. repeat split. exact Ha.
Qed.

(** X22: changing the password behind the gate: when the chain passes and
    bcrypt accepts the current password against the stored hash of the
    caller's first account, every account of the caller's id gets the hash
    of the new password and the answer is 200; when bcrypt does not accept
    it, the answer is 400 "Current password is incorrect" and nothing is
    stored. *)
Theorem change_password_effect (genv : Env) (env : Services) (req : Request)
    (d : Directory) (user : Obj) (current new : string) :
  fst (authenticateToken genv req (gate_world d)) = Normal user ->
  password_validators (body req) = [] ->
  get (body req) "currentPassword" = VStr current ->
  get (body req) "newPassword" = VStr new ->
  exists n stored rest,
    get user "userId" = VNum n
    /\ filter (fun a => u_id (acc_user a) = n) (accounts d) = stored :: rest
    /\ route_change_password genv env req d
       = if bcrypt_compare env current (acc_password stored) then
           (Sent (granted 200 "Password changed successfully" None None),
            {| accounts :=
                 map (fun a => if u_id (acc_user a) =? n
                               then with_password (bcrypt_hash env new) a
                               else a)
                   (accounts d);
               next_account := next_account d |})
         else (Sent (refuse 400 "Current password is incorrect"), d).
Proof.
  intros Hauth Hval Hcur Hnew.
  destruct (gate_context_account genv req d user Hauth) as (a & Ha & -> & Hid).
  set (n := u_id (acc_user a)) in *.
  destruct (filter (fun x => u_id (acc_user x) = n) (accounts d))
    as [|stored rest] eqn:Hrows.
  { assert (a ∈ filter (fun x => u_id (acc_user x) = n) (accounts d)) as H
        by (apply list_elem_of_filter; auto).
    rewrite Hrows in H. now apply elem_of_nil in H. }
  exists n, stored, rest. split; [exact Hid |]. split; [exact Hrows |].
  unfold route_change_password, behind_gate. rewrite Hauth.
  unfold change_password. rewrite Hval, Hcur, Hnew, Hid. step_unfold.
  replaced. rewrite by_id_number, Hrows.
  destruct (bcrypt_compare env current (acc_password stored)); [|reflexivity].
  cbv beta iota. replaced. reflexivity.
Qed.

Lemma change_password_effect_witness :
  exists n stored rest,
    get (identity_context Sample.alice) "userId" = VNum n
    /\ filter (fun a => u_id (acc_user a) = n) (accounts SampleAccounts.directory)
       = stored :: rest
    /\ route_change_password (Sample.env RejectUndefined) SampleAccounts.services
         (SampleAccounts.password_change "wonderland" "looking-glass")
         SampleAccounts.directory
       = if bcrypt_compare SampleAccounts.services "wonderland" (acc_password stored)
         then
           (Sent (granted 200 "Password changed successfully" None None),
            {| accounts :=
                 map (fun a => if u_id (acc_user a) =? n
                               then with_password
                                      (bcrypt_hash SampleAccounts.services
                                         "looking-glass") a
                               else a)
                   (accounts SampleAccounts.directory);
               next_account := next_account SampleAccounts.directory |})
         else (Sent (refuse 400 "Current password is incorrect"),
               SampleAccounts.directory).
Proof.
  exact (change_password_effect (Sample.env RejectUndefined)
           SampleAccounts.services
           (SampleAccounts.password_change "wonderland" "looking-glass")
           SampleAccounts.directory (identity_context Sample.alice)
           "wonderland" "looking-glass" eq_refl eq_refl eq_refl eq_refl).
Defined.

(** The sample run: Alice's hash is replaced. *)
Example change_password_sample :
  route_change_password (Sample.env RejectUndefined) SampleAccounts.services
    (SampleAccounts.password_change "wonderland" "looking-glass")
    SampleAccounts.directory
  = (Sent (granted 200 "Password changed successfully" None None),
     {| accounts := [with_password "$2a$12$looking-glass"
                       SampleAccounts.alice_account];
        next_account := 2 |}).
Proof. vm_compute. reflexivity. Qed.

(** X23: a registration with a password of fewer than six characters, or
    with a type other than patient and admin (doctor, say), is answered
    400 "Validation errors" naming the field, and nothing is stored. *)
Theorem register_rejects (env : Services) (b : Obj) (d : Directory) :
  (exists p, get b "password" = VStr p /\ (String.length p < 6)%nat)
  \/ (exists t, get b "type" = VStr t /\ t <> "patient" /\ t <> "admin") ->
  exists errors,
    register env b d = (Sent (invalid errors), d)
    /\ ((exists p, get b "password" = VStr p /\ (String.length p < 6)%nat) ->
        "password" ∈ errors)
    /\ ((exists t, get b "type" = VStr t /\ t <> "patient" /\ t <> "admin") ->
        "type" ∈ errors).
Proof.
  intros Hbad.
  assert (((exists p, get b "password" = VStr p /\ (String.length p < 6)%nat) ->
           "password" ∈ register_validators env b)
          /\ ((exists t, get b "type" = VStr t /\ t <> "patient" /\ t <> "admin") ->
              "type" ∈ register_validators env b)) as [Hp Ht].
  { unfold register_validators. split.
    - intros (p & -> & Hlen). rewrite !elem_of_app. right. right. left.
      unfold check, minLength. cbn [to_text js_to_string].
      rewrite (proj2 (Nat.leb_gt 6 (String.length p)) Hlen). left.
    - intros (t & -> & H1 & H2). rewrite !elem_of_app. do 4 right.
      unfold check. simpl. rewrite bool_decide_eq_false_2; [left |].
      rewrite !elem_of_cons, elem_of_nil. intros [-> | [-> | []]]; congruence. }
  exists (register_validators env b). split; [|split; assumption].
  unfold register. destruct (register_validators env b) as [|e es] eqn:E.
  - exfalso. destruct Hbad as [H | H]; [apply Hp in H | apply Ht in H];
      now apply elem_of_nil in H.
  - reflexivity.
Qed.

Lemma register_rejects_witness :
  exists errors,
    register SampleAccounts.services
      (<["type" := VStr "doctor"]>
         (SampleAccounts.form "carol@example.org" "s3cret!"))
      SampleAccounts.directory
    = (Sent (invalid errors), SampleAccounts.directory)
    /\ "type" ∈ errors.
Proof.
  destruct (register_rejects SampleAccounts.services
              (<["type" := VStr "doctor"]>
                 (SampleAccounts.form "carol@example.org" "s3cret!"))
              SampleAccounts.directory) as (errors & Hrun & _ & Htype).
  - right. exists "doctor". repeat split; discriminate.
  - exists errors. split; [exact Hrun |]. apply Htype.
    exists "doctor". repeat split; discriminate.
Defined.


(** X25: [GET /profile] never answers 404 to a caller that passed the
    gate: it sends the selected row of the first account with the caller's
    id as it is, that is id, name, email, phone, type and created_at, and
    no password. *)
Theorem profile_of_caller (genv : Env) (req : Request) (d : Directory)
    (user : Obj) :
  fst (authenticateToken genv req (gate_world d)) = Normal user ->
  exists n stored rest shown,
    get user "userId" = VNum n
    /\ filter (fun a => u_id (acc_user a) = n) (accounts d) = stored :: rest
    /\ route_profile genv req d
       = (Sent {| r_status := 200; r_success := true; r_message := "";
                  r_errors := []; r_error := None; r_user := Some shown;
                  r_token := None |}, d)
    /\ dom shown
       = ({["id"; "name"; "email"; "phone"; "type"; "created_at"]} : gset string)
    /\ get shown "id" = VNum n
    /\ get shown "name" = VStr (u_name (acc_user stored))
    /\ get shown "email" = VStr (u_email (acc_user stored))
    /\ get shown "phone" = acc_phone stored
    /\ get shown "type" = VStr (u_type (acc_user stored))
    /\ get shown "created_at" = acc_created_at stored.
Proof.
  intros Hauth.
  destruct (gate_context_account genv req d user Hauth) as (a & Ha & -> & Hid).
  set (n := u_id (acc_user a)) in *.
  destruct (filter (fun x => u_id (acc_user x) = n) (accounts d))
    as [|stored rest] eqn:Hrows.
  { assert (a ∈ filter (fun x => u_id (acc_user x) = n) (accounts d)) as H
        by (apply list_elem_of_filter; auto).
    rewrite Hrows in H. now apply elem_of_nil in H. }
  assert (u_id (acc_user stored) = n) as Hn.
  { assert (stored ∈ filter (fun x => u_id (acc_user x) = n) (accounts d)) as H
        by (rewrite Hrows; left).
    apply list_elem_of_filter in H. tauto. }
  exists n, stored, rest, (profile_fields stored).
  split; [exact Hid |]. split; [exact Hrows |]. split.
  - unfold route_profile, behind_gate. rewrite Hauth. unfold profile.
    rewrite Hid. step_unfold. replaced. rewrite by_id_number, Hrows.
    reflexivity.
  - split; [| split; [| repeat split]].
    + unfold profile_fields, account_fields, public_fields.
      rewrite !dom_insert_L, dom_empty_L.
      apply set_eq. intros k.
      rewrite !elem_of_union, !elem_of_singleton, elem_of_empty. tauto.
    + unfold get, profile_fields, account_fields, public_fields.
      rewrite lookup_insert_ne by discriminate.
      rewrite lookup_insert_eq. simpl. now rewrite Hn.
Qed.

Lemma profile_of_caller_witness :
  exists n stored rest shown,
    get (identity_context Sample.alice) "userId" = VNum n
    /\ filter (fun a => u_id (acc_user a) = n) (accounts SampleAccounts.directory)
       = stored :: rest
    /\ route_profile (Sample.env RejectUndefined)
         (Sample.request "alice.jwt" None ∅) SampleAccounts.directory
       = (Sent {| r_status := 200; r_success := true; r_message := "";
                  r_errors := []; r_error := None; r_user := Some shown;
                  r_token := None |}, SampleAccounts.directory)
    /\ dom shown
       = ({["id"; "name"; "email"; "phone"; "type"; "created_at"]} : gset string)
    /\ get shown "id" = VNum n
    /\ get shown "name" = VStr (u_name (acc_user stored))
    /\ get shown "email" = VStr (u_email (acc_user stored))
    /\ get shown "phone" = acc_phone stored
    /\ get shown "type" = VStr (u_type (acc_user stored))
    /\ get shown "created_at" = acc_created_at stored.
Proof.
  exact (profile_of_caller (Sample.env RejectUndefined)
           (Sample.request "alice.jwt" None ∅) SampleAccounts.directory
           (identity_context Sample.alice) eq_refl).
Defined.

End AuthRouterFacts.

(** ** Deleting users *)

Lemma digit_not_blank c d : digit_of c = Some d -> is_blank c = false.
Proof.
  unfold digit_of, is_blank.
  destruct ((48 <=? Z.of_N (N_of_ascii c)) && (Z.of_N (N_of_ascii c) <=? 57)) eqn:E;
    [|discriminate].
  intros _. apply andb_true_iff in E as [E1 E2].
  apply Z.leb_le in E1, E2. apply orb_false_iff. split.
  - apply Z.eqb_neq. lia.
  - apply andb_false_iff. right. apply Z.leb_gt. lia.
Qed.

(** A run of digits is read in radix 10. *)
Lemma read_number_digits ds :
  all_digits ds = true -> read_number ds = read_digits ds 0 false.
Proof.
  destruct ds as [|c r]; [reflexivity |]. intros H.
  destruct (Ascii.eqb_spec c "0") as [-> | Hc].
  - destruct r as [|c' r']; [reflexivity |].
    cbn [all_digits] in H. apply andb_true_iff in H as [_ H].
    apply andb_true_iff in H as [Hd _]. apply bool_decide_eq_true in Hd as [d Hd].
    unfold read_number.
    destruct (Ascii.eqb_spec c' "x") as [-> |]; [discriminate Hd |].
    destruct (Ascii.eqb_spec c' "X") as [-> |]; [discriminate Hd |].
    reflexivity.
  - unfold read_number.
    destruct c as [[] [] [] [] [] [] [] []]; try reflexivity; now contradict Hc.
Qed.

(** On an integer literal the two readings agree. *)
Lemma read_integer_literal s : isInt s = true -> read_integer s = parseInt s.
Proof.
  unfold isInt. intros H.
  destruct s as [|c r]; [discriminate |].
  destruct (Ascii.eqb_spec c "+") as [-> | Hplus];
    [| destruct (Ascii.eqb_spec c "-") as [-> | Hminus]].
  - assert (all_digits r = true) as Hr by (destruct r; [discriminate | exact H]).
    unfold read_integer, parseInt. simpl. now apply read_number_digits.
  - assert (all_digits r = true) as Hr by (destruct r; [discriminate | exact H]).
    unfold read_integer, parseInt. simpl. now rewrite read_number_digits.
  - assert (all_digits (String c r) = true) as Hall.
    { destruct c as [[] [] [] [] [] [] [] []]; try exact H;
        first [now contradict Hplus | now contradict Hminus]. }
    pose proof (read_number_digits _ Hall) as Hr.
    cbn [all_digits] in Hall. apply andb_true_iff in Hall as [Hd _].
    apply bool_decide_eq_true in Hd as [d Hd].
    pose proof (digit_not_blank c d Hd) as Hb.
    unfold read_integer, parseInt. cbn [skip_blanks]. rewrite Hb.
    assert (skip_spaces (String c r) = String c r) as ->.
    { destruct c as [[] [] [] [] [] [] [] []]; try reflexivity; discriminate Hd. }
    destruct c as [[] [] [] [] [] [] [] []]; try exact Hr;
      first [now contradict Hplus | now contradict Hminus].
Qed.

Lemma nearest_double_small a : 0 <= a < 2 ^ 53 -> nearest_double a = a.
Proof.
  intros H. unfold nearest_double.
  destruct (Z.ltb_spec a (2 ^ 53)); [reflexivity | lia].
Qed.

Lemma nearest_double_large a : 2 ^ 53 <= a -> 2 ^ 53 <= nearest_double a.
Proof.
  intros H. unfold nearest_double.
  destruct (Z.ltb_spec a (2 ^ 53)) as [Hlt | _]; [lia |].
  assert (0 < a) as Hpos by lia.
  assert (53 <= Z.log2 a) as Hlog by (apply Z.log2_le_pow2; lia).
  set (e := Z.log2 a - 52).
  assert (1 <= e) as He by lia.
  assert (0 < 2 ^ e) as Hpow by (apply Z.pow_pos_nonneg; lia).
  assert (2 ^ 52 <= a / 2 ^ e) as Hq.
  { apply Z.div_le_lower_bound; [exact Hpow |].
    rewrite <- Z.pow_add_r by lia.
    replace (e + 52) with (Z.log2 a) by lia. now apply Z.log2_spec. }
  assert (a / 2 ^ e
          <= round_half_even (a / 2 ^ e) (a mod 2 ^ e) (2 ^ (e - 1))) as Hround.
  { unfold round_half_even.
    destruct (a mod 2 ^ e <? 2 ^ (e - 1)); [lia |].
    destruct (2 ^ (e - 1) <? a mod 2 ^ e); [lia |].
    destruct (Z.even (a / 2 ^ e)); lia. }
  assert (2 ^ 1 <= 2 ^ e) as Htwo by (apply Z.pow_le_mono_r; lia).
  change (2 ^ 53) with (2 ^ 52 * 2 ^ 1).
  apply Z.mul_le_mono_nonneg; lia.
Qed.

(** A safe integer is the double of itself and of no other integer. *)
Lemma to_double_safe n me :
  Z.abs me < 2 ^ 53 -> to_double n = Some me <-> n = me.
Proof.
  intros Hme. unfold to_double. split.
  - destruct (nearest_double (Z.abs n) <? 2 ^ 1024); [|discriminate].
    intros [= E].
    destruct (Z.lt_ge_cases (Z.abs n) (2 ^ 53)) as [Hs | Hl].
    + rewrite nearest_double_small in E by lia. destruct n; simpl in *; lia.
    + pose proof (nearest_double_large _ Hl) as Hbig.
      destruct n; simpl in *; lia.
  - intros ->. rewrite nearest_double_small by lia.
    assert (2 ^ 53 < 2 ^ 1024) as Hmax by (apply Z.pow_lt_mono_r; lia).
    destruct (Z.ltb_spec (Z.abs me) (2 ^ 1024)); [|lia].
    f_equal. destruct me; simpl; lia.
Qed.

Lemma same_number_safe n me :
  Z.abs me < 2 ^ 53 -> same_number (to_double n) (VNum me) = (n =? me).
Proof.
  intros Hme. unfold same_number.
  destruct (Z.eqb_spec n me) as [-> | Hne].
  - rewrite (proj2 (to_double_safe me me Hme) eq_refl). apply Z.eqb_refl.
  - destruct (to_double n) as [x|] eqn:E; [|reflexivity].
    apply Z.eqb_neq. intros ->. now apply (to_double_safe n me Hme) in E.
Qed.

Lemma path_id_literal req n :
  path_id req = Some n ->
  exists s,
    get (params req) "id" = VStr s
    /\ read_integer s = Some n
    /\ forall x, sql_eq (VNum x) (VStr s) = (x =? n).
Proof.
  intros Hp. destruct (path_id_param (Sample.env RejectUndefined) req n Hp)
    as (s & Hs & _ & Heq).
  exists s. split; [exact Hs |]. split; [|exact Heq].
  unfold path_id in Hp. rewrite Hs in Hp.
  destruct (isInt s) eqn:Hint; [|discriminate].
  now rewrite read_integer_literal.
Qed.

Lemma existsb_filter {A} (f : A -> bool) (l : list A) :
  existsb f l = match filter (fun x => f x = true) l with
                | [] => false
                | _ :: _ => true
                end.
Proof.
  induction l as [|x l IH]; [reflexivity |]. simpl. rewrite filter_cons.
  destruct (f x) eqn:E.
  - now rewrite decide_True by reflexivity.
  - now rewrite decide_False by discriminate.
Qed.

(** The handler for a caller whose id is a safe integer and an integer
    id [n]. *)
Lemma delete_user_cases row req w n :
  path_id req = Some n ->
  Z.abs (u_id row) < 2 ^ 53 ->
  delete_user (identity_context row) req w
  = if n =? u_id row then
      (Return (fail 400 "Cannot delete your own account"), w)
    else if existsb (fun u => u_id u =? n) (Users (db w)) then
      (Return (ok 200 (Some "User deleted successfully") PNone),
       {| db := with_users (db w) (filter (fun u => u_id u <> n) (Users (db w)));
          trace := trace w |})
    else (Return (fail 404 "User not found"), w).
Proof.
  intros Hp Hsafe. destruct (path_id_literal req n Hp) as (s & Hs & Hparse & Heq).
  unfold delete_user, user_named, parseInt_auto. rewrite Hs. cbn [js_to_string].
  rewrite Hparse. cbn [mbind option_bind].
  change (get (identity_context row) "userId") with (VNum (u_id row)).
  rewrite (same_number_safe n (u_id row) Hsafe).
  unfold replacing.
  rewrite (replacements_defined [VStr s])
    by (apply Forall_cons_2; [discriminate | apply Forall_nil_2]).
  js_unfold.
  destruct (n =? u_id row); [reflexivity |].
  rewrite existsb_filter.
  assert (filter (fun u => sql_eq (VNum (u_id u)) (VStr s) = true) (Users (db w))
          = filter (fun u => (u_id u =? n) = true) (Users (db w))) as ->.
  { apply list_filter_iff. intros u. now rewrite Heq. }
  assert (filter (fun u => sql_eq (VNum (u_id u)) (VStr s) = false) (Users (db w))
          = filter (fun u => u_id u <> n) (Users (db w))) as ->.
  { apply list_filter_iff. intros u. rewrite Heq. apply Z.eqb_neq. }
  destruct (filter _ (Users (db w))) as [|u rest]; reflexivity.
Qed.

(** X26: [DELETE /:id] of the users router, for a caller that passed the
    gate, a store whose user ids are safe integers and an integer id [n]:
    the caller's own id is refused with 400 "Cannot delete your own
    account"; any other id is deleted for any caller, whatever its type
    (200, all users of that id removed), or answered 404 "User not found"
    when no user has it. *)
Theorem delete_user_effect (env : Env) (req : Request) (w w1 : World)
    (user : Obj) (n : Z) :
  safe_ids (db w) ->
  authenticateToken env req w = (Normal user, w1) ->
  path_id req = Some n ->
  exists me,
    get user "userId" = VNum me
    /\ route_delete_user env req w
       = if n =? me then
           (Return (fail 400 "Cannot delete your own account"), w1)
         else if existsb (fun u => u_id u =? n) (Users (db w)) then
           (Return (ok 200 (Some "User deleted successfully") PNone),
            {| db := with_users (db w)
                       (filter (fun u => u_id u <> n) (Users (db w)));
               trace := trace w1 |})
         else (Return (fail 404 "User not found"), w1).
Proof.
  intros Hsafe Hauth Hp. unfold route_delete_user, bind. rewrite Hauth.
  apply authenticateToken_normal in Hauth as (row & Hin & -> & Hdb).
  exists (u_id row). split; [reflexivity |].
  rewrite (delete_user_cases row req w1 n Hp (Hsafe row Hin)). now rewrite Hdb.
Qed.

Lemma delete_user_effect_witness :
  exists me,
    get (identity_context Sample.bob) "userId" = VNum me
    /\ route_delete_user (Sample.env RejectUndefined)
         (Sample.request "bob.jwt" (Some "1") ∅) (Sample.world [])
       = if 1 =? me then
           (Return (fail 400 "Cannot delete your own account"),
            logged (Sample.world []) [EvVerify "bob.jwt"; EvUserLookup (VNum 2)])
         else if existsb (fun u => u_id u =? 1) (Users (db (Sample.world []))) then
           (Return (ok 200 (Some "User deleted successfully") PNone),
            {| db := with_users (db (Sample.world []))
                       (filter (fun u => u_id u <> 1)
                          (Users (db (Sample.world []))));
               trace := trace (logged (Sample.world [])
                                 [EvVerify "bob.jwt"; EvUserLookup (VNum 2)]) |})
         else (Return (fail 404 "User not found"),
               logged (Sample.world []) [EvVerify "bob.jwt"; EvUserLookup (VNum 2)]).
Proof.
  apply (delete_user_effect (Sample.env RejectUndefined)
           (Sample.request "bob.jwt" (Some "1") ∅) (Sample.world [])
           (logged (Sample.world []) [EvVerify "bob.jwt"; EvUserLookup (VNum 2)])
           (identity_context Sample.bob) 1).
  - intros u Hu. simpl in Hu. rewrite !elem_of_cons, elem_of_nil in Hu.
    destruct Hu as [-> | [-> | []]]; reflexivity.
  - reflexivity.
  - reflexivity.
Defined.

(** Bob, a patient, deletes Alice; deleting himself is refused. *)
Example delete_user_sample :
  Users (db (snd (route_delete_user (Sample.env RejectUndefined)
                    (Sample.request "bob.jwt" (Some "1") ∅) (Sample.world []))))
  = [Sample.bob]
  /\ fst (route_delete_user (Sample.env RejectUndefined)
            (Sample.request "bob.jwt" (Some "2") ∅) (Sample.world []))
     = Return (fail 400 "Cannot delete your own account").
Proof. split; vm_compute; reflexivity. Qed.

(** Past the safe integers [parseInt] rounds: a caller whose id is 2^53
    is refused the path 9007199254740993 as its own account. *)
Example delete_user_rounded_id :
  let big := {| u_id := 2 ^ 53; u_name := "Big"; u_email := "big@example.org";
                u_type := "patient" |} in
  parseInt_auto "9007199254740993" = Some (2 ^ 53)
  /\ fst (delete_user (identity_context big)
            (Sample.request "bob.jwt" (Some "9007199254740993") ∅)
            {| db := Sample.store_of [big] []; trace := [] |})
     = Return (fail 400 "Cannot delete your own account").
Proof. split; vm_compute; reflexivity. Qed.

(** X27: in a store whose user ids are safe integers, once user [n] has
    been deleted by someone else, a token whose userId is [n] no longer
    passes the gate, however valid its signature and expiry: the answer
    is 401 "User not found". *)
Theorem deleted_user_token_refused (env env2 : Env) (req req2 : Request)
    (w w1 : World) (user : Obj) (n : Z) (h token : string) (payload : Obj) :
  safe_ids (db w) ->
  authenticateToken env req w = (Normal user, w1) ->
  path_id req = Some n ->
  get user "userId" <> VNum n ->
  headers req2 !! "authorization" = Some h ->
  split_on " " h !! 2%nat = Some token ->
  token <> "" ->
  jwt_verify env2 token = Decoded payload ->
  get payload "userId" = VNum n ->
  fst (authenticateToken env2 req2 (snd (route_delete_user env req w)))
  = Return (fail 401 "User not found").
Proof.
  intros Hsafe Hauth Hp Hother Hh Ht Hne Hv Hid.
  rewrite authenticateToken_cases. unfold auth_outcome.
  rewrite Hh, Ht, Hv, Hid. apply String.eqb_neq in Hne. rewrite Hne.
  rewrite bool_decide_eq_false_2 by discriminate.
  assert (user_named (db (snd (route_delete_user env req w))) (VNum n) = [])
    as ->; [|reflexivity].
  unfold route_delete_user, bind. rewrite Hauth.
  apply authenticateToken_normal in Hauth as (row & Hin & -> & Hdb).
  rewrite (delete_user_cases row req w1 n Hp (Hsafe row Hin)).
  destruct (Z.eqb_spec n (u_id row)) as [-> | _]; [now contradict Hother |].
  unfold user_named. rewrite existsb_filter.
  destruct (filter (fun u => (u_id u =? n) = true) (Users (db w1)))
    as [|u rest] eqn:Hrows; cbn [snd db with_users Users].
  - rewrite <- Hrows. apply list_filter_iff. intros x. simpl. reflexivity.
  - apply filter_nothing_in. intros x Hx. apply list_elem_of_filter in Hx as [Hx _].
    simpl. intros E. apply Z.eqb_eq in E. contradiction.
Qed.

Lemma deleted_user_token_refused_witness :
  fst (authenticateToken (Sample.env RejectUndefined)
         (Sample.request "alice.jwt" None ∅)
         (snd (route_delete_user (Sample.env RejectUndefined)
                 (Sample.request "bob.jwt" (Some "1") ∅) (Sample.world []))))
  = Return (fail 401 "User not found").
Proof.
  apply (deleted_user_token_refused (Sample.env RejectUndefined)
           (Sample.env RejectUndefined)
           (Sample.request "bob.jwt" (Some "1") ∅)
           (Sample.request "alice.jwt" None ∅) (Sample.world [])
           (logged (Sample.world []) [EvVerify "bob.jwt"; EvUserLookup (VNum 2)])
           (identity_context Sample.bob) 1 "Bearer  alice.jwt" "alice.jwt"
           (Sample.token_payload Sample.alice)); try reflexivity;
    try discriminate.
  intros u Hu. simpl in Hu. rewrite !elem_of_cons, elem_of_nil in Hu.
  destruct Hu as [-> | [-> | []]]; reflexivity.
Defined.
